(** * lxinit: network bring-up of an lx-branded zone

    A shallow embedding of [usr/src/lib/brand/lx/lx_init/lxinit.c] and the
    properties of its network configuration engine: the netstack buffer
    normalizer, the logical interface allocator, the address dispatcher,
    the routing-socket message builder and the static route line parser.

    The C code talks to the kernel and to libipadm, libdhcpagent and
    libzonecfg.  Every such call is an event of the trace kept in the
    [world]; what the call returns is read from an [oracle], indexed by
    the number of calls made so far, so that a theorem quantified over
    the oracle holds for every behaviour of the environment. *)

From Stdlib Require Import ZArith List String Ascii Bool Lia.
Import ListNotations.
Open Scope string_scope.
Open Scope Z_scope.

(** ** Constants *)

(** [#define NETSTACK_BUFSZ 524288] *)
Definition NETSTACK_BUFSZ : Z := 524288.

(** Constants of the system headers that lxinit.c includes (<net/if.h>,
    <sys/param.h>, <libipadm.h>, <net/route.h>, <limits.h>). *)
Definition LIFNAMSIZ : nat := 32.
Definition IPADM_AOBJSIZ : nat := 64.
Definition MAXNAMELEN : nat := 256.
Definition INT_MAX : Z := 2147483647.
Definition IPADM_SUCCESS : Z := 0.
Definition IPADM_IF_EXISTS : Z := 10.
Definition RTA_DST : Z := 1.
Definition RTA_GATEWAY : Z := 2.
Definition RTA_NETMASK : Z := 4.
Definition RTF_UP : Z := 1.
Definition RTF_GATEWAY : Z := 2.
Definition RTF_STATIC : Z := 2048.
Definition RTM_ADD : Z := 1.
Definition RTM_VERSION : Z := 3.
Definition sizeof_rt_msghdr : Z := 76.
Definition sizeof_sockaddr_in : Z := 16.

(** [RTMBUFSZ]: the header followed by three [sockaddr_in]. *)
Definition RTMBUFSZ : Z := sizeof_rt_msghdr + 3 * sizeof_sockaddr_in.

(** Address families; [AF_UNSPEC] is the value 0 that [bzero] leaves. *)
Inductive sa_family := AF_UNSPEC | AF_INET | AF_INET6.

(** The four protocols of [proto_entries]. *)
Inductive mod_proto :=
  MOD_PROTO_TCP | MOD_PROTO_UDP | MOD_PROTO_SCTP | MOD_PROTO_RAWIP.

(** ** C strings *)

Definition is_digit (c : ascii) : bool :=
  let n := nat_of_ascii c in (48 <=? n)%nat && (n <=? 57)%nat.

(** [isspace] in the C locale. *)
Definition is_space (c : ascii) : bool :=
  let n := nat_of_ascii c in
  (n =? 32)%nat || ((9 <=? n)%nat && (n <=? 13)%nat).

Definition digit_val (c : ascii) : Z := Z.of_nat (nat_of_ascii c) - 48.

Definition digit_of (n : Z) : ascii := ascii_of_nat (48 + Z.to_nat n).

(** Decimal digits of a number, least significant first; [fuel] bounds
    their count (ten digits print every 32-bit value). *)
Fixpoint lsd_digits (fuel : nat) (n : Z) : string :=
  match fuel with
  | O => ""
  | S f =>
      String (digit_of (n mod 10))
             (if n / 10 =? 0 then "" else lsd_digits f (n / 10))
  end.

Fixpoint rev_onto (s acc : string) : string :=
  match s with
  | "" => acc
  | String c s' => rev_onto s' (String c acc)
  end.

(** What [printf] writes for "%u". *)
Definition fmt_u (n : Z) : string := rev_onto (lsd_digits 10 n) "".

(** What [printf] writes for "%d". *)
Definition fmt_d (n : Z) : string :=
  if n <? 0 then String "-" (fmt_u (- n)) else fmt_u n.

(** The first [n] characters: what fits a buffer of [n] characters. *)
Definition truncate (n : nat) (s : string) : string := substring 0 n s.

(** [strncpy(dst, src, n)] followed by a read of [dst] as a string. *)
Definition strncpy (src : string) (n : nat) : string := truncate n src.

(** [strlcpy(dst, src, n)]: at most [n - 1] characters and the NUL. *)
Definition strlcpy (src : string) (n : nat) : string := truncate (n - 1) src.

(** [snprintf(buf, n, ...)] of the rendered text [s]. *)
Definition snprintf (n : nat) (s : string) : string := truncate (n - 1) s.

(** [strstr(hay, needle) != NULL] *)
Fixpoint strstr (hay needle : string) : bool :=
  if prefix needle hay then true
  else match hay with
       | "" => false
       | String _ hay' => strstr hay' needle
       end.

(** [strcmp(a, b) == 0] *)
Definition streq (a b : string) : bool := String.eqb a b.

(** [strncmp(a, b, n) == 0] *)
Definition strneq (a b : string) (n : nat) : bool :=
  String.eqb (truncate n a) (truncate n b).

(** What an [int] holds once [z] is stored in it: the low 32 bits of
    [z] in two's complement, which is [z] itself between INT_MIN and
    INT_MAX and wraps around beyond. *)
Definition to_int (z : Z) : Z :=
  (z + 2147483648) mod 4294967296 - 2147483648.

(** The leading digits of a string, read into an [int] digit by digit
    ([n = n * 10 + digit]), and what follows them. *)
Fixpoint scan_digits (s : string) (acc : Z) : Z * string :=
  match s with
  | String c s' =>
      if is_digit c then scan_digits s' (to_int (acc * 10 + digit_val c))
      else (acc, s)
  | "" => (acc, s)
  end.

(** No run of digits in [s] is longer than [n] characters, [run] being
    the length of the run that ends where [s] starts.  A number written
    with at most nine digits fits an [int]. *)
Fixpoint digit_runs_le (n : nat) (s : string) (run : nat) : bool :=
  match s with
  | String c s' =>
      if is_digit c
      then (S run <=? n)%nat && digit_runs_le n s' (S run)
      else digit_runs_le n s' 0
  | "" => true
  end.

Fixpoint skip_space (s : string) : string :=
  match s with
  | String c s' => if is_space c then skip_space s' else s
  | "" => s
  end.

Definition starts_with_digit (s : string) : bool :=
  match s with
  | String c _ => is_digit c
  | "" => false
  end.

(** One "%d" conversion of [scanf] into an [int], also the [int] that
    [atoi] returns: white space, an optional sign, at least one digit. *)
Definition scan_int (s : string) : option (Z * string) :=
  let s1 := skip_space s in
  let '(neg, s2) :=
    match s1 with
    | String "-" r => (true, r)
    | String "+" r => (false, r)
    | _ => (false, s1)
    end in
  if starts_with_digit s2 then
    let '(v, r) := scan_digits s2 0 in
    Some (to_int (if neg then - v else v), r)
  else None.

(** [atoi]: the number read, 0 when there is none. *)
Definition atoi (s : string) : Z :=
  match scan_int s with
  | Some (v, _) => v
  | None => 0
  end.

(** [sscanf(s, "%d.%d.%d", &v[0], &v[1], &v[2])] on [v = {0, 0, 0}]:
    conversions stop at the first mismatch, and the components not
    reached keep their 0. *)
Definition sscanf_version (s : string) : list Z :=
  match scan_int s with
  | None => [0; 0; 0]
  | Some (a, String "." r1) =>
      match scan_int r1 with
      | None => [a; 0; 0]
      | Some (b, String "." r2) =>
          match scan_int r2 with
          | None => [a; b; 0]
          | Some (c, _) => [a; b; c]
          end
      | Some (b, _) => [a; b; 0]
      end
  | Some (a, _) => [a; 0; 0]
  end.

(** The tokens that successive [strtok_r(.., ",", &lasts)] calls return:
    the maximal runs of characters other than the delimiter; [cur] is
    the token being read. *)
Fixpoint strtok_all (delim : ascii) (s cur : string) : list string :=
  match s with
  | "" => if streq cur "" then [] else [cur]
  | String c s' =>
      if Ascii.eqb c delim
      then (if streq cur "" then strtok_all delim s' ""
            else cur :: strtok_all delim s' "")
      else strtok_all delim s' (cur ++ String c "")
  end.

(** ** The world, the oracle and the monad of the program *)

(** An IPv4 socket address: [struct sockaddr_in]. *)
Record sockaddr_in := {
  sin_family : sa_family;
  sin_port : Z;
  sin_addr : Z;            (* the four bytes a.b.c.d as a*2^24+b*2^16+c*2^8+d *)
  sin_zero : Z
}.

(** What [bzero] leaves of a [sockaddr_in]. *)
Definition sockaddr_in_zero : sockaddr_in :=
  {| sin_family := AF_UNSPEC; sin_port := 0; sin_addr := 0; sin_zero := 0 |}.

(** The routing message of [lxi_iface_gateway]: the fields of the
    [rt_msghdr] that the code sets (the others stay zero) and the socket
    addresses that follow it in the buffer, in buffer order. *)
Record rt_msg := {
  rtm_msglen : Z;
  rtm_version : Z;
  rtm_type : Z;
  rtm_index : Z;
  rtm_flags : Z;
  rtm_addrs : Z;
  rtm_pid : Z;
  rtm_sockaddrs : list sockaddr_in
}.

(** Calls that leave the program. *)
Inductive call :=
| C_socket (af : sa_family)
| C_socket_route
| C_close
| C_ioctl_SIOCLIFADDIF (lifr_name : string)
| C_ioctl_SIOCGLIFFLAGS (lifr_name : string)
| C_ioctl_SIOCSLIFFLAGS_up (lifr_name : string)
| C_ipadm_create_if (ifname : string) (af : sa_family)
| C_ipadm_set_prop (pname pval : string) (proto : mod_proto)
| C_ipadm_create_addrobj (aobjname : string)
| C_ipadm_set_addr (aobjname addr : string)
| C_ipadm_create_addr (aobjname : string)
| C_ipadm_destroy_addrobj (aobjname : string)
| C_dhcp_start_agent (timeout : Z)
| C_dhcp_ipc_alloc_request (ifname : string)
| C_dhcp_ipc_make_request (ifname : string) (timeout : Z)
| C_if_nametoindex (ifname : string)
| C_write_route (m : rt_msg)
| C_svc_start (name path fmri : string)
| C_run_command (cmd : string).

Inductive event :=
| ECall (c : call) (r : Z)        (* a call and the value it returned *)
| EWarn (fmt : string)            (* lxi_warn, by its format string *)
| EErr (fmt : string).            (* lxi_err, by its format string *)

(** The environment: what a call returns when it is the n-th call that
    the process makes. *)
Record oracle := {
  sys_ret : nat -> call -> Z;     (* its return value *)
  sys_lifname : nat -> string -> string;
                                  (* the lifr_name that SIOCLIFADDIF leaves,
                                     from the one passed in *)
  sys_reply_code : nat -> Z;      (* the return_code of the DHCP reply *)
  sys_pid : Z                     (* getpid() *)
}.

(** The mutable state of the process and the trace of its actions. *)
Record world := {
  addrnum : Z;                    (* static int addrnum of lxi_iface_ip,
                                     followed while it stays an int *)
  ipv6_enable : bool;             (* the global ipv6_enable *)
  clock : nat;                    (* calls made so far *)
  trace : list event
}.

(** How a computation ends: it returns, or the process leaves through
    [lxi_err] (pause, then exit(1)), or it hands a NULL pointer to a
    function that reads a string from it (undefined in C). *)
Inductive outcome (A : Type) :=
| Ret (a : A)
| Exit
| Fault.
Arguments Ret {A} a.
Arguments Exit {A}.
Arguments Fault {A}.

Definition M (A : Type) : Type := world -> outcome A * world.

Definition ret {A} (a : A) : M A := fun w => (Ret a, w).

Definition bind {A B} (m : M A) (k : A -> M B) : M B :=
  fun w =>
    match m w with
    | (Ret a, w') => k a w'
    | (Exit, w') => (Exit, w')
    | (Fault, w') => (Fault, w')
    end.

Declare Scope lxi_scope.
Delimit Scope lxi_scope with lxi.
Notation "x <- c1 ;; c2" := (bind c1 (fun x => c2))
  (at level 61, c1 at next level, right associativity) : lxi_scope.
Notation "' pat <- c1 ;; c2" := (bind c1 (fun x => match x with pat => c2 end))
  (at level 61, pat pattern, c1 at next level, right associativity) : lxi_scope.
Notation "c1 ;; c2" := (bind c1 (fun _ => c2))
  (at level 61, right associativity) : lxi_scope.
Open Scope lxi_scope.

Definition log (e : event) (w : world) : world :=
  {| addrnum := addrnum w; ipv6_enable := ipv6_enable w;
     clock := clock w; trace := trace w ++ [e] |}.

Definition lxi_warn (fmt : string) : M unit :=
  fun w => (Ret tt, log (EWarn fmt) w).

Definition lxi_err {A} (fmt : string) : M A :=
  fun w => (Exit, log (EErr fmt) w).

Definition fault {A} : M A := fun w => (Fault, w).

Definition when (b : bool) (m : M unit) : M unit := if b then m else ret tt.

Section Program.

Variable o : oracle.

Definition tick (e : event) (w : world) : world :=
  {| addrnum := addrnum w; ipv6_enable := ipv6_enable w;
     clock := S (clock w); trace := trace w ++ [e] |}.

(** A call whose return value the program looks at. *)
Definition sys (c : call) : M Z :=
  fun w => let r := sys_ret o (clock w) c in (Ret r, tick (ECall c r) w).

(** [ioctl(s, SIOCLIFADDIF, &lifr)]: the return value and the
    [lifr_name] left in [lifr]. *)
Definition sys_lifaddif (name : string) : M (Z * string) :=
  fun w =>
    let r := sys_ret o (clock w) (C_ioctl_SIOCLIFADDIF name) in
    (Ret (r, sys_lifname o (clock w) name),
     tick (ECall (C_ioctl_SIOCLIFADDIF name) r) w).

(** [dhcp_ipc_make_request]: the error and the reply's [return_code]. *)
Definition sys_dhcp_request (name : string) (timeout : Z) : M (Z * Z) :=
  fun w =>
    let r := sys_ret o (clock w) (C_dhcp_ipc_make_request name timeout) in
    (Ret (r, sys_reply_code o (clock w)),
     tick (ECall (C_dhcp_ipc_make_request name timeout) r) w).

(** A call of a [void] function. *)
Definition sys_void (c : call) : M unit :=
  fun w => (Ret tt, tick (ECall c 0) w).

(** ** The zone configuration *)

Record zone_nwiftab := {
  zone_nwif_physical : string;
  zone_nwif_allowed_address : string;
  zone_nwif_defrouter : string;
  zone_nwif_attrp : list (string * string)
}.

(** What the zone document holds for lxinit: the zone attributes (name
    and value) and the network interfaces in configuration order. *)
Record zone_dochandle := {
  zone_attrs : list (string * string);
  zone_nwifs : list zone_nwiftab
}.

(** [zonecfg_lookup_attr] by attribute name. *)
Fixpoint zonecfg_lookup_attr (attrs : list (string * string)) (name : string)
  : option string :=
  match attrs with
  | [] => None
  | (n, v) :: rest =>
      if streq n name then Some v else zonecfg_lookup_attr rest name
  end.

(** [zone_find_attr]: the first attribute whose name agrees with [name]
    on [MAXNAMELEN] characters. *)
Fixpoint zone_find_attr (attrs : list (string * string)) (name : string)
  : option string :=
  match attrs with
  | [] => None
  | (n, v) :: rest =>
      if strneq n name MAXNAMELEN then Some v else zone_find_attr rest name
  end.

(** ** The netstack buffer normalizer *)

(** The [for (i = 0; i < 3; i++)] loop of [lxi_kern_release_cmp]. *)
Fixpoint vers_cmp (zvers cvers : list Z) : Z :=
  match zvers, cvers with
  | z :: zs, c :: cs =>
      if z >? c then 1
      else if z <? c then -1
      else vers_cmp zs cs
  | _, _ => 0
  end.

(** [lxi_kern_release_cmp]; [handle] and [vers] are not NULL where it is
    called. *)
Definition lxi_kern_release_cmp (handle : zone_dochandle) (vers : string)
  : M Z :=
  match zonecfg_lookup_attr (zone_attrs handle) "kernel-version" with
  | Some zone_attr_value =>
      let zvers := sscanf_version zone_attr_value in
      let cvers := sscanf_version vers in
      ret (vers_cmp zvers cvers)
  | None => lxi_err "%s kernel-version zonecfg_lookup_attr: %s\n"
  end.

Definition proto_entries : list mod_proto :=
  [MOD_PROTO_TCP; MOD_PROTO_UDP; MOD_PROTO_SCTP; MOD_PROTO_RAWIP].

(** The body of the [for] loop of [lxi_normalize_protocols]. *)
Definition normalize_proto (val_max val : string) (proto : mod_proto)
  : M unit :=
  status <- sys (C_ipadm_set_prop "max_buf" val_max proto) ;;
  when (negb (status =? IPADM_SUCCESS))
       (lxi_warn "%s buf ipadm_set_prop error %d index %d: %s") ;;
  status <- sys (C_ipadm_set_prop "send_buf" val proto) ;;
  when (negb (status =? IPADM_SUCCESS))
       (lxi_warn "%s buf ipadm_set_prop error %d index %d: %s") ;;
  status <- sys (C_ipadm_set_prop "recv_buf" val proto) ;;
  when (negb (status =? IPADM_SUCCESS))
       (lxi_warn "%s buf ipadm_set_prop error %d index %d: %s").

Fixpoint for_each {A} (body : A -> M unit) (l : list A) : M unit :=
  match l with
  | [] => ret tt
  | a :: l' => body a ;; for_each body l'
  end.

(** [lxi_normalize_protocols]; [iph] is the handle that
    [lxi_net_ipadm_open] left, which is not NULL. *)
Definition lxi_normalize_protocols (handle : zone_dochandle) : M unit :=
  c <- lxi_kern_release_cmp handle "3.4.0" ;;
  let max_buf := if c <? 0 then 4 * 1024 * 1024 else 6 * 1024 * 1024 in
  let val := snprintf 16 (fmt_u (NETSTACK_BUFSZ * 2)) in
  let val_max := snprintf 16 (fmt_u max_buf) in
  for_each (normalize_proto val_max val) proto_entries.


(** ** Interfaces and addresses *)

(** Writing and reading the global [ipv6_enable]. *)
Definition set_ipv6_enable (b : bool) : M unit :=
  fun w =>
    (Ret tt,
     {| addrnum := addrnum w; ipv6_enable := b;
        clock := clock w; trace := trace w |}).

Definition get_ipv6_enable : M bool := fun w => (Ret (ipv6_enable w), w).

(** [lxi_net_plumb]; both calls are given the copy [ifbuf]. *)
Definition lxi_net_plumb (iface : string) : M unit :=
  let ifbuf := strncpy iface LIFNAMSIZ in
  status <- sys (C_ipadm_create_if ifbuf AF_INET) ;;
  (if negb (status =? IPADM_SUCCESS) && negb (status =? IPADM_IF_EXISTS)
   then lxi_err "ipadm_create_if error %d: %s/v4: %s"
   else ret tt) ;;
  ipv6 <- get_ipv6_enable ;;
  if ipv6 then
    status <- sys (C_ipadm_create_if ifbuf AF_INET6) ;;
    if negb (status =? IPADM_SUCCESS) && negb (status =? IPADM_IF_EXISTS)
    then lxi_err "ipadm_create_if error %d: %s/v6: %s"
    else ret tt
  else ret tt.

Definition is_inet6 (af : sa_family) : bool :=
  match af with AF_INET6 => true | _ => false end.

Definition is_inet (af : sa_family) : bool :=
  match af with AF_INET => true | _ => false end.

(** [lxi_getif]: the return value and the contents of the in/out buffer
    [iface] (of [len] bytes) when it returns. *)
Definition lxi_getif (af : sa_family) (iface : string) (len : nat)
    (first_ipv4_configured : bool) : M (Z * string) :=
  s <- sys (C_socket af) ;;
  if s <? 0 then
    lxi_warn "socket error %d: bringing up %s: %s" ;;
    ret (-1, iface)
  else if is_inet6 af || first_ipv4_configured then
    '(r, lifr_name) <- sys_lifaddif (strncpy iface LIFNAMSIZ) ;;
    if r <? 0 then
      c <- sys C_close ;;
      when (negb (c =? 0)) (lxi_warn "failed to close socket: %s\n") ;;
      ret (-1, iface)
    else
      let iface' := strncpy lifr_name len in
      c <- sys C_close ;;
      when (negb (c =? 0)) (lxi_warn "failed to close socket: %s\n") ;;
      ret (0, iface')
  else
    c <- sys C_close ;;
    when (negb (c =? 0)) (lxi_warn "failed to close socket: %s\n") ;;
    ret (0, iface).

(** [addrnum++] *)
Definition next_addrnum : M Z :=
  fun w =>
    (Ret (addrnum w),
     {| addrnum := addrnum w + 1; ipv6_enable := ipv6_enable w;
        clock := clock w; trace := trace w |}).

(** [lxi_iface_ip]: the return value and [*first_ipv4_configured] when
    it returns. *)
Definition lxi_iface_ip (origiface addr : string)
    (first_ipv4_configured : bool) : M (Z * bool) :=
  let iface := strncpy origiface LIFNAMSIZ in
  let af := if strstr addr ":" then AF_INET6 else AF_INET in
  '(rc, iface) <- lxi_getif af iface LIFNAMSIZ first_ipv4_configured ;;
  if negb (rc =? 0) then
    lxi_warn "failed to create new logical interface on %s: %s" ;;
    ret (-1, first_ipv4_configured)
  else
    n <- next_addrnum ;;
    let aobjname := snprintf IPADM_AOBJSIZ (iface ++ "/addr" ++ fmt_d n) in
    status <- sys (C_ipadm_create_addrobj aobjname) ;;
    if negb (status =? IPADM_SUCCESS) then
      lxi_warn "ipadm_create_addrobj error %d: addr %s, interface %s: %s\n" ;;
      ret (-2, first_ipv4_configured)
    else
      status <- sys (C_ipadm_set_addr aobjname addr) ;;
      if negb (status =? IPADM_SUCCESS) then
        lxi_warn "ipadm_set_addr error %d: addr %s, interface %s: %s\n" ;;
        sys_void (C_ipadm_destroy_addrobj aobjname) ;;
        ret (-3, first_ipv4_configured)
      else
        status <- sys (C_ipadm_create_addr aobjname) ;;
        if negb (status =? IPADM_SUCCESS) then
          lxi_warn "ipadm_create_addr error for %s: %s\n" ;;
          sys_void (C_ipadm_destroy_addrobj aobjname) ;;
          ret (-4, first_ipv4_configured)
        else
          let first_ipv4_configured' :=
            if is_inet af then true else first_ipv4_configured in
          sys_void (C_ipadm_destroy_addrobj aobjname) ;;
          ret (0, first_ipv4_configured').

(** [lxi_iface_dhcp]: the return value and [*first_ipv4_configured] when
    it returns. *)
Definition lxi_iface_dhcp (origiface : string) (first_ipv4_configured : bool)
  : M (Z * bool) :=
  let timeout := 5 in
  let iface := strncpy origiface LIFNAMSIZ in
  '(rc, iface) <- lxi_getif AF_INET iface LIFNAMSIZ first_ipv4_configured ;;
  if negb (rc =? 0) then
    lxi_warn "failed to create new logical interface on %s: %s" ;;
    ret (-1, first_ipv4_configured)
  else
    a <- sys (C_dhcp_start_agent timeout) ;;
    if negb (a =? 0) then lxi_err "Failed to start dhcpagent\n"
    else
      dhcpreq <- sys (C_dhcp_ipc_alloc_request iface) ;;
      if dhcpreq =? 0 then
        lxi_warn "Unable to allocate memory to start DHCP on %s\n" ;;
        ret (-1, first_ipv4_configured)
      else
        '(err, return_code) <- sys_dhcp_request iface timeout ;;
        if negb (err =? 0) then
          lxi_warn "Failed to start DHCP on %s: %s\n" ;;
          ret (-1, first_ipv4_configured)
        else
          let err := return_code in
          if negb (err =? 0) then
            lxi_warn "Failed to start DHCP on %s: %s\n" ;;
            ret (err, first_ipv4_configured)
          else ret (err, true).

Definition lxi_iface_ipv6_link_local (iface : string) : M Z :=
  s <- sys (C_socket AF_INET6) ;;
  when (s =? -1) (lxi_warn "socket error %d: bringing up %s: %s") ;;
  r <- sys (C_ioctl_SIOCGLIFFLAGS (strncpy iface LIFNAMSIZ)) ;;
  if r <? 0 then
    lxi_warn "SIOCGLIFFLAGS error %d: bringing up %s: %s" ;;
    ret (-1)
  else
    r <- sys (C_ioctl_SIOCSLIFFLAGS_up (strncpy iface LIFNAMSIZ)) ;;
    if r <? 0 then
      lxi_warn "SIOCSLIFFLAGS error %d: bringing up %s: %s" ;;
      ret (-1)
    else
      sys C_close ;;
      ret 0.

(** ** The routing message *)

(** Modelled from the spec: [inet_pton(AF_INET, src, dst)] of libc, which
    is not under src/: the text of an IPv4 address, four decimal numbers
    of at most 255 separated by dots, to its four bytes; [None] when the
    call does not return 1.  [octets] are the numbers completed so far,
    last first, [cur] the one being read. *)
Fixpoint inet_pton4 (src : string) (saw_digit : bool) (octets : list Z)
    (cur : Z) : option Z :=
  match src with
  | "" =>
      if saw_digit && (List.length octets =? 3)%nat
      then Some (fold_right (fun b acc => acc * 256 + b) 0 (cur :: octets))
      else None
  | String ch src' =>
      if is_digit ch then
        let new := cur * 10 + digit_val ch in
        if new >? 255 then None
        else if negb saw_digit && (3 <? List.length octets)%nat then None
        else inet_pton4 src' true octets new
      else if Ascii.eqb ch "." && saw_digit then
        if (List.length octets =? 3)%nat then None
        else inet_pton4 src' false (cur :: octets) 0
      else None
  end.

Definition inet_pton (src : string) : option Z := inet_pton4 src false [] 0.

(** Modelled from the spec: [plen2mask(prefixlen, AF_INET, mask)] of
    libinetutil, which is not under src/: the netmask of a prefix length
    by the standard CIDR rule (the [prefixlen] leading bits of the 32
    set); [None] when the call does not return 0, which is for a length
    outside 0..32. *)
Definition plen2mask (prefixlen : Z) : option sockaddr_in :=
  if (0 <=? prefixlen) && (prefixlen <=? 32)
  then Some {| sin_family := AF_INET; sin_port := 0;
               sin_addr := Z.shiftl (Z.ones prefixlen) (32 - prefixlen);
               sin_zero := 0 |}
  else None.

Definition set_family (sa : sockaddr_in) (af : sa_family) : sockaddr_in :=
  {| sin_family := af; sin_port := sin_port sa;
     sin_addr := sin_addr sa; sin_zero := sin_zero sa |}.

Definition set_addr (sa : sockaddr_in) (a : Z) : sockaddr_in :=
  {| sin_family := sin_family sa; sin_port := sin_port sa;
     sin_addr := a; sin_zero := sin_zero sa |}.

(** The message in [rtbuf] once the header and the three socket
    addresses are filled in. *)
Definition build_rtmsg (idx : Z) (dst_sin gw_sin netmask_sin : sockaddr_in)
  : rt_msg :=
  {| rtm_msglen := 4 * (RTMBUFSZ / 4);
     rtm_version := RTM_VERSION;
     rtm_type := RTM_ADD;
     rtm_index := idx mod 65536;
     rtm_flags := Z.lor (Z.lor RTF_UP RTF_STATIC) RTF_GATEWAY;
     rtm_addrs := Z.lor (Z.lor RTA_DST RTA_GATEWAY) RTA_NETMASK;
     rtm_pid := sys_pid o;
     rtm_sockaddrs := [dst_sin; gw_sin; netmask_sin] |}.

(** The end of [lxi_iface_gateway], from [socket(PF_ROUTE, ...)] on. *)
Definition write_rtmsg (m : rt_msg) : M Z :=
  sockfd <- sys C_socket_route ;;
  if sockfd <? 0 then
    lxi_warn "socket(PF_ROUTE): %s\n" ;;
    ret (-1)
  else
    len <- sys (C_write_route m) ;;
    if len <? 0 then
      lxi_warn "could not write rtmsg: %s" ;;
      sys C_close ;;
      ret (-1)
    else if len <? rtm_msglen m then
      lxi_warn "write() rtmsg incomplete" ;;
      sys C_close ;;
      ret (-1)
    else
      sys C_close ;;
      ret 0.

(** [lxi_iface_gateway]; a NULL [iface], [dst] or [gwaddr] is [None]. *)
Definition lxi_iface_gateway (iface dst : option string) (dstpfx : Z)
    (gwaddr : option string) : M Z :=
  let dst_sin := set_family sockaddr_in_zero AF_INET in
  let gw_sin := sockaddr_in_zero in
  let netmask_sin := set_family sockaddr_in_zero AF_INET in
  let dst_mask :=
    match dst with
    | Some d =>
        match inet_pton d with
        | Some a =>
            match plen2mask dstpfx with
            | Some mask => Some (set_addr dst_sin a, mask)
            | None => None
            end
        | None => None
        end
    | None => Some (dst_sin, netmask_sin)
    end in
  match dst_mask with
  | None =>
      lxi_warn "bad destination network %s/%d: %s" ;;
      ret (-1)
  | Some (dst_sin, netmask_sin) =>
      match gwaddr with
      | None => fault
      | Some gw =>
          match inet_pton gw with
          | None =>
              lxi_warn "bad gateway %s: %s" ;;
              ret (-1)
          | Some g =>
              let gw_sin := set_addr gw_sin g in
              match iface with
              | Some ifname =>
                  idx <- sys (C_if_nametoindex ifname) ;;
                  if idx =? 0 then
                    lxi_warn "unable to get interface index for %s: %s\n" ;;
                    ret (-1)
                  else write_rtmsg (build_rtmsg idx dst_sin gw_sin netmask_sin)
              | None => write_rtmsg (build_rtmsg 0 dst_sin gw_sin netmask_sin)
              end
          end
      end
  end.


(** ** The per-interface setup *)

(** [lxi_svc_start]: fork, execve in the child and wait, as one call
    that returns 0 when the child exited with status 0. *)
Definition lxi_svc_start (name path fmri : string) : M unit :=
  r <- sys (C_svc_start name path fmri) ;;
  if negb (r =? 0) then lxi_err "%s[%d] exited: %d" else ret tt.

Definition lxi_net_ndpd_start : M unit :=
  lxi_svc_start "in.ndpd" "/usr/lib/inet/in.ndpd"
                "SMF_FMRI=svc:/network/routing/ndp:default".

(** [lxi_init]; the value of the attribute is taken to fit [val]. *)
Definition lxi_init (handle : zone_dochandle) : M unit :=
  match zonecfg_lookup_attr (zone_attrs handle) "ipv6" with
  | Some val =>
      (if streq val "true" then set_ipv6_enable true
       else if streq val "false" then set_ipv6_enable false
       else lxi_err "invalid value for 'ipv6' attribute") ;;
      lxi_warn "IPv6 is %sabled by zone configuration"
  | None => ret tt
  end.

Definition lxi_net_loopback : M unit :=
  let iface := "lo0" in
  let first_ipv4_configured := false in
  lxi_net_plumb iface ;;
  lxi_iface_ip iface "127.0.0.1/8" first_ipv4_configured ;;
  ipv6 <- get_ipv6_enable ;;
  if ipv6 then lxi_iface_ipv6_link_local iface ;; ret tt else ret tt.

(** The [while ((ipaddr = strtok_r(...)) != NULL)] loop of
    [lxi_net_setup] over the tokens of [ipaddrs_copy]; it returns
    [do_addrconf] and [first_ipv4_configured]. *)
Fixpoint setup_ipaddrs (iface : string) (tokens : list string)
    (do_addrconf first_ipv4_configured : bool) : M (bool * bool) :=
  match tokens with
  | [] => ret (do_addrconf, first_ipv4_configured)
  | ipaddr :: rest =>
      if streq ipaddr "addrconf" then
        setup_ipaddrs iface rest true first_ipv4_configured
      else if streq ipaddr "dhcp" then
        setup_ipaddrs iface rest do_addrconf first_ipv4_configured
      else
        '(r, ficp) <- lxi_iface_ip iface ipaddr first_ipv4_configured ;;
        when (r <? 0)
             (lxi_warn "Unable to add new IP address (%s) to interface %s") ;;
        setup_ipaddrs iface rest do_addrconf ficp
  end.

(** The address part of the body of the interface loop of
    [lxi_net_setup]: DHCP first, then the tokens of [ipaddrs]. *)
Definition setup_addresses (iface ipaddrs : string) (do_addrconf : bool)
  : M (bool * bool) :=
  let first_ipv4_configured := false in
  ficp <-
    (if strstr ipaddrs "dhcp" then
       '(r, ficp) <- lxi_iface_dhcp iface first_ipv4_configured ;;
       when (negb (r =? 0)) (lxi_warn "Failed to start DHCP on %s\n") ;;
       ret ficp
     else ret first_ipv4_configured) ;;
  let ipaddrs_copy := strlcpy ipaddrs MAXNAMELEN in
  setup_ipaddrs iface (strtok_all "," ipaddrs_copy "") do_addrconf ficp.

(** The gateway part of the body of the interface loop. *)
Definition setup_gateway (iface : string) (lookup : zone_nwiftab) : M unit :=
  let attrs := zone_nwif_attrp lookup in
  let gateway :=
    if (0 <? String.length (zone_nwif_defrouter lookup))%nat
    then Some (zone_nwif_defrouter lookup)
    else match zone_find_attr attrs "primary" with
         | Some primary =>
             if strneq primary "true" MAXNAMELEN
             then zone_find_attr attrs "gateway"
             else None
         | None => None
         end in
  match gateway with
  | Some gw =>
      r <- lxi_iface_gateway (Some iface) None 0 (Some gw) ;;
      if negb (r =? 0) then lxi_err "default route on %s -> %s failed"
      else ret tt
  | None => ret tt
  end.

(** The body of the interface loop of [lxi_net_setup]; it returns
    [do_addrconf]. *)
Definition setup_nwif (lookup : zone_nwiftab) (do_addrconf : bool) : M bool :=
  let iface := zone_nwif_physical lookup in
  let attrs := zone_nwif_attrp lookup in
  ipv6 <- get_ipv6_enable ;;
  lxi_net_plumb iface ;;
  ipaddrs <-
    (if (0 <? String.length (zone_nwif_allowed_address lookup))%nat
     then ret (Some (zone_nwif_allowed_address lookup))
     else match zone_find_attr attrs "ips" with
          | None =>
              lxi_warn ("Could not find zonecfg(8) network " ++
                        "configuration for the %s interface") ;;
              ret None
          | Some v => ret (Some v)
          end) ;;
  ipv6 <-
    match zone_find_attr attrs "ipv6" with
    | Some ipv6attr =>
        if streq ipv6attr "true" then
          (if negb ipv6
           then lxi_err ("Cannot enable ipv6 for an interface when it " ++
                         "is disabled for the zone.")
           else ret ipv6)
        else if streq ipv6attr "false" then ret false
        else lxi_err "invalid value for 'ipv6' attribute"
    | None => ret ipv6
    end ;;
  (if ipv6 then
     r <- lxi_iface_ipv6_link_local iface ;;
     when (negb (r =? 0))
          (lxi_warn "unable to bring up link-local address on interface %s")
   else ret tt) ;;
  match ipaddrs with
  | None => ret do_addrconf
  | Some ipaddrs =>
      '(do_addrconf, _) <- setup_addresses iface ipaddrs do_addrconf ;;
      setup_gateway iface lookup ;;
      ret do_addrconf
  end.

Fixpoint setup_nwifs (nwifs : list zone_nwiftab) (do_addrconf : bool)
  : M bool :=
  match nwifs with
  | [] => ret do_addrconf
  | lookup :: rest =>
      do_addrconf <- setup_nwif lookup do_addrconf ;;
      setup_nwifs rest do_addrconf
  end.

(** [lxi_net_setup], for a zone document whose interfaces can be
    iterated ([zonecfg_setnwifent] returns Z_OK). *)
Definition lxi_net_setup (handle : zone_dochandle) : M unit :=
  do_addrconf <- setup_nwifs (zone_nwifs handle) false ;;
  if do_addrconf then lxi_net_ndpd_start else ret tt.

(** ** Static routes *)

(** The locals of [lxi_net_static_route] that its [for] loop changes. *)
Record route_scan := {
  cu : string;                   (* the contents of the custr *)
  gw : option string;
  dst : option string;
  pfx : Z
}.

(** The [for (i = 0; line[i] != '\0'; i++)] loop. *)
Fixpoint scan_route (line : string) (st : route_scan) : route_scan :=
  match line with
  | "" => st
  | String c rest =>
      match gw st with
      | None =>
          if Ascii.eqb c "|"
          then scan_route rest
                 {| cu := ""; gw := Some (cu st); dst := dst st; pfx := pfx st |}
          else scan_route rest
                 {| cu := cu st ++ String c ""; gw := gw st; dst := dst st;
                    pfx := pfx st |}
      | Some _ =>
          match dst st with
          | None =>
              if Ascii.eqb c "/"
              then scan_route rest
                     {| cu := ""; gw := gw st; dst := Some (cu st);
                        pfx := pfx st |}
              else scan_route rest
                     {| cu := cu st ++ String c ""; gw := gw st; dst := dst st;
                        pfx := pfx st |}
          | Some _ =>
              if pfx st =? -1 then
                if Ascii.eqb c "|"
                then scan_route rest
                       {| cu := ""; gw := gw st; dst := dst st;
                          pfx := atoi (cu st) |}
                else scan_route rest
                       {| cu := cu st ++ String c ""; gw := gw st;
                          dst := dst st; pfx := pfx st |}
              else scan_route rest
                     {| cu := cu st ++ String c ""; gw := gw st; dst := dst st;
                        pfx := pfx st |}
          end
      end
  end.

(** The locals as [lxi_net_static_route] initialises them. *)
Definition route_scan_init : route_scan :=
  {| cu := ""; gw := None; dst := None; pfx := -1 |}.

(** [lxi_net_static_route] when every allocation ([custr_alloc],
    [custr_appendc], [strdup]) succeeds; [lxi_net_static_route_mem]
    below is the function with the failures of its allocations. *)
Definition lxi_net_static_route (line : string) : M unit :=
  let st := scan_route line route_scan_init in
  when (negb (streq (cu st) "false")) (lxi_warn "invalid static route: %s") ;;
  r <- lxi_iface_gateway None (dst st) (pfx st) (gw st) ;;
  if negb (r =? 0) then lxi_err "failed to add route: %s/%d -> %s"
  else ret tt.

(** The format of the error of [lxi_net_static_routes], in which the
    command name stands between double quotes (character 34). *)
Definition failed_to_run : string :=
  "failed to run " ++ String "034" ("%s" ++ String "034" ": %s").

(** [lxi_net_static_routes]; [routeinfo] is [None] when the routeinfo
    command is not there, and else the lines that it prints, for each of
    which [run_command] fires the callback; the allocations of the
    callback succeed here, and [lxi_net_static_routes_mem] below has
    their failures. *)
Definition lxi_net_static_routes (routeinfo : option (list string)) : M unit :=
  match routeinfo with
  | None => ret tt
  | Some lines =>
      for_each lxi_net_static_route lines ;;
      r <- sys (C_run_command "/native/usr/lib/brand/lx/routeinfo") ;;
      if negb (r =? 0) then lxi_err failed_to_run else ret tt
  end.

(** The network part of [main], from [lxi_init] to
    [lxi_net_static_routes]. *)
Definition lxi_main_net (handle : zone_dochandle)
    (routeinfo : option (list string)) : M unit :=
  lxi_init handle ;;
  lxi_net_loopback ;;
  lxi_net_setup handle ;;
  lxi_normalize_protocols handle ;;
  lxi_net_static_routes routeinfo.

End Program.

(** The process when [main] starts. *)
Definition world0 : world :=
  {| addrnum := 0; ipv6_enable := true; clock := 0%nat; trace := [] |}.

(** A cooperative environment: every call succeeds, sockets get the
    descriptor 3, [write] takes the whole message, and SIOCLIFADDIF names
    the logical interfaces after the call count. *)
Definition oracle_ok : oracle :=
  {| sys_ret := fun _ c =>
       match c with
       | C_socket _ | C_socket_route => 3
       | C_write_route m => rtm_msglen m
       | C_dhcp_ipc_alloc_request _ => 1
       | C_if_nametoindex _ => 2
       | _ => 0
       end;
     sys_lifname := fun n base => base ++ ":" ++ fmt_u (Z.of_nat n);
     sys_reply_code := fun _ => 0;
     sys_pid := 100 |}.

(** ** Observations on traces *)

(** The [ipadm_set_prop] calls of a trace: property, value, protocol. *)
Definition set_prop_of (e : event) : list (string * string * mod_proto) :=
  match e with
  | ECall (C_ipadm_set_prop n v p) _ => [(n, v, p)]
  | _ => []
  end.

Definition set_props (evs : list event) : list (string * string * mod_proto) :=
  flat_map set_prop_of evs.

(** The protocols on which the property [n] was set, with the value. *)
Definition props_named (n : string) (l : list (string * string * mod_proto))
  : list (mod_proto * string) :=
  flat_map (fun x => if streq (fst (fst x)) n then [(snd x, snd (fst x))] else [])
           l.

(** The order of version triples in the words of the specification:
    lexicographic, most significant component first. *)
Definition version_lt (a b : Z * Z * Z) : Prop :=
  let '(a1, a2, a3) := a in
  let '(b1, b2, b3) := b in
  a1 < b1 \/ (a1 = b1 /\ (a2 < b2 \/ (a2 = b2 /\ a3 < b3))).

(** The routing messages written to the routing socket. *)
Definition route_written_of (e : event) : list rt_msg :=
  match e with
  | ECall (C_write_route m) _ => [m]
  | _ => []
  end.

Definition routes_written (evs : list event) : list rt_msg :=
  flat_map route_written_of evs.

(** An IPv4 address a.b.c.d as the number of its four bytes. *)
Definition dotted (a b c d : Z) : Z :=
  a * 2 ^ 24 + b * 2 ^ 16 + c * 2 ^ 8 + d.

(** The netmask of a prefix length, as a number: the standard CIDR rule. *)
Definition cidr_mask (p : Z) : Z := 2 ^ 32 - 2 ^ (32 - p).

(** A socket address of family AF_INET with address [a]. *)
Definition sockaddr_inet (a : Z) : sockaddr_in :=
  {| sin_family := AF_INET; sin_port := 0; sin_addr := a; sin_zero := 0 |}.

(** A line without the delimiter '|'. *)
Fixpoint no_bar (s : string) : bool :=
  match s with
  | "" => true
  | String c r => negb (Ascii.eqb c "|") && no_bar r
  end.

(** What [lxi_net_static_route] does once the line is scanned and the
    flag compared: the call of [lxi_iface_gateway] and the check of what
    it returns. *)
Definition install_static_route (o : oracle) (st : route_scan) : M unit :=
  r <- lxi_iface_gateway o None (dst st) (pfx st) (gw st) ;;
  if negb (r =? 0) then lxi_err "failed to add route: %s/%d -> %s"
  else ret tt.

(** The SIOCLIFADDIF calls of a trace: the name passed, the result. *)
Definition addif_of (e : event) : list (string * Z) :=
  match e with
  | ECall (C_ioctl_SIOCLIFADDIF n) r => [(n, r)]
  | _ => []
  end.

Definition addifs (evs : list event) : list (string * Z) :=
  flat_map addif_of evs.

(** The address object names passed to [ipadm_create_addrobj]. *)
Definition addrobj_of (e : event) : list string :=
  match e with
  | ECall (C_ipadm_create_addrobj n) _ => [n]
  | _ => []
  end.

Definition addrobjs (evs : list event) : list string :=
  flat_map addrobj_of evs.

(** The calls to the DHCP agent library. *)
Definition dhcp_call_of (e : event) : list call :=
  match e with
  | ECall (C_dhcp_start_agent t) _ => [C_dhcp_start_agent t]
  | ECall (C_dhcp_ipc_alloc_request i) _ => [C_dhcp_ipc_alloc_request i]
  | ECall (C_dhcp_ipc_make_request i t) _ => [C_dhcp_ipc_make_request i t]
  | _ => []
  end.

Definition dhcp_calls (evs : list event) : list call :=
  flat_map dhcp_call_of evs.

(** The DHCP requests made. *)
Definition dhcp_request_of (e : event) : list string :=
  match e with
  | ECall (C_dhcp_ipc_make_request i _) _ => [i]
  | _ => []
  end.

Definition dhcp_requests (evs : list event) : list string :=
  flat_map dhcp_request_of evs.

(** The fatal errors reported. *)
Definition err_of (e : event) : list string :=
  match e with
  | EErr fmt => [fmt]
  | _ => []
  end.

Definition errs (evs : list event) : list string := flat_map err_of evs.

(** The name that [lxi_iface_ip] gives to the address object on [iface]
    when the counter is [n]. *)
Definition aobjname (iface : string) (n : Z) : string :=
  snprintf IPADM_AOBJSIZ (iface ++ "/addr" ++ fmt_d n).

(** The names generated for the interfaces [ifaces], in this order, from
    the counter value [n] on. *)
Fixpoint names_from (n : Z) (ifaces : list string) : list string :=
  match ifaces with
  | [] => []
  | i :: rest => aobjname i n :: names_from (n + 1) rest
  end.

(** An address without a colon is an IPv4 address. *)
Definition is_ipv4 (addr : string) : bool := negb (strstr addr ":").

(** A computation keeps a relation between the world before and the
    world after, however it ends. *)
Definition preserves (R : world -> world -> Prop) {A} (m : M A) : Prop :=
  forall w, R w (snd (m w)).

(** The trace grows by events of which the observation [f] sees none. *)
Definition silent {X} (f : event -> list X) (w w' : world) : Prop :=
  exists evs, trace w' = (trace w ++ evs)%list /\ flat_map f evs = [].

(** The counter and the names: the run generated the names of some
    interfaces [ifaces], each of at most LIFNAMSIZ characters, with the
    consecutive counter values from [addrnum w] on. *)
Definition counter_rel (w w' : world) : Prop :=
  exists ifaces evs,
    Forall (fun i => (String.length i <= LIFNAMSIZ)%nat) ifaces /\
    addrnum w' = addrnum w + Z.of_nat (List.length ifaces) /\
    trace w' = (trace w ++ evs)%list /\
    addrobjs evs = names_from (addrnum w) ifaces.

(** One assignment, which returned [rc], put its address on the base
    interface itself: no logical interface was asked for, and the
    address object is named after the base interface; none is created
    when the socket failed ([rc] is -1). *)
Definition placed_on_base (base : string) (n : Z) (rc : Z)
    (evs : list event) : Prop :=
  addifs evs = [] /\
  ((rc = -1 /\ addrobjs evs = []) \/
   addrobjs evs = [aobjname (strncpy base LIFNAMSIZ) n]).

(** One assignment, which returned [rc], put its address on a new
    logical interface: the one SIOCLIFADDIF call, made for the base
    name as the [t]-th call of the process, succeeded, and the address
    object is named after the name which that call returned; or the
    socket or that call failed ([rc] is -1) and nothing was created. *)
Definition placed_on_new_lif (o : oracle) (base : string) (n : Z) (t : nat)
    (rc : Z) (evs : list event) : Prop :=
  (rc = -1 /\ addrobjs evs = []) \/
  exists r,
    addifs evs = [(strncpy base LIFNAMSIZ, r)] /\ 0 <= r /\
    addrobjs evs =
      [aobjname (strncpy (sys_lifname o t (strncpy base LIFNAMSIZ)) LIFNAMSIZ)
                n].


(** Whether the character [c] occurs in [s]. *)
Fixpoint occurs (c : ascii) (s : string) : bool :=
  match s with
  | "" => false
  | String x r => Ascii.eqb x c || occurs c r
  end.

(** ** Sample configurations and environments *)

(** A zone that declares kernel version 3.3.9 and two interfaces. *)
Definition zone_example : zone_dochandle :=
  {| zone_attrs := [("kernel-version", "3.3.9")];
     zone_nwifs :=
       [ {| zone_nwif_physical := "net0";
            zone_nwif_allowed_address := "";
            zone_nwif_defrouter := "";
            zone_nwif_attrp :=
              [("ips", "10.0.0.5/24,dhcp,10.0.0.6/24,fe80::5/64");
               ("primary", "true"); ("gateway", "10.0.0.1")] |};
         {| zone_nwif_physical := "net1";
            zone_nwif_allowed_address := "";
            zone_nwif_defrouter := "";
            zone_nwif_attrp := [("ips", "addrconf,192.168.1.7/24")] |} ] |}.

(** An environment in which every DHCP request times out. *)
Definition oracle_dhcp_timeout : oracle :=
  {| sys_ret := fun n c =>
       match c with
       | C_dhcp_ipc_make_request _ _ => 4
       | _ => sys_ret oracle_ok n c
       end;
     sys_lifname := sys_lifname oracle_ok;
     sys_reply_code := fun _ => 0;
     sys_pid := 100 |}.

(** An environment in which the address object "net0/addr0" cannot be
    activated. *)
Definition oracle_first_addr_fails : oracle :=
  {| sys_ret := fun n c =>
       match c with
       | C_ipadm_create_addr name =>
           if streq name "net0/addr0" then 1 else 0
       | _ => sys_ret oracle_ok n c
       end;
     sys_lifname := sys_lifname oracle_ok;
     sys_reply_code := fun _ => 0;
     sys_pid := 100 |}.

(** ** Further observations on traces *)

(** The warnings of a trace, by their format strings. *)
Definition warn_of (e : event) : list string :=
  match e with
  | EWarn fmt => [fmt]
  | _ => []
  end.

Definition warnings (evs : list event) : list string := flat_map warn_of evs.

(** The calls of a trace that [p] selects, with what they returned. *)
Definition call_of (p : call -> bool) (e : event) : list (call * Z) :=
  match e with
  | ECall c r => if p c then [(c, r)] else []
  | _ => []
  end.

Definition calls (p : call -> bool) (evs : list event) : list (call * Z) :=
  flat_map (call_of p) evs.

Definition is_set_prop (c : call) : bool :=
  match c with C_ipadm_set_prop _ _ _ => true | _ => false end.

Definition is_socket (c : call) : bool :=
  match c with C_socket _ | C_socket_route => true | _ => false end.

Definition is_close (c : call) : bool :=
  match c with C_close => true | _ => false end.

Definition is_getflags (c : call) : bool :=
  match c with C_ioctl_SIOCGLIFFLAGS _ => true | _ => false end.

Definition is_setflags (c : call) : bool :=
  match c with C_ioctl_SIOCSLIFFLAGS_up _ => true | _ => false end.

Definition is_create_if (c : call) : bool :=
  match c with C_ipadm_create_if _ _ => true | _ => false end.

Definition is_create_addr (c : call) : bool :=
  match c with C_ipadm_create_addr _ => true | _ => false end.

Definition is_destroy_addrobj (c : call) : bool :=
  match c with C_ipadm_destroy_addrobj _ => true | _ => false end.

Definition is_write_route (c : call) : bool :=
  match c with C_write_route _ => true | _ => false end.

Definition is_nametoindex (c : call) : bool :=
  match c with C_if_nametoindex _ => true | _ => false end.


Definition is_run_command (c : call) : bool :=
  match c with C_run_command _ => true | _ => false end.

(** The calls that failed, for calls that return 0 on success. *)
Definition failed (l : list (call * Z)) : list (call * Z) :=
  filter (fun cr => negb (snd cr =? 0)) l.

(** The three property settings of one protocol, in the order of the
    loop body. *)
Definition proto_settings (val_max val : string) (p : mod_proto)
  : list (string * string * mod_proto) :=
  [("max_buf", val_max, p); ("send_buf", val, p); ("recv_buf", val, p)].

(** The part of [lxi_iface_ip] from [ipadm_create_addrobj] to the
    return, for the address object name [name], the family [af] of the
    address and the flag on entry. *)
Definition apply_addrobj (o : oracle) (name addr : string) (af : sa_family)
    (first_ipv4_configured : bool) : M (Z * bool) :=
  status <- sys o (C_ipadm_create_addrobj name) ;;
  if negb (status =? IPADM_SUCCESS) then
    lxi_warn "ipadm_create_addrobj error %d: addr %s, interface %s: %s\n" ;;
    ret (-2, first_ipv4_configured)
  else
    status <- sys o (C_ipadm_set_addr name addr) ;;
    if negb (status =? IPADM_SUCCESS) then
      lxi_warn "ipadm_set_addr error %d: addr %s, interface %s: %s\n" ;;
      sys_void (C_ipadm_destroy_addrobj name) ;;
      ret (-3, first_ipv4_configured)
    else
      status <- sys o (C_ipadm_create_addr name) ;;
      if negb (status =? IPADM_SUCCESS) then
        lxi_warn "ipadm_create_addr error for %s: %s\n" ;;
        sys_void (C_ipadm_destroy_addrobj name) ;;
        ret (-4, first_ipv4_configured)
      else
        let first_ipv4_configured' :=
          if is_inet af then true else first_ipv4_configured in
        sys_void (C_ipadm_destroy_addrobj name) ;;
        ret (0, first_ipv4_configured').
(** A call of [lxi_iface_gateway] was checked in full: the gateway
    parsed, the destination (when one is given) parsed with its prefix
    length, and the interface (when one is given) has an index. *)
Definition route_request_valid (o : oracle) (iface dst : option string)
    (dstpfx : Z) (gwaddr : option string) (t : nat) : Prop :=
  (exists g ga, gwaddr = Some g /\ inet_pton g = Some ga) /\
  (forall d, dst = Some d ->
     exists a mask, inet_pton d = Some a /\ plen2mask dstpfx = Some mask) /\
  (forall i, iface = Some i -> sys_ret o t (C_if_nametoindex i) <> 0).

(** The address list that the interface loop of [lxi_net_setup] works
    on: the allowed-address property when it is not empty, and else the
    attribute "ips". *)
Definition nwif_ipaddrs (lookup : zone_nwiftab) : option string :=
  if (0 <? String.length (zone_nwif_allowed_address lookup))%nat
  then Some (zone_nwif_allowed_address lookup)
  else zone_find_attr (zone_nwif_attrp lookup) "ips".

(** One of the items of the address list of the interface is
    "addrconf". *)
Definition nwif_addrconf (lookup : zone_nwiftab) : bool :=
  match nwif_ipaddrs lookup with
  | Some ipaddrs =>
      existsb (fun t => streq t "addrconf")
              (strtok_all "," (strlcpy ipaddrs MAXNAMELEN) "")
  | None => false
  end.

(** The calls that set IPv6 up on an interface: plumbing it for
    AF_INET6, and the two ioctls on its flags, which only
    [lxi_iface_ipv6_link_local] makes. *)
Definition ipv6_setup_of (e : event) : list call :=
  match e with
  | ECall (C_ipadm_create_if n AF_INET6) _ => [C_ipadm_create_if n AF_INET6]
  | ECall (C_ioctl_SIOCGLIFFLAGS n) _ => [C_ioctl_SIOCGLIFFLAGS n]
  | ECall (C_ioctl_SIOCSLIFFLAGS_up n) _ => [C_ioctl_SIOCSLIFFLAGS_up n]
  | _ => []
  end.

Definition ipv6_setup (evs : list event) : list call :=
  flat_map ipv6_setup_of evs.

(** With IPv6 off before, it is off after and nothing set IPv6 up. *)
Definition ipv6_stays_off (w w' : world) : Prop :=
  ipv6_enable w = false ->
  ipv6_enable w' = false /\
  exists evs, trace w' = (trace w ++ evs)%list /\ ipv6_setup evs = [].

(** The gateway that the interface loop of [lxi_net_setup] routes
    through: the defrouter property when it is not empty, and else the
    attribute "gateway" of an interface whose attribute "primary" is
    "true". *)
Definition nwif_gateway (lookup : zone_nwiftab) : option string :=
  if (0 <? String.length (zone_nwif_defrouter lookup))%nat
  then Some (zone_nwif_defrouter lookup)
  else match zone_find_attr (zone_nwif_attrp lookup) "primary" with
       | Some primary =>
           if strneq primary "true" MAXNAMELEN
           then zone_find_attr (zone_nwif_attrp lookup) "gateway"
           else None
       | None => None
       end.

(** The global [ipv6_enable] is what it was. *)
Definition ipv6_kept (w w' : world) : Prop := ipv6_enable w' = ipv6_enable w.

(** An interface with a default router and no address list. *)
Definition nwif_unconfigured : zone_nwiftab :=
  {| zone_nwif_physical := "net2";
     zone_nwif_allowed_address := "";
     zone_nwif_defrouter := "10.0.0.1";
     zone_nwif_attrp := [("primary", "true")] |}.

(** A zone with IPv6 disabled and one interface. *)
Definition zone_ipv6_off : zone_dochandle :=
  {| zone_attrs := [("kernel-version", "4.4"); ("ipv6", "false")];
     zone_nwifs :=
       [ {| zone_nwif_physical := "net0";
            zone_nwif_allowed_address := "10.0.0.5/24";
            zone_nwif_defrouter := "10.0.0.1";
            zone_nwif_attrp := [] |} ] |}.

(** Every call among the events satisfies [p]. *)
Definition calls_in (p : call -> bool) (evs : list event) : Prop :=
  Forall (fun e => match e with ECall c _ => p c = true | _ => True end) evs.

(** The trace grows by events whose calls all satisfy [p]. *)
Definition only (p : call -> bool) (w w' : world) : Prop :=
  exists evs, trace w' = (trace w ++ evs)%list /\ calls_in p evs.

(** The calls of the interface phase of [main]: every call but the
    setting of a protocol property and the run of the routeinfo
    command. *)
Definition iface_phase_call (c : call) : bool :=
  match c with
  | C_ipadm_set_prop _ _ _ | C_run_command _ => false
  | _ => true
  end.

(** The calls of the static route phase. *)
Definition route_phase_call (c : call) : bool :=
  match c with
  | C_socket_route | C_write_route _ | C_close | C_run_command _ => true
  | _ => false
  end.

(** The calls of the DHCP step on the interface [base]: no logical
    interface is asked for, no address object is created, and the agent
    is asked about [base] only. *)
Definition dhcp_phase_call (base : string) (c : call) : bool :=
  match c with
  | C_ioctl_SIOCLIFADDIF _ | C_ipadm_create_addrobj _ => false
  | C_dhcp_ipc_alloc_request n | C_dhcp_ipc_make_request n _ => String.eqb n base
  | _ => true
  end.

(** ** Static routes with their allocations *)

(** The allocations of [lxi_net_static_route]: the [custr_alloc] before
    the loop, and the [custr_appendc] or the [strdup] at the character
    [i] of the line. *)
Inductive alloc_site :=
| at_custr_alloc
| at_custr_appendc (i : nat)
| at_strdup (i : nat).

(** The [for] loop of [lxi_net_static_route] with its allocations,
    from the character [i] on; [nomem] tells which allocations fail.
    The result is the format of the [lxi_err] call that ended the loop,
    or the locals at its end. *)
Fixpoint scan_route_mem (nomem : alloc_site -> bool) (line : string)
    (i : nat) (st : route_scan) : string + route_scan :=
  match line with
  | "" => inr st
  | String c rest =>
      match gw st with
      | None =>
          if Ascii.eqb c "|" then
            if nomem (at_strdup i) then inl "strdup failure"
            else scan_route_mem nomem rest (S i)
                   {| cu := ""; gw := Some (cu st); dst := dst st;
                      pfx := pfx st |}
          else if nomem (at_custr_appendc i) then inl "custr_appendc failure"
          else scan_route_mem nomem rest (S i)
                 {| cu := cu st ++ String c ""; gw := gw st; dst := dst st;
                    pfx := pfx st |}
      | Some _ =>
          match dst st with
          | None =>
              if Ascii.eqb c "/" then
                if nomem (at_strdup i) then inl "strdup failure"
                else scan_route_mem nomem rest (S i)
                       {| cu := ""; gw := gw st; dst := Some (cu st);
                          pfx := pfx st |}
              else if nomem (at_custr_appendc i)
              then inl "custr_appendc failure"
              else scan_route_mem nomem rest (S i)
                     {| cu := cu st ++ String c ""; gw := gw st;
                        dst := dst st; pfx := pfx st |}
          | Some _ =>
              if pfx st =? -1 then
                if Ascii.eqb c "|" then
                  scan_route_mem nomem rest (S i)
                    {| cu := ""; gw := gw st; dst := dst st;
                       pfx := atoi (cu st) |}
                else if nomem (at_custr_appendc i)
                then inl "custr_appendc failure"
                else scan_route_mem nomem rest (S i)
                       {| cu := cu st ++ String c ""; gw := gw st;
                          dst := dst st; pfx := pfx st |}
              else if nomem (at_custr_appendc i)
              then inl "custr_appendc failure"
              else scan_route_mem nomem rest (S i)
                     {| cu := cu st ++ String c ""; gw := gw st;
                        dst := dst st; pfx := pfx st |}
          end
      end
  end.

(** [lxi_net_static_route] with its allocations: [lxi_net_static_route]
    above is this function when no allocation fails. *)
Definition lxi_net_static_route_mem (nomem : alloc_site -> bool) (o : oracle)
    (line : string) : M unit :=
  if nomem at_custr_alloc then lxi_err "custr_alloc failure"
  else
    match scan_route_mem nomem line 0 route_scan_init with
    | inl fmt => lxi_err fmt
    | inr st =>
        when (negb (streq (cu st) "false"))
             (lxi_warn "invalid static route: %s") ;;
        r <- lxi_iface_gateway o None (dst st) (pfx st) (gw st) ;;
        if negb (r =? 0) then lxi_err "failed to add route: %s/%d -> %s"
        else ret tt
    end.

(** The callback of [run_command] on the lines from the [k]-th on;
    [nomem k] tells which allocations fail for the [k]-th line. *)
Fixpoint static_route_lines (nomem : nat -> alloc_site -> bool) (o : oracle)
    (k : nat) (lines : list string) : M unit :=
  match lines with
  | [] => ret tt
  | line :: rest =>
      lxi_net_static_route_mem (nomem k) o line ;;
      static_route_lines nomem o (S k) rest
  end.

(** [lxi_net_static_routes] with the allocations of its callback. *)
Definition lxi_net_static_routes_mem (nomem : nat -> alloc_site -> bool)
    (o : oracle) (routeinfo : option (list string)) : M unit :=
  match routeinfo with
  | None => ret tt
  | Some lines =>
      static_route_lines nomem o 0 lines ;;
      r <- sys o (C_run_command "/native/usr/lib/brand/lx/routeinfo") ;;
      if negb (r =? 0) then lxi_err failed_to_run else ret tt
  end.

(** The fatal errors of a failed allocation. *)
Definition alloc_errors : list string :=
  ["custr_alloc failure"; "custr_appendc failure"; "strdup failure"].

(** The [ipadm_set_addr] calls of a trace: the address object and the
    address text. *)
Definition set_addr_of (e : event) : list (string * string) :=
  match e with
  | ECall (C_ipadm_set_addr n a) _ => [(n, a)]
  | _ => []
  end.

Definition set_addrs (evs : list event) : list (string * string) :=
  flat_map set_addr_of evs.

(** The tokens of an address list that are addresses: all but
    "addrconf" and "dhcp". *)
Definition literal_tokens (tokens : list string) : list string :=
  filter (fun t => negb (streq t "addrconf") && negb (streq t "dhcp")) tokens.

(** The address family that [lxi_iface_ip] takes an address for. *)
Definition family_of (addr : string) : sa_family :=
  if strstr addr ":" then AF_INET6 else AF_INET.

(** A call that keeps [lxi_iface_ip] from reaching [ipadm_set_addr]:
    the socket or the logical interface is refused, or the address
    object cannot be created. *)
Definition blocks_set_addr (e : event) : bool :=
  match e with
  | ECall (C_socket _) r => r <? 0
  | ECall (C_ioctl_SIOCLIFADDIF _) r => r <? 0
  | ECall (C_ipadm_create_addrobj _) r => negb (r =? 0)
  | _ => false
  end.

(** * Properties *)

Open Scope list_scope.

(** ** The netstack buffer normalizer *)

Lemma set_props_app (a b : list event) :
  set_props (a ++ b) = set_props a ++ set_props b.
Proof. unfold set_props. apply flat_map_app. Qed.

Ltac run_step :=
  unfold bind, sys, sys_void, when, lxi_warn, lxi_err, ret, tick, log; cbn.

Ltac flatten_trace :=
  cbn [trace]; repeat rewrite <- app_assoc; cbn [app].

Lemma normalize_proto_run (o : oracle) (val_max val : string) (p : mod_proto)
    (w : world) :
  exists w' evs,
    normalize_proto o val_max val p w = (Ret tt, w') /\
    trace w' = trace w ++ evs /\
    set_props evs =
      [("max_buf", val_max, p); ("send_buf", val, p); ("recv_buf", val, p)].
Proof.
  unfold normalize_proto. run_step.
  destruct (negb (sys_ret o (clock w) _ =? IPADM_SUCCESS)); cbn;
  destruct (negb (sys_ret o _ (C_ipadm_set_prop "send_buf" val p)
                  =? IPADM_SUCCESS)); cbn;
  destruct (negb (sys_ret o _ (C_ipadm_set_prop "recv_buf" val p)
                  =? IPADM_SUCCESS)); cbn;
  eexists; eexists; (split; [reflexivity|]); flatten_trace;
  (split; [reflexivity|]); reflexivity.
Qed.

Lemma normalize_protos_run (o : oracle) (val_max val : string)
    (l : list mod_proto) :
  forall w, exists w' evs,
    for_each (normalize_proto o val_max val) l w = (Ret tt, w') /\
    trace w' = trace w ++ evs /\
    set_props evs =
      flat_map (fun p => [("max_buf", val_max, p); ("send_buf", val, p);
                          ("recv_buf", val, p)]) l.
Proof.
  induction l as [|p l IH]; intro w.
  - exists w, []. cbn. rewrite app_nil_r. auto.
  - destruct (normalize_proto_run o val_max val p w) as (w1 & e1 & R1 & T1 & S1).
    destruct (IH w1) as (w2 & e2 & R2 & T2 & S2).
    exists w2, (e1 ++ e2). cbn [for_each]. unfold bind at 1. rewrite R1.
    split; [exact R2|]. split.
    + rewrite T2, T1. now rewrite app_assoc.
    + rewrite set_props_app, S1, S2. reflexivity.
Qed.

Lemma sscanf_version_triple (s : string) :
  exists a b c, sscanf_version s = [a; b; c].
Proof.
  unfold sscanf_version.
  destruct (scan_int s) as [[a r]|]; [|now exists 0, 0, 0].
  destruct r as [|ch r1]; [now exists a, 0, 0|].
  destruct (Ascii.ascii_dec ch ".") as [->|N].
  - destruct (scan_int r1) as [[b r2]|]; [|now exists a, 0, 0].
    destruct r2 as [|ch2 r3]; [now exists a, b, 0|].
    destruct (Ascii.ascii_dec ch2 ".") as [->|N2].
    + destruct (scan_int r3) as [[c ?]|]; [now exists a, b, c|now exists a, b, 0].
    + exists a, b, 0.
      destruct ch2 as [[] [] [] [] [] [] [] []]; try reflexivity. now elim N2.
  - exists a, 0, 0.
    destruct ch as [[] [] [] [] [] [] [] []]; try reflexivity. now elim N.
Qed.

Lemma vers_cmp_lt (z1 z2 z3 c1 c2 c3 : Z) :
  (vers_cmp [z1; z2; z3] [c1; c2; c3] <? 0) = true <->
  version_lt (z1, z2, z3) (c1, c2, c3).
Proof.
  unfold version_lt; cbn [vers_cmp].
  destruct (Z.gtb_spec z1 c1), (Z.ltb_spec z1 c1),
           (Z.gtb_spec z2 c2), (Z.ltb_spec z2 c2),
           (Z.gtb_spec z3 c3), (Z.ltb_spec z3 c3); cbn;
  split; intro; try discriminate; try reflexivity; try lia.
Qed.

Lemma lxi_normalize_protocols_run (o : oracle) (handle : zone_dochandle)
    (v : string) (z1 z2 z3 : Z) (w : world) :
  zonecfg_lookup_attr (zone_attrs handle) "kernel-version" = Some v ->
  sscanf_version v = [z1; z2; z3] ->
  exists w' evs,
    lxi_normalize_protocols o handle w = (Ret tt, w') /\
    trace w' = trace w ++ evs /\
    set_props evs =
      flat_map (fun p =>
                  [("max_buf",
                    if vers_cmp [z1; z2; z3] [3; 4; 0] <? 0
                    then "4194304" else "6291456", p);
                   ("send_buf", "1048576", p);
                   ("recv_buf", "1048576", p)]) proto_entries.
Proof.
  intros Hattr Hv.
  unfold lxi_normalize_protocols, lxi_kern_release_cmp.
  rewrite Hattr, Hv.
  change (sscanf_version "3.4.0") with [3; 4; 0].
  unfold bind at 1. unfold ret at 1.
  destruct (vers_cmp [z1; z2; z3] [3; 4; 0] <? 0);
    apply normalize_protos_run.
Qed.

(** C1 (as the code has it): whatever kernel version the zone declares,
    a run of the netstack buffer normalizer sets [send_buf] and
    [recv_buf] of each of the four protocols (TCP, UDP, SCTP, raw IP) to
    the same value, 2 * NETSTACK_BUFSZ = 2 * 524288 = 1048576 bytes
    (1 MiB, not 2 MiB). *)
Theorem normalize_send_recv_buf (o : oracle) (handle : zone_dochandle)
    (v : string) (w : world) :
  zonecfg_lookup_attr (zone_attrs handle) "kernel-version" = Some v ->
  exists w' evs,
    lxi_normalize_protocols o handle w = (Ret tt, w') /\
    trace w' = trace w ++ evs /\
    props_named "send_buf" (set_props evs) =
      map (fun p => (p, fmt_u (2 * NETSTACK_BUFSZ))) proto_entries /\
    props_named "recv_buf" (set_props evs) =
      map (fun p => (p, fmt_u (2 * NETSTACK_BUFSZ))) proto_entries /\
    2 * NETSTACK_BUFSZ = 1 * 1024 * 1024.
Proof.
  intro Hattr.
  destruct (sscanf_version_triple v) as (z1 & z2 & z3 & Hv).
  destruct (lxi_normalize_protocols_run o handle v z1 z2 z3 w Hattr Hv)
    as (w' & evs & R & T & S).
  exists w', evs. rewrite S.
  repeat split; try assumption;
    destruct (vers_cmp [z1; z2; z3] [3; 4; 0] <? 0); reflexivity.
Qed.

(** C6: the normalizer sets [max_buf] of all four protocols to
    4*1024*1024 when the declared kernel version triple is
    lexicographically below (3,4,0), and to 6*1024*1024 otherwise.  The
    triple is the one that [sscanf] reads into the three [int]s; the
    numbers of the attribute are taken to be written with at most nine
    digits, so that each fits its [int]. *)
Theorem normalize_max_buf (o : oracle) (handle : zone_dochandle)
    (v : string) (z1 z2 z3 : Z) (w : world) :
  zonecfg_lookup_attr (zone_attrs handle) "kernel-version" = Some v ->
  digit_runs_le 9 v 0 = true ->
  sscanf_version v = [z1; z2; z3] ->
  exists w' evs,
    lxi_normalize_protocols o handle w = (Ret tt, w') /\
    trace w' = trace w ++ evs /\
    (version_lt (z1, z2, z3) (3, 4, 0) ->
     props_named "max_buf" (set_props evs) =
       map (fun p => (p, fmt_u (4 * 1024 * 1024))) proto_entries) /\
    (~ version_lt (z1, z2, z3) (3, 4, 0) ->
     props_named "max_buf" (set_props evs) =
       map (fun p => (p, fmt_u (6 * 1024 * 1024))) proto_entries).
Proof.
  intros Hattr _ Hv.
  destruct (lxi_normalize_protocols_run o handle v z1 z2 z3 w Hattr Hv)
    as (w' & evs & R & T & S).
  exists w', evs. rewrite S.
  pose proof (vers_cmp_lt z1 z2 z3 3 4 0) as L.
  destruct (vers_cmp [z1; z2; z3] [3; 4; 0] <? 0).
  - split; [exact R|]. split; [exact T|].
    split; intro Hlt; [reflexivity|]. elim Hlt. now apply L.
  - split; [exact R|]. split; [exact T|].
    split; intro Hlt; [|reflexivity]. apply L in Hlt. discriminate.
Qed.

Example sscanf_version_3_4_0 : sscanf_version "3.4.0" = [3; 4; 0].
Proof. reflexivity. Qed.

Example sscanf_version_partial : sscanf_version "4.19" = [4; 19; 0].
Proof. reflexivity. Qed.

(** Beyond INT_MAX the [int]s wrap around: 4294967299 is read as 3 and
    4294967320 as 24, and 4294967295 as -1. *)
Example sscanf_version_wraps : sscanf_version "4294967299.0.0" = [3; 0; 0].
Proof. reflexivity. Qed.

Example atoi_wraps : atoi "4294967320" = 24 /\ atoi "4294967295" = -1.
Proof. split; reflexivity. Qed.

Example max_buf_of_wrapped_version :
  props_named "max_buf"
    (set_props
       (trace (snd (lxi_normalize_protocols oracle_ok
                      {| zone_attrs := [("kernel-version", "4294967299.0.0")];
                         zone_nwifs := [] |} world0))))
  = map (fun p => (p, "4194304"%string)) proto_entries.
Proof. vm_compute. reflexivity. Qed.

(** The values of the specification: 3.3.9 gives 4 MiB, 3.4.0 and
    higher give 6 MiB. *)
Example max_buf_by_version :
  map (fun v =>
         props_named "max_buf"
           (set_props
              (trace (snd (lxi_normalize_protocols oracle_ok
                             {| zone_attrs := [("kernel-version", v)];
                                zone_nwifs := [] |} world0)))))
      ["2.6.32"; "3.3.9"; "3.4.0"; "4.19.0"]%string =
  [ map (fun p => (p, "4194304"%string)) proto_entries;
    map (fun p => (p, "4194304"%string)) proto_entries;
    map (fun p => (p, "6291456"%string)) proto_entries;
    map (fun p => (p, "6291456"%string)) proto_entries ].
Proof. vm_compute. reflexivity. Qed.

(** ** The routing message *)

Lemma routes_written_app (a b : list event) :
  routes_written (a ++ b) = routes_written a ++ routes_written b.
Proof. unfold routes_written. apply flat_map_app. Qed.

Lemma plen2mask_cidr (p : Z) (mask : sockaddr_in) :
  plen2mask p = Some mask ->
  0 <= p <= 32 /\ mask = sockaddr_inet (cidr_mask p).
Proof.
  unfold plen2mask.
  destruct (Z.leb_spec 0 p); [|discriminate].
  destruct (Z.leb_spec p 32); [|discriminate]. cbn [andb].
  intro E.
  assert (E' : mask = {| sin_family := AF_INET; sin_port := 0;
                         sin_addr := Z.shiftl (Z.ones p) (32 - p);
                         sin_zero := 0 |}) by congruence.
  rewrite E'. clear E E'. split; [lia|].
  unfold sockaddr_inet, cidr_mask. f_equal.
  rewrite Z.shiftl_mul_pow2 by lia.
  rewrite Z.ones_equiv. unfold Z.pred.
  replace 32 with (p + (32 - p)) at 2 by lia.
  rewrite Z.pow_add_r by lia. ring.
Qed.

(** What [write_rtmsg] leaves in the trace: the message is written at
    most once, and exactly once when 0 is returned. *)
Lemma write_rtmsg_run (o : oracle) (m : rt_msg) (w : world) :
  exists r w' evs,
    write_rtmsg o m w = (Ret r, w') /\
    trace w' = trace w ++ evs /\
    addrnum w' = addrnum w /\
    (routes_written evs = [] \/ routes_written evs = [m]) /\
    (r = 0 -> routes_written evs = [m]).
Proof.
  unfold write_rtmsg. run_step.
  destruct (sys_ret o (clock w) C_socket_route <? 0); cbn.
  - do 3 eexists. split; [reflexivity|]. flatten_trace.
    split; [reflexivity|]. split; [reflexivity|].
    split; [left; reflexivity|discriminate].
  - destruct (sys_ret o (S (clock w)) (C_write_route m) <? 0); cbn;
      [|destruct (sys_ret o (S (clock w)) (C_write_route m) <? rtm_msglen m);
        cbn];
      do 3 eexists; (split; [reflexivity|]); flatten_trace;
      (split; [reflexivity|]); (split; [reflexivity|]);
      (split; [right; reflexivity|]); intro; try discriminate; reflexivity.
Qed.

(** A successful [lxi_iface_gateway] wrote one message, with the socket
    addresses in the order destination, gateway, netmask. *)
Lemma lxi_iface_gateway_ok (o : oracle) (iface dst : option string)
    (dstpfx : Z) (gwaddr : option string) (w w' : world) :
  lxi_iface_gateway o iface dst dstpfx gwaddr w = (Ret 0, w') ->
  exists gw g d n idx evs,
    gwaddr = Some gw /\ inet_pton gw = Some g /\
    match dst with
    | None => d = sockaddr_inet 0 /\ n = sockaddr_inet 0
    | Some net =>
        exists a, inet_pton net = Some a /\ d = sockaddr_inet a /\
                  plen2mask dstpfx = Some n
    end /\
    trace w' = trace w ++ evs /\
    routes_written evs =
      [build_rtmsg o idx d (set_addr sockaddr_in_zero g) n].
Proof.
  unfold lxi_iface_gateway. intro H.
  assert (exists d n,
    match dst with
    | None => d = sockaddr_inet 0 /\ n = sockaddr_inet 0
    | Some net =>
        exists a, inet_pton net = Some a /\ d = sockaddr_inet a /\
                  plen2mask dstpfx = Some n
    end /\
    match dst with
    | Some d0 =>
        match inet_pton d0 with
        | Some a =>
            match plen2mask dstpfx with
            | Some mask =>
                Some (set_addr (set_family sockaddr_in_zero AF_INET) a, mask)
            | None => None
            end
        | None => None
        end
    | None => Some (set_family sockaddr_in_zero AF_INET,
                    set_family sockaddr_in_zero AF_INET)
    end = Some (d, n)) as (d & n & Hdn & E).
  { destruct dst as [d0|].
    - destruct (inet_pton d0) as [a|] eqn:Ea;
        [|revert H; run_step; discriminate].
      destruct (plen2mask dstpfx) as [mask|] eqn:Em;
        [|revert H; run_step; discriminate].
      exists (sockaddr_inet a), mask. split; [|reflexivity].
      exists a. auto.
    - exists (sockaddr_inet 0), (sockaddr_inet 0). split; [auto|reflexivity]. }
  rewrite E in H. clear E.
  destruct gwaddr as [gw|]; [|discriminate].
  destruct (inet_pton gw) as [g|] eqn:Eg; [|revert H; run_step; discriminate].
  destruct iface as [ifname|].
  - revert H. unfold bind at 1. unfold sys at 1. cbn beta iota zeta.
    destruct (sys_ret o (clock w) (C_if_nametoindex ifname) =? 0);
      [run_step; discriminate|].
    intro H.
    destruct (write_rtmsg_run o
                (build_rtmsg o (sys_ret o (clock w) (C_if_nametoindex ifname))
                             d (set_addr sockaddr_in_zero g) n)
                (tick (ECall (C_if_nametoindex ifname)
                             (sys_ret o (clock w) (C_if_nametoindex ifname))) w))
      as (r & w1 & evs & R & T & _ & _ & Hr).
    rewrite R in H. injection H as -> ->.
    exists gw, g, d, n, (sys_ret o (clock w) (C_if_nametoindex ifname)).
    eexists. split; [reflexivity|]. split; [exact Eg|].
    split; [exact Hdn|]. split.
    + rewrite T. cbn [trace tick]. rewrite <- app_assoc. reflexivity.
    + rewrite routes_written_app, (Hr eq_refl). reflexivity.
  - destruct (write_rtmsg_run o
                (build_rtmsg o 0 d (set_addr sockaddr_in_zero g) n) w)
      as (r & w1 & evs & R & T & _ & _ & Hr).
    rewrite R in H. injection H as -> ->.
    exists gw, g, d, n, 0, evs. auto 10.
Qed.

(** C4: a successful call wrote one message whose three address
    records are, in this order, destination, gateway and netmask.  With
    no destination, the destination and netmask records hold the
    all-zero address 0.0.0.0 (the default route 0.0.0.0/0), as IPv4
    addresses; with a destination and prefix length p, the netmask
    record holds the standard CIDR mask of p (0 -> 0.0.0.0, 24 ->
    255.255.255.0, 32 -> 255.255.255.255). *)
Theorem route_message_records (o : oracle) (iface dst : option string)
    (dstpfx : Z) (gwaddr : option string) (w w' : world) :
  lxi_iface_gateway o iface dst dstpfx gwaddr w = (Ret 0, w') ->
  exists evs m d g n,
    trace w' = trace w ++ evs /\
    routes_written evs = [m] /\
    rtm_sockaddrs m = [d; g; n] /\
    (exists gw, gwaddr = Some gw /\ inet_pton gw = Some (sin_addr g)) /\
    match dst with
    | None => d = sockaddr_inet 0 /\ n = sockaddr_inet 0
    | Some net =>
        (exists a, inet_pton net = Some a /\ d = sockaddr_inet a) /\
        0 <= dstpfx <= 32 /\ n = sockaddr_inet (cidr_mask dstpfx)
    end /\
    cidr_mask 0 = dotted 0 0 0 0 /\
    cidr_mask 24 = dotted 255 255 255 0 /\
    cidr_mask 32 = dotted 255 255 255 255.
Proof.
  intro H.
  destruct (lxi_iface_gateway_ok _ _ _ _ _ _ _ H)
    as (gw & g & d & n & idx & evs & -> & Eg & Hdn & T & Wr).
  exists evs, (build_rtmsg o idx d (set_addr sockaddr_in_zero g) n), d,
         (set_addr sockaddr_in_zero g), n.
  split; [exact T|]. split; [exact Wr|]. split; [reflexivity|].
  split; [exists gw; auto|]. split; [|now vm_compute].
  destruct dst as [net|]; [|exact Hdn].
  destruct Hdn as (a & Ea & -> & Em).
  apply plen2mask_cidr in Em. destruct Em as (Hp & ->).
  split; [exists a; auto|]. split; [exact Hp|reflexivity].
Qed.

(** ** The static route parser *)

Example scan_route_well_formed :
  scan_route "10.77.77.2|10.1.1.0/24|false" route_scan_init =
  {| cu := "false"; gw := Some "10.77.77.2"%string;
     dst := Some "10.1.1.0"%string; pfx := 24 |}.
Proof. reflexivity. Qed.

Example scan_route_no_slash :
  scan_route "10.77.77.2|false" route_scan_init =
  {| cu := "false"; gw := Some "10.77.77.2"%string; dst := None; pfx := -1 |}.
Proof. reflexivity. Qed.

Example strtok_all_example :
  strtok_all "," ",10.0.0.1/24,,dhcp,addrconf,fe80::1/64," "" =
  ["10.0.0.1/24"; "dhcp"; "addrconf"; "fe80::1/64"]%string.
Proof. reflexivity. Qed.

Lemma append_empty_r (s : string) : (s ++ "")%string = s.
Proof. induction s as [|c s IH]; cbn; [reflexivity|now rewrite IH]. Qed.

Lemma append_snoc (a : string) (c : ascii) (r : string) :
  ((a ++ String c "") ++ r)%string = (a ++ String c r)%string.
Proof. induction a as [|x a IH]; cbn; [reflexivity|now rewrite IH]. Qed.

Lemma scan_route_no_bar (line : string) :
  no_bar line = true ->
  forall acc,
    scan_route line {| cu := acc; gw := None; dst := None; pfx := -1 |} =
    {| cu := (acc ++ line)%string; gw := None; dst := None; pfx := -1 |}.
Proof.
  induction line as [|c rest IH]; intros Hnb acc.
  - cbn. now rewrite append_empty_r.
  - cbn in Hnb. apply andb_prop in Hnb. destruct Hnb as (Hc & Hr).
    cbn [scan_route gw]. apply negb_true_iff in Hc. rewrite Hc.
    cbn [cu dst pfx]. rewrite (IH Hr). now rewrite append_snoc.
Qed.

(** After the scan, [lxi_net_static_route] warns at most once and then
    calls [lxi_iface_gateway], whatever the line was. *)
Lemma lxi_net_static_route_unfold (o : oracle) (line : string) (w : world) :
  let st := scan_route line route_scan_init in
  lxi_net_static_route o line w =
  install_static_route o st
    (if streq (cu st) "false" then w
     else log (EWarn "invalid static route: %s") w).
Proof.
  cbv zeta. unfold lxi_net_static_route, install_static_route.
  destruct (streq (cu (scan_route line route_scan_init)) "false");
    reflexivity.
Qed.
(** A line with no '|' at all leaves the gateway NULL, and
    [lxi_iface_gateway] hands it to [inet_pton]: the call does not
    return. *)
Lemma static_route_null_gateway (o : oracle) (line : string) (w : world) :
  no_bar line = true ->
  scan_route line route_scan_init =
    {| cu := line; gw := None; dst := None; pfx := -1 |} /\
  fst (lxi_net_static_route o line w) = Fault.
Proof.
  intro Hnb.
  assert (E : scan_route line route_scan_init =
              {| cu := line; gw := None; dst := None; pfx := -1 |})
    by exact (scan_route_no_bar line Hnb "").
  split; [exact E|].
  rewrite lxi_net_static_route_unfold. cbv zeta. rewrite E. reflexivity.
Qed.

(** C5: the line "10.77.77.2|10.1.1.0/24|false" is scanned to the
    gateway 10.77.77.2, the destination 10.1.1.0 and the prefix length
    24; whatever lines were handled before it, it leads to one call of
    the route-install function, which writes at most one message, and
    exactly the message for 10.1.1.0/24 via 10.77.77.2 when it
    succeeds. *)
Theorem static_route_example (o : oracle) (before : list string)
    (w w1 : world) :
  for_each (lxi_net_static_route o) before w = (Ret tt, w1) ->
  let line := "10.77.77.2|10.1.1.0/24|false"%string in
  let m := build_rtmsg o 0 (sockaddr_inet (dotted 10 1 1 0))
             (set_addr sockaddr_in_zero (dotted 10 77 77 2))
             (sockaddr_inet (dotted 255 255 255 0)) in
  scan_route line route_scan_init =
    {| cu := "false"; gw := Some "10.77.77.2"%string;
       dst := Some "10.1.1.0"%string; pfx := 24 |} /\
  inet_pton "10.77.77.2" = Some (dotted 10 77 77 2) /\
  inet_pton "10.1.1.0" = Some (dotted 10 1 1 0) /\
  lxi_net_static_route o line w1 =
    (r <- lxi_iface_gateway o None (Some "10.1.1.0"%string) 24
            (Some "10.77.77.2"%string) ;;
     if negb (r =? 0) then lxi_err "failed to add route: %s/%d -> %s"
     else ret tt) w1 /\
  exists r w2 evs,
    lxi_net_static_route o line w1 = (r, w2) /\
    trace w2 = trace w1 ++ evs /\
    (routes_written evs = [] \/ routes_written evs = [m]) /\
    (r = Ret tt -> routes_written evs = [m]).
Proof.
  intros _ line m.
  split; [reflexivity|]. split; [reflexivity|]. split; [reflexivity|].
  split; [reflexivity|].
  assert (G : lxi_net_static_route o line w1 =
              (r <- write_rtmsg o m ;;
               if negb (r =? 0)
               then lxi_err "failed to add route: %s/%d -> %s"
               else ret tt) w1) by reflexivity.
  rewrite G. unfold bind.
  destruct (write_rtmsg_run o m w1) as (r & w2 & evs & R & T & _ & W1 & W2).
  rewrite R.
  destruct (Z.eqb_spec r 0) as [->|Hr]; cbn [negb].
  - exists (Ret tt), w2, evs. unfold ret. auto.
  - exists Exit, (log (EErr "failed to add route: %s/%d -> %s") w2),
           (evs ++ [EErr "failed to add route: %s/%d -> %s"]).
    unfold lxi_err. split; [reflexivity|]. cbn [trace log].
    rewrite routes_written_app, app_nil_r.
    split; [now rewrite T, app_assoc|]. split; [exact W1|discriminate].
Qed.

Lemma write_rtmsg_success (o : oracle) (m : rt_msg) (w : world) :
  0 <= sys_ret o (clock w) C_socket_route ->
  0 <= rtm_msglen m ->
  rtm_msglen m <= sys_ret o (S (clock w)) (C_write_route m) ->
  write_rtmsg o m w =
  (Ret 0,
   {| addrnum := addrnum w; ipv6_enable := ipv6_enable w;
      clock := S (S (S (clock w)));
      trace := trace w ++
        [ECall C_socket_route (sys_ret o (clock w) C_socket_route);
         ECall (C_write_route m) (sys_ret o (S (clock w)) (C_write_route m));
         ECall C_close (sys_ret o (S (S (clock w))) C_close)] |}).
Proof.
  intros Hs Hm Hl. unfold write_rtmsg. run_step.
  destruct (Z.ltb_spec (sys_ret o (clock w) C_socket_route) 0); [lia|].
  cbn.
  destruct (Z.ltb_spec (sys_ret o (S (clock w)) (C_write_route m)) 0); [lia|].
  destruct (Z.ltb_spec (sys_ret o (S (clock w)) (C_write_route m))
                       (rtm_msglen m)); [lia|].
  cbn. flatten_trace. reflexivity.
Qed.

(** C8: when the text collected last on a static route line is not
    exactly "false", the line is not rejected: the only effect is the
    warning, after which the route-install function is called as for
    any line; with a gateway and a destination that parse and an
    environment that takes the message, the route is written and the
    call returns. *)
Theorem static_route_flag_only_warns (o : oracle) (line : string) (w : world)
    (g d : string) (ga da : Z) (mask : sockaddr_in) :
  let st := scan_route line route_scan_init in
  let m := build_rtmsg o 0 (sockaddr_inet da)
             (set_addr sockaddr_in_zero ga) mask in
  streq (cu st) "false" = false ->
  lxi_net_static_route o line w =
    (r <- lxi_iface_gateway o None (dst st) (pfx st) (gw st) ;;
     if negb (r =? 0) then lxi_err "failed to add route: %s/%d -> %s"
     else ret tt) (log (EWarn "invalid static route: %s") w) /\
  (gw st = Some g -> inet_pton g = Some ga ->
   dst st = Some d -> inet_pton d = Some da ->
   plen2mask (pfx st) = Some mask ->
   0 <= sys_ret o (clock w) C_socket_route ->
   rtm_msglen m <= sys_ret o (S (clock w)) (C_write_route m) ->
   exists w',
     lxi_net_static_route o line w = (Ret tt, w') /\
     trace w' =
       trace w ++
       [EWarn "invalid static route: %s";
        ECall C_socket_route (sys_ret o (clock w) C_socket_route);
        ECall (C_write_route m) (sys_ret o (S (clock w)) (C_write_route m));
        ECall C_close (sys_ret o (S (S (clock w))) C_close)]).
Proof.
  intros st m Hflag.
  assert (U : lxi_net_static_route o line w =
              install_static_route o st
                (log (EWarn "invalid static route: %s") w)).
  { rewrite lxi_net_static_route_unfold. cbv zeta. fold st.
    now rewrite Hflag. }
  split; [exact U|].
  intros Hg Hga Hd Hda Hmask Hsock Hlen.
  rewrite U. unfold install_static_route.
  assert (G : lxi_iface_gateway o None (dst st) (pfx st) (gw st) =
              write_rtmsg o m).
  { unfold lxi_iface_gateway. now rewrite Hg, Hd, Hda, Hmask, Hga. }
  rewrite G. unfold bind.
  rewrite write_rtmsg_success;
    [|exact Hsock|now vm_compute|exact Hlen].
  cbn [Z.eqb negb]. unfold ret. eexists. split; [reflexivity|].
  cbn [trace log]. now rewrite <- app_assoc.
Qed.
(** ** Relations kept by every step of the program *)

Section Preserves.

Variable R : world -> world -> Prop.
Hypothesis R_refl : forall w, R w w.
Hypothesis R_trans : forall a b c, R a b -> R b c -> R a c.

Lemma preserves_ret {A} (a : A) : preserves R (ret a).
Proof. intro w. apply R_refl. Qed.

Lemma preserves_fault {A} : preserves R (@fault A).
Proof. intro w. apply R_refl. Qed.

Lemma preserves_get_ipv6 : preserves R get_ipv6_enable.
Proof. intro w. apply R_refl. Qed.

Lemma preserves_bind {A B} (m : M A) (k : A -> M B) :
  preserves R m -> (forall a, preserves R (k a)) -> preserves R (bind m k).
Proof.
  intros Hm Hk w. unfold bind. specialize (Hm w).
  destruct (m w) as [[a| |] w1]; cbn in *; try assumption.
  eapply R_trans; [exact Hm|apply Hk].
Qed.

Lemma preserves_when (b : bool) (m : M unit) :
  preserves R m -> preserves R (when b m).
Proof. destruct b; cbn; [auto|intros _; apply preserves_ret]. Qed.

Lemma preserves_for_each {A} (body : A -> M unit) (l : list A) :
  (forall a, preserves R (body a)) -> preserves R (for_each body l).
Proof.
  intro Hb. induction l as [|a l IH]; cbn [for_each].
  - apply preserves_ret.
  - apply preserves_bind; [apply Hb|intros _; exact IH].
Qed.

End Preserves.

(** One step of the decomposition of a program along its binds and
    branches; [side] proves that the relation is reflexive and
    transitive. *)
Ltac pres_step side :=
  match goal with
  | |- preserves _ (bind _ _) => apply preserves_bind; [ try side .. | intro ]
  | |- preserves _ (when _ _) => apply preserves_when; [ try side .. | ]
  | |- preserves _ (for_each _ _) =>
      apply preserves_for_each; [ try side .. | intro ]
  | |- preserves _ (ret _) => apply preserves_ret; side
  | |- preserves _ fault => apply preserves_fault; side
  | |- preserves _ get_ipv6_enable => apply preserves_get_ipv6; side
  | |- preserves _ (if ?b then _ else _) => destruct b
  | |- preserves _ (match ?x with _ => _ end) => destruct x
  end.

(** *** Events that an observation does not see *)

Section Silent.

Context {X : Type}.
Variable f : event -> list X.
Hypothesis f_warn : forall fmt, f (EWarn fmt) = [].
Hypothesis f_err : forall fmt, f (EErr fmt) = [].

Lemma silent_refl (w : world) : silent f w w.
Proof. exists []. now rewrite app_nil_r. Qed.

Lemma silent_trans (a b c : world) :
  silent f a b -> silent f b c -> silent f a c.
Proof.
  intros (e1 & T1 & S1) (e2 & T2 & S2). exists (e1 ++ e2). split.
  - now rewrite T2, T1, app_assoc.
  - now rewrite flat_map_app, S1, S2.
Qed.

Lemma silent_one (w : world) (e : event) (w' : world) :
  trace w' = trace w ++ [e] -> f e = [] -> silent f w w'.
Proof. intros T E. exists [e]. split; [exact T|]. cbn. now rewrite E. Qed.

Lemma silent_warn (fmt : string) : preserves (silent f) (lxi_warn fmt).
Proof. intro w. eapply silent_one; [reflexivity|apply f_warn]. Qed.

Lemma silent_err {A} (fmt : string) : preserves (silent f) (@lxi_err A fmt).
Proof. intro w. eapply silent_one; [reflexivity|apply f_err]. Qed.

Lemma silent_sys (o : oracle) (c : call) :
  (forall r, f (ECall c r) = []) -> preserves (silent f) (sys o c).
Proof. intros E w. eapply silent_one; [reflexivity|apply E]. Qed.

Lemma silent_sys_void (c : call) :
  f (ECall c 0) = [] -> preserves (silent f) (sys_void c).
Proof. intros E w. eapply silent_one; [reflexivity|apply E]. Qed.

Lemma silent_lifaddif (o : oracle) (name : string) :
  (forall r, f (ECall (C_ioctl_SIOCLIFADDIF name) r) = []) ->
  preserves (silent f) (sys_lifaddif o name).
Proof. intros E w. eapply silent_one; [reflexivity|apply E]. Qed.

Lemma silent_next_addrnum : preserves (silent f) next_addrnum.
Proof. intro w. exists []. cbn. now rewrite app_nil_r. Qed.

Lemma silent_set_ipv6 (b : bool) : preserves (silent f) (set_ipv6_enable b).
Proof. intro w. exists []. cbn. now rewrite app_nil_r. Qed.

End Silent.

Create HintDb lxi_silent.
#[local] Hint Resolve silent_warn silent_err silent_next_addrnum
  silent_set_ipv6 : lxi_silent.
#[local] Hint Extern 1 (preserves (silent _) (sys _ _)) =>
  apply silent_sys; reflexivity : lxi_silent.
#[local] Hint Extern 1 (preserves (silent _) (sys_void _)) =>
  apply silent_sys_void; reflexivity : lxi_silent.
#[local] Hint Extern 1 (preserves (silent _) (sys_lifaddif _ _)) =>
  apply silent_lifaddif; reflexivity : lxi_silent.

Ltac silent_side :=
  first [exact (silent_refl _) | exact (silent_trans _)].

Ltac silent_tac := repeat pres_step silent_side; auto with lxi_silent.

(** The literal pass makes no call to the DHCP agent library. *)
Lemma lxi_getif_no_dhcp (o : oracle) af iface len f :
  preserves (silent dhcp_call_of) (lxi_getif o af iface len f).
Proof. unfold lxi_getif. silent_tac. Qed.

Lemma lxi_iface_ip_no_dhcp (o : oracle) (iface addr : string) (f : bool) :
  preserves (silent dhcp_call_of) (lxi_iface_ip o iface addr f).
Proof.
  unfold lxi_iface_ip. pres_step silent_side.
  - apply lxi_getif_no_dhcp.
  - silent_tac.
Qed.

Lemma setup_ipaddrs_no_dhcp (o : oracle) (iface : string)
    (tokens : list string) :
  forall da f, preserves (silent dhcp_call_of) (setup_ipaddrs o iface tokens da f).
Proof.
  induction tokens as [|t rest IH]; intros da f; cbn [setup_ipaddrs].
  - silent_tac.
  - repeat pres_step silent_side;
      auto using lxi_iface_ip_no_dhcp with lxi_silent.
Qed.
(** ** The logical interface allocator *)

Lemma truncate_length (n : nat) (s : string) :
  (String.length (truncate n s) <= n)%nat.
Proof.
  unfold truncate. revert s.
  induction n as [|n IH]; intros [|c s]; cbn; try lia.
  specialize (IH s). lia.
Qed.

Lemma truncate_idem (n : nat) (s : string) :
  truncate n (truncate n s) = truncate n s.
Proof.
  unfold truncate. revert s.
  induction n as [|n IH]; intros [|c s]; cbn; try reflexivity.
  now rewrite IH.
Qed.

Lemma truncate_short (n : nat) (s : string) :
  (String.length s <= n)%nat -> truncate n s = s.
Proof.
  unfold truncate. revert s.
  induction n as [|n IH]; intros [|c s]; cbn; intro H; try reflexivity;
    try lia.
  rewrite IH; [reflexivity|lia].
Qed.

(** What one [lxi_getif] call does. *)
Lemma lxi_getif_run (o : oracle) (af : sa_family) (iface : string) (len : nat)
    (f : bool) (w : world) :
  exists rc iface' w' evs,
    lxi_getif o af iface len f w = (Ret (rc, iface'), w') /\
    trace w' = trace w ++ evs /\
    addrnum w' = addrnum w /\
    addrobjs evs = [] /\
    (rc = 0 \/ rc = -1) /\
    (is_inet6 af || f = false -> addifs evs = [] /\ iface' = iface) /\
    (is_inet6 af || f = true -> rc = 0 ->
     exists r,
       addifs evs = [(strncpy iface LIFNAMSIZ, r)] /\ 0 <= r /\
       iface' = strncpy (sys_lifname o (S (clock w))
                                     (strncpy iface LIFNAMSIZ)) len).
Proof.
  unfold lxi_getif. run_step.
  destruct (sys_ret o (clock w) (C_socket af) <? 0); cbn.
  - do 4 eexists. split; [reflexivity|]. flatten_trace.
    split; [reflexivity|]. split; [reflexivity|]. split; [reflexivity|].
    split; [now right|]. split; [|discriminate].
    destruct (is_inet6 af || f); [discriminate|]. now split.
  - destruct (is_inet6 af || f); cbn.
    + unfold sys_lifaddif. cbn.
      destruct (Z.ltb_spec
                  (sys_ret o (S (clock w))
                     (C_ioctl_SIOCLIFADDIF (strncpy iface LIFNAMSIZ))) 0);
        cbn;
        destruct (negb (sys_ret o (S (S (clock w))) C_close =? 0)); cbn;
        do 4 eexists; (split; [reflexivity|]); flatten_trace;
        (split; [reflexivity|]); (split; [reflexivity|]);
        (split; [reflexivity|]);
        (split; [first [now left | now right]|]);
        (split; [discriminate|]); intros _ E; try discriminate;
        (eexists; split; [reflexivity|split; [assumption|reflexivity]]).
    + destruct (negb (sys_ret o (S (clock w)) C_close =? 0)); cbn;
        do 4 eexists; (split; [reflexivity|]); flatten_trace;
        (split; [reflexivity|]); (split; [reflexivity|]);
        (split; [reflexivity|]); (split; [now left|]);
        (split; [now split|discriminate]).
Qed.

(** The part of [lxi_iface_ip] that follows a successful [lxi_getif]:
    the next counter value names the address object, whatever the three
    libipadm calls then return. *)
Lemma lxi_iface_ip_tail (o : oracle) (iface addr : string) (af : sa_family)
    (f : bool) (w : world) :
  exists rc w' evs,
    (n <- next_addrnum ;;
     let name := aobjname iface n in
     status <- sys o (C_ipadm_create_addrobj name) ;;
     if negb (status =? IPADM_SUCCESS) then
       lxi_warn "ipadm_create_addrobj error %d: addr %s, interface %s: %s\n" ;;
       ret (-2, f)
     else
       status <- sys o (C_ipadm_set_addr name addr) ;;
       if negb (status =? IPADM_SUCCESS) then
         lxi_warn "ipadm_set_addr error %d: addr %s, interface %s: %s\n" ;;
         sys_void (C_ipadm_destroy_addrobj name) ;;
         ret (-3, f)
       else
         status <- sys o (C_ipadm_create_addr name) ;;
         if negb (status =? IPADM_SUCCESS) then
           lxi_warn "ipadm_create_addr error for %s: %s\n" ;;
           sys_void (C_ipadm_destroy_addrobj name) ;;
           ret (-4, f)
         else
           sys_void (C_ipadm_destroy_addrobj name) ;;
           ret (0, if is_inet af then true else f)) w =
    (Ret (rc, f || (is_inet af && (rc =? 0))), w') /\
    trace w' = trace w ++ evs /\
    addrnum w' = addrnum w + 1 /\
    addifs evs = [] /\
    addrobjs evs = [aobjname iface (addrnum w)].
Proof.
  unfold bind at 1. unfold next_addrnum. cbv beta iota zeta.
  generalize (aobjname iface (addrnum w)). intro name.
  run_step.
  destruct (negb (sys_ret o (clock w) (C_ipadm_create_addrobj name)
                  =? IPADM_SUCCESS)); cbn;
  [|destruct (negb (sys_ret o (S (clock w)) (C_ipadm_set_addr name addr)
                    =? IPADM_SUCCESS)); cbn;
    [|destruct (negb (sys_ret o (S (S (clock w))) (C_ipadm_create_addr name)
                      =? IPADM_SUCCESS)); cbn]];
  do 3 eexists;
  (split; [f_equal; f_equal; f_equal; destruct f, af; reflexivity|]);
  flatten_trace; repeat (split; [reflexivity|]); reflexivity.
Qed.

Lemma addifs_app (a b : list event) : addifs (a ++ b) = addifs a ++ addifs b.
Proof. unfold addifs. apply flat_map_app. Qed.

Lemma addrobjs_app (a b : list event) :
  addrobjs (a ++ b) = addrobjs a ++ addrobjs b.
Proof. unfold addrobjs. apply flat_map_app. Qed.

(** What one [lxi_iface_ip] call does: the flag it leaves, where it puts
    the address, and the name it generates. *)
Lemma lxi_iface_ip_run (o : oracle) (base addr : string) (f : bool)
    (w : world) :
  exists rc w' evs,
    lxi_iface_ip o base addr f w =
      (Ret (rc, f || (is_ipv4 addr && (rc =? 0))), w') /\
    trace w' = trace w ++ evs /\
    (if is_ipv4 addr && negb f
     then placed_on_base base (addrnum w) rc evs
     else placed_on_new_lif o base (addrnum w) (S (clock w)) rc evs) /\
    ((addrobjs evs = [] /\ addrnum w' = addrnum w) \/
     (exists i, (String.length i <= LIFNAMSIZ)%nat /\
                addrobjs evs = [aobjname i (addrnum w)] /\
                addrnum w' = addrnum w + 1)).
Proof.
  unfold lxi_iface_ip, is_ipv4.
  set (af := if strstr addr ":" then AF_INET6 else AF_INET).
  assert (Haf : is_inet af = negb (strstr addr ":") /\
                is_inet6 af = strstr addr ":")
    by (unfold af; destruct (strstr addr ":"); now split).
  destruct Haf as (Hv4 & Hv6). rewrite <- Hv4.
  destruct (lxi_getif_run o af (strncpy base LIFNAMSIZ) LIFNAMSIZ f w)
    as (rc0 & iface' & w1 & evs1 & R1 & T1 & N1 & A1 & Hrc & Hbase & Hlif).
  unfold bind at 1. rewrite R1. cbv beta iota.
  unfold strncpy in Hbase, Hlif. rewrite truncate_idem in Hlif.
  fold (strncpy base LIFNAMSIZ) in Hbase, Hlif.
  destruct Hrc as [-> | ->].
  - change (negb (0 =? 0)) with false. cbv iota.
    destruct (lxi_iface_ip_tail o iface' addr af f w1)
      as (rc & w' & evs2 & R2 & T2 & N2 & F2 & A2).
    exists rc, w', (evs1 ++ evs2). split; [exact R2|].
    split; [now rewrite T2, T1, app_assoc|].
    assert (Hshort : (String.length iface' <= LIFNAMSIZ)%nat).
    { destruct (is_inet6 af || f) eqn:E.
      - destruct (Hlif eq_refl eq_refl) as (r & _ & _ & ->).
        apply truncate_length.
      - destruct (Hbase eq_refl) as (_ & ->). apply truncate_length. }
    split.
    + unfold placed_on_base, placed_on_new_lif.
      rewrite addrobjs_app, addifs_app, A1, F2, A2, N1, app_nil_r.
      cbn [app].
      destruct (is_inet af) eqn:E4, f; cbn [andb negb];
        rewrite Hv6 in *; rewrite Hv4 in E4;
        destruct (strstr addr ":"); try discriminate; cbn [orb] in *.
      * right. destruct (Hlif eq_refl eq_refl) as (r & Hr & Hr0 & ->).
        exists r. rewrite Hr. auto.
      * destruct (Hbase eq_refl) as (-> & ->). split; [reflexivity|].
        now right.
      * right. destruct (Hlif eq_refl eq_refl) as (r & Hr & Hr0 & ->).
        exists r. rewrite Hr. auto.
      * right. destruct (Hlif eq_refl eq_refl) as (r & Hr & Hr0 & ->).
        exists r. rewrite Hr. auto.
    + right. exists iface'. rewrite addrobjs_app, A1, A2, N1. cbn [app].
      split; [exact Hshort|]. split; [reflexivity|]. lia.
  - change (negb (-1 =? 0)) with true. cbv iota. run_step.
    exists (-1), (log (EWarn "failed to create new logical interface on %s: %s") w1),
           (evs1 ++ [EWarn "failed to create new logical interface on %s: %s"]).
    split.
    { unfold log. f_equal. f_equal. f_equal.
      change (-1 =? 0) with false. now rewrite andb_false_r, orb_false_r. }
    split; [cbn [trace log]; now rewrite T1, app_assoc|].
    assert (A : addrobjs
                  (evs1 ++
                   [EWarn "failed to create new logical interface on %s: %s"])
                = []) by (rewrite addrobjs_app, A1; reflexivity).
    split.
    + destruct (is_inet af && negb f) eqn:E.
      * unfold placed_on_base. split; [|left; now split].
        apply andb_prop in E. destruct E as (E4 & Ef).
        rewrite Hv4 in E4. apply negb_true_iff in E4, Ef. subst f.
        rewrite Hv6, E4 in Hbase. destruct (Hbase eq_refl) as (Z0 & _).
        rewrite addifs_app, Z0. reflexivity.
      * left. now split.
    + left. split; [exact A|]. cbn. exact N1.
Qed.


(** ** The address object names *)

Lemma occurs_append (c : ascii) (a b : string) :
  occurs c (a ++ b)%string = occurs c a || occurs c b.
Proof.
  induction a as [|x a IH]; cbn; [reflexivity|].
  now rewrite IH, orb_assoc.
Qed.

(** Two texts that end in the same separator followed by text free of
    it agree on what follows the separator. *)
Lemma append_sep_inj (c : ascii) (a b d1 d2 : string) :
  occurs c d1 = false -> occurs c d2 = false ->
  (a ++ String c d1)%string = (b ++ String c d2)%string ->
  a = b /\ d1 = d2.
Proof.
  intros H1 H2. revert b.
  induction a as [|x a IH]; intros [|y b] E; cbn in E.
  - injection E as ->. now split.
  - injection E as <- ->.
    rewrite occurs_append in H1. cbn in H1.
    rewrite Ascii.eqb_refl in H1. cbn in H1.
    now rewrite orb_true_r in H1.
  - injection E as -> <-.
    rewrite occurs_append in H2. cbn in H2.
    rewrite Ascii.eqb_refl in H2. cbn in H2.
    now rewrite orb_true_r in H2.
  - injection E as -> E. destruct (IH b E) as (-> & ->). now split.
Qed.

Lemma digit_cases (d : Z) :
  0 <= d < 10 ->
  d = 0 \/ d = 1 \/ d = 2 \/ d = 3 \/ d = 4 \/ d = 5 \/ d = 6 \/ d = 7 \/
  d = 8 \/ d = 9.
Proof. lia. Qed.

Lemma digit_of_not_r (d : Z) :
  0 <= d < 10 -> Ascii.eqb (digit_of d) "r" = false.
Proof.
  intro H. destruct (digit_cases d H) as
    [->|[->|[->|[->|[->|[->|[->|[->|[->| ->]]]]]]]]]; reflexivity.
Qed.

Lemma digit_of_inj (d e : Z) :
  0 <= d < 10 -> 0 <= e < 10 -> digit_of d = digit_of e -> d = e.
Proof.
  intros Hd He.
  destruct (digit_cases d Hd) as
    [->|[->|[->|[->|[->|[->|[->|[->|[->| ->]]]]]]]]];
  destruct (digit_cases e He) as
    [->|[->|[->|[->|[->|[->|[->|[->|[->| ->]]]]]]]]];
  intro E; try reflexivity; discriminate E.
Qed.

Lemma lsd_digits_length (fuel : nat) :
  forall n, (String.length (lsd_digits fuel n) <= fuel)%nat.
Proof.
  induction fuel as [|f IH]; intro n; cbn [lsd_digits String.length].
  - lia.
  - destruct (n / 10 =? 0); cbn [String.length]; [lia|].
    specialize (IH (n / 10)). lia.
Qed.

Lemma lsd_digits_no_r (fuel : nat) :
  forall n, occurs "r" (lsd_digits fuel n) = false.
Proof.
  induction fuel as [|f IH]; intro n; cbn [lsd_digits occurs].
  - reflexivity.
  - rewrite digit_of_not_r by (apply Z.mod_pos_bound; lia).
    destruct (n / 10 =? 0); [reflexivity|apply IH].
Qed.

Lemma lsd_digits_inj (fuel : nat) :
  forall n m,
    0 <= n < 10 ^ Z.of_nat fuel -> 0 <= m < 10 ^ Z.of_nat fuel ->
    lsd_digits fuel n = lsd_digits fuel m -> n = m.
Proof.
  induction fuel as [|f IH]; intros n m Hn Hm E.
  - cbn in Hn, Hm. lia.
  - cbn [lsd_digits] in E. injection E as Ed Er.
    apply digit_of_inj in Ed; try (apply Z.mod_pos_bound; lia).
    assert (P : 10 ^ Z.of_nat (S f) = 10 * 10 ^ Z.of_nat f)
      by (rewrite Nat2Z.inj_succ, Z.pow_succ_r; lia).
    rewrite P in Hn, Hm.
    assert (Hn' : 0 <= n / 10 < 10 ^ Z.of_nat f)
      by (split; [apply Z.div_pos; lia|apply Z.div_lt_upper_bound; lia]).
    assert (Hm' : 0 <= m / 10 < 10 ^ Z.of_nat f)
      by (split; [apply Z.div_pos; lia|apply Z.div_lt_upper_bound; lia]).
    assert (Q : n / 10 = m / 10).
    { destruct (Z.eqb_spec (n / 10) 0) as [En|En],
               (Z.eqb_spec (m / 10) 0) as [Em|Em].
      - congruence.
      - destruct f; [cbn in Hm'; lia|discriminate Er].
      - destruct f; [cbn in Hn'; lia|discriminate Er].
      - now apply IH. }
    rewrite (Z.div_mod n 10), (Z.div_mod m 10) by lia. congruence.
Qed.

Lemma rev_onto_length (s : string) :
  forall acc, String.length (rev_onto s acc)
              = (String.length s + String.length acc)%nat.
Proof.
  induction s as [|c s IH]; intro acc; cbn; [reflexivity|].
  rewrite IH. cbn. lia.
Qed.

Lemma rev_onto_occurs (c : ascii) (s : string) :
  forall acc, occurs c (rev_onto s acc) = occurs c s || occurs c acc.
Proof.
  induction s as [|x s IH]; intro acc; cbn; [reflexivity|].
  rewrite IH. cbn. destruct (Ascii.eqb x c), (occurs c s); reflexivity.
Qed.

Lemma rev_onto_twice (s : string) :
  forall acc acc',
    rev_onto (rev_onto s acc) acc' = rev_onto acc (s ++ acc')%string.
Proof.
  induction s as [|c s IH]; intros acc acc'; cbn; [reflexivity|].
  now rewrite IH.
Qed.

Lemma rev_onto_inj (s t : string) : rev_onto s "" = rev_onto t "" -> s = t.
Proof.
  intro E. apply (f_equal (fun x => rev_onto x "")) in E.
  rewrite !rev_onto_twice in E. cbn in E.
  now rewrite !append_empty_r in E.
Qed.

Lemma fmt_d_nonneg (n : Z) : 0 <= n -> fmt_d n = fmt_u n.
Proof.
  intro H. unfold fmt_d. destruct (Z.ltb_spec n 0); [lia|reflexivity].
Qed.

Lemma fmt_u_length (n : Z) : (String.length (fmt_u n) <= 10)%nat.
Proof.
  unfold fmt_u. rewrite rev_onto_length.
  change (String.length "") with 0%nat.
  pose proof (lsd_digits_length 10 n). lia.
Qed.

Lemma fmt_u_no_r (n : Z) : occurs "r" (fmt_u n) = false.
Proof.
  unfold fmt_u. rewrite rev_onto_occurs, lsd_digits_no_r. reflexivity.
Qed.

Lemma fmt_u_inj (n m : Z) :
  0 <= n <= INT_MAX -> 0 <= m <= INT_MAX -> fmt_u n = fmt_u m -> n = m.
Proof.
  unfold fmt_u, INT_MAX. intros Hn Hm E. apply rev_onto_inj in E.
  apply (lsd_digits_inj 10); try assumption;
    change (10 ^ Z.of_nat 10) with 10000000000; lia.
Qed.

Lemma string_length_append (a b : string) :
  String.length (a ++ b)%string = (String.length a + String.length b)%nat.
Proof. induction a as [|c a IH]; cbn; [reflexivity|now rewrite IH]. Qed.

Lemma string_append_assoc (a b c : string) :
  ((a ++ b) ++ c)%string = (a ++ (b ++ c))%string.
Proof. induction a as [|x a IH]; cbn; [reflexivity|now rewrite IH]. Qed.

(** The buffer [aobjname] takes the whole name when the interface name
    fits LIFNAMSIZ and the counter is an [int]. *)
Lemma aobjname_whole (iface : string) (n : Z) :
  (String.length iface <= LIFNAMSIZ)%nat -> 0 <= n ->
  aobjname iface n = (iface ++ "/addr" ++ fmt_u n)%string.
Proof.
  intros Hi Hn. unfold aobjname, snprintf. rewrite fmt_d_nonneg by exact Hn.
  apply truncate_short. rewrite string_length_append.
  change ("/addr" ++ fmt_u n)%string
    with (String "/" (String "a" (String "d" (String "d"
            (String "r" (fmt_u n)))))).
  cbn [String.length]. pose proof (fmt_u_length n).
  unfold LIFNAMSIZ in Hi. unfold IPADM_AOBJSIZ. lia.
Qed.

(** Names with different counter values differ, whatever the
    interfaces. *)
Lemma aobjname_inj (i1 i2 : string) (n1 n2 : Z) :
  (String.length i1 <= LIFNAMSIZ)%nat -> (String.length i2 <= LIFNAMSIZ)%nat ->
  0 <= n1 <= INT_MAX -> 0 <= n2 <= INT_MAX ->
  aobjname i1 n1 = aobjname i2 n2 -> i1 = i2 /\ n1 = n2.
Proof.
  intros H1 H2 Hn1 Hn2 E.
  rewrite !aobjname_whole in E by (assumption || lia).
  change ("/addr" ++ fmt_u n1)%string
    with ("/add" ++ String "r" (fmt_u n1))%string in E.
  change ("/addr" ++ fmt_u n2)%string
    with ("/add" ++ String "r" (fmt_u n2))%string in E.
  rewrite <- !string_append_assoc in E.
  apply append_sep_inj in E; try apply fmt_u_no_r.
  destruct E as (Ei & Ed). split.
  - apply (append_sep_inj "/" i1 i2 "add" "add") in Ei;
      [tauto|reflexivity|reflexivity].
  - now apply fmt_u_inj.
Qed.

Lemma names_from_app (l1 l2 : list string) :
  forall n,
    names_from n (l1 ++ l2) =
    names_from n l1 ++ names_from (n + Z.of_nat (List.length l1)) l2.
Proof.
  induction l1 as [|i l1 IH]; intro n; cbn [names_from app List.length].
  - now rewrite Z.add_0_r.
  - rewrite IH. do 3 f_equal. lia.
Qed.

Lemma in_names_from (x : string) (l : list string) :
  forall n,
    Forall (fun i => (String.length i <= LIFNAMSIZ)%nat) l ->
    In x (names_from n l) ->
    exists i k,
      (String.length i <= LIFNAMSIZ)%nat /\
      n <= k < n + Z.of_nat (List.length l) /\ x = aobjname i k.
Proof.
  induction l as [|i l IH]; intros n Hl Hin; cbn in Hin; [contradiction|].
  inversion Hl as [|? ? Hi Hl']; subst.
  destruct Hin as [<- | Hin].
  - exists i, n. cbn [List.length]. split; [exact Hi|]. split; [lia|reflexivity].
  - destruct (IH (n + 1) Hl' Hin) as (j & k & Hj & Hk & ->).
    exists j, k. cbn [List.length]. split; [exact Hj|]. split; [lia|reflexivity].
Qed.

(** The names generated with consecutive counter values are pairwise
    different as long as the counter stays an [int]. *)
Lemma names_from_NoDup (l : list string) :
  forall n,
    Forall (fun i => (String.length i <= LIFNAMSIZ)%nat) l ->
    0 <= n -> n + Z.of_nat (List.length l) <= INT_MAX + 1 ->
    NoDup (names_from n l).
Proof.
  induction l as [|i l IH]; intros n Hl Hn Hmax; cbn [names_from].
  - constructor.
  - inversion Hl as [|? ? Hi Hl']; subst. cbn [List.length] in Hmax.
    constructor.
    + intro Hin. destruct (in_names_from _ _ _ Hl' Hin) as (j & k & Hj & Hk & E).
      apply aobjname_inj in E; try assumption; lia.
    + apply IH; try assumption; lia.
Qed.

Lemma counter_refl (w : world) : counter_rel w w.
Proof.
  exists [], []. cbn. rewrite app_nil_r, Z.add_0_r. auto.
Qed.

Lemma counter_trans (a b c : world) :
  counter_rel a b -> counter_rel b c -> counter_rel a c.
Proof.
  intros (l1 & e1 & F1 & N1 & T1 & A1) (l2 & e2 & F2 & N2 & T2 & A2).
  exists (l1 ++ l2), (e1 ++ e2). split; [now apply Forall_app|].
  split; [rewrite N2, N1, length_app; lia|].
  split; [now rewrite T2, T1, app_assoc|].
  now rewrite addrobjs_app, A1, A2, names_from_app, N1.
Qed.

Lemma counter_quiet (w w' : world) (evs : list event) :
  trace w' = trace w ++ evs -> addrobjs evs = [] -> addrnum w' = addrnum w ->
  counter_rel w w'.
Proof.
  intros T A N. exists [], evs. cbn. rewrite Z.add_0_r. auto.
Qed.

Lemma counter_warn (fmt : string) : preserves counter_rel (lxi_warn fmt).
Proof. intro w. now apply (counter_quiet _ _ [EWarn fmt]). Qed.

Lemma counter_err {A} (fmt : string) : preserves counter_rel (@lxi_err A fmt).
Proof. intro w. now apply (counter_quiet _ _ [EErr fmt]). Qed.

Lemma counter_sys (o : oracle) (c : call) :
  (forall r, addrobj_of (ECall c r) = []) -> preserves counter_rel (sys o c).
Proof.
  intros E w. eapply counter_quiet; [reflexivity| |reflexivity].
  unfold addrobjs. cbn [flat_map]. now rewrite E.
Qed.

Lemma counter_sys_void (c : call) :
  addrobj_of (ECall c 0) = [] -> preserves counter_rel (sys_void c).
Proof.
  intros E w. eapply counter_quiet; [reflexivity| |reflexivity].
  unfold addrobjs. cbn [flat_map]. now rewrite E.
Qed.

Lemma counter_lifaddif (o : oracle) (name : string) :
  preserves counter_rel (sys_lifaddif o name).
Proof. intro w. now eapply counter_quiet. Qed.

Lemma counter_dhcp_request (o : oracle) (name : string) (t : Z) :
  preserves counter_rel (sys_dhcp_request o name t).
Proof. intro w. now eapply counter_quiet. Qed.

Lemma counter_set_ipv6 (b : bool) : preserves counter_rel (set_ipv6_enable b).
Proof. intro w. now apply (counter_quiet _ _ []); cbn; rewrite ?app_nil_r. Qed.

Lemma lxi_iface_ip_counter (o : oracle) (base addr : string) (f : bool) :
  preserves counter_rel (lxi_iface_ip o base addr f).
Proof.
  intro w.
  destruct (lxi_iface_ip_run o base addr f w)
    as (rc & w' & evs & R & T & _ & [(A & N) | (i & Hi & A & N)]);
    rewrite R; cbn [snd].
  - now apply (counter_quiet _ _ evs).
  - exists [i], evs. cbn [List.length names_from]. auto.
Qed.

Create HintDb lxi_counter.
#[local] Hint Resolve counter_warn counter_err counter_lifaddif
  counter_dhcp_request counter_set_ipv6 lxi_iface_ip_counter : lxi_counter.
#[local] Hint Extern 1 (preserves counter_rel (sys _ _)) =>
  apply counter_sys; reflexivity : lxi_counter.
#[local] Hint Extern 1 (preserves counter_rel (sys_void _)) =>
  apply counter_sys_void; reflexivity : lxi_counter.

Ltac counter_side := first [exact counter_refl | exact counter_trans].

Ltac counter_tac := repeat pres_step counter_side; auto with lxi_counter.

Lemma lxi_getif_counter (o : oracle) af iface len f :
  preserves counter_rel (lxi_getif o af iface len f).
Proof. unfold lxi_getif. counter_tac. Qed.

Lemma lxi_iface_dhcp_counter (o : oracle) (iface : string) (f : bool) :
  preserves counter_rel (lxi_iface_dhcp o iface f).
Proof.
  unfold lxi_iface_dhcp. pres_step counter_side;
    [apply lxi_getif_counter|counter_tac].
Qed.

Lemma lxi_net_plumb_counter (o : oracle) (iface : string) :
  preserves counter_rel (lxi_net_plumb o iface).
Proof. unfold lxi_net_plumb. counter_tac. Qed.

Lemma lxi_iface_ipv6_link_local_counter (o : oracle) (iface : string) :
  preserves counter_rel (lxi_iface_ipv6_link_local o iface).
Proof. unfold lxi_iface_ipv6_link_local. counter_tac. Qed.

Lemma write_rtmsg_counter (o : oracle) (m : rt_msg) :
  preserves counter_rel (write_rtmsg o m).
Proof. unfold write_rtmsg. counter_tac. Qed.

Lemma lxi_iface_gateway_counter (o : oracle) iface dst dstpfx gwaddr :
  preserves counter_rel (lxi_iface_gateway o iface dst dstpfx gwaddr).
Proof.
  unfold lxi_iface_gateway.
  repeat pres_step counter_side;
    auto using write_rtmsg_counter with lxi_counter.
Qed.

#[local] Hint Resolve lxi_getif_counter lxi_iface_dhcp_counter
  lxi_net_plumb_counter lxi_iface_ipv6_link_local_counter
  lxi_iface_gateway_counter : lxi_counter.

Lemma setup_ipaddrs_counter (o : oracle) (iface : string)
    (tokens : list string) :
  forall da f, preserves counter_rel (setup_ipaddrs o iface tokens da f).
Proof.
  induction tokens as [|t rest IH]; intros da f; cbn [setup_ipaddrs];
    counter_tac.
Qed.

Lemma setup_addresses_counter (o : oracle) (iface ipaddrs : string)
    (da : bool) :
  preserves counter_rel (setup_addresses o iface ipaddrs da).
Proof.
  unfold setup_addresses.
  repeat pres_step counter_side;
    auto using setup_ipaddrs_counter with lxi_counter.
Qed.

Lemma setup_nwif_counter (o : oracle) (lookup : zone_nwiftab) (da : bool) :
  preserves counter_rel (setup_nwif o lookup da).
Proof.
  unfold setup_nwif, setup_gateway.
  repeat pres_step counter_side;
    auto using setup_addresses_counter with lxi_counter.
Qed.

Lemma setup_nwifs_counter (o : oracle) (nwifs : list zone_nwiftab) :
  forall da, preserves counter_rel (setup_nwifs o nwifs da).
Proof.
  induction nwifs as [|n rest IH]; intro da; cbn [setup_nwifs];
    repeat pres_step counter_side;
    auto using setup_nwif_counter with lxi_counter.
Qed.

Lemma lxi_main_net_counter (o : oracle) (handle : zone_dochandle)
    (routeinfo : option (list string)) :
  preserves counter_rel (lxi_main_net o handle routeinfo).
Proof.
  unfold lxi_main_net, lxi_init, lxi_net_loopback, lxi_net_setup,
    lxi_net_ndpd_start, lxi_svc_start, lxi_normalize_protocols,
    lxi_kern_release_cmp, normalize_proto, lxi_net_static_routes,
    lxi_net_static_route.
  repeat pres_step counter_side;
    auto using setup_nwifs_counter with lxi_counter.
Qed.

(** C9: the counter in the address object names is one variable of the
    process; over a whole run, whatever the interfaces and whichever
    calls fail, the names generated carry the consecutive counter values
    from the starting one on, and the counter ends past the last one
    used; it is never set back.  Hence, as long as it stays an [int],
    the names generated in a run are pairwise different. *)
Theorem addrobj_names_unique (o : oracle) (handle : zone_dochandle)
    (routeinfo : option (list string)) (w : world) :
  let w' := snd (lxi_main_net o handle routeinfo w) in
  0 <= addrnum w -> addrnum w' <= INT_MAX + 1 ->
  exists ifaces evs,
    trace w' = trace w ++ evs /\
    addrobjs evs = names_from (addrnum w) ifaces /\
    addrnum w' = addrnum w + Z.of_nat (List.length ifaces) /\
    NoDup (addrobjs evs).
Proof.
  intros w' H0 Hmax.
  destruct (lxi_main_net_counter o handle routeinfo w)
    as (ifaces & evs & F & N & T & A).
  fold w' in N, T. exists ifaces, evs.
  split; [exact T|]. split; [exact A|]. split; [exact N|].
  rewrite A. apply names_from_NoDup; try assumption. lia.
Qed.

(** ** DHCP *)

Lemma dhcp_requests_app (a b : list event) :
  dhcp_requests (a ++ b) = dhcp_requests a ++ dhcp_requests b.
Proof. unfold dhcp_requests. apply flat_map_app. Qed.

Lemma errs_app (a b : list event) : errs (a ++ b) = errs a ++ errs b.
Proof. unfold errs. apply flat_map_app. Qed.

Lemma lxi_getif_quiet (o : oracle) af iface len f :
  preserves (silent dhcp_request_of) (lxi_getif o af iface len f) /\
  preserves (silent err_of) (lxi_getif o af iface len f).
Proof. unfold lxi_getif. split; silent_tac. Qed.

Lemma ends_in_warning (pre mid : list event) (fmt : string) :
  exists evs0 fmt', pre ++ (mid ++ [EWarn fmt]) = evs0 ++ [EWarn fmt'].
Proof. exists (pre ++ mid), fmt. now rewrite app_assoc. Qed.

(** What one [lxi_iface_dhcp] call does: it creates no address object,
    it makes at most one DHCP request, a failure that it returns leaves
    the flag as it was and ends in a warning, and success sets the
    flag. *)
Lemma lxi_iface_dhcp_run (o : oracle) (iface : string) (f : bool) (w : world) :
  exists out w' evs,
    lxi_iface_dhcp o iface f w = (out, w') /\
    trace w' = trace w ++ evs /\
    addrobjs evs = [] /\
    (List.length (dhcp_requests evs) <= 1)%nat /\
    (forall rc f', out = Ret (rc, f') -> rc <> 0 ->
       f' = f /\ errs evs = [] /\
       exists evs0 fmt, evs = evs0 ++ [EWarn fmt]) /\
    (forall rc f', out = Ret (rc, f') -> rc = 0 -> f' = true).
Proof.
  unfold lxi_iface_dhcp.
  destruct (lxi_getif_run o AF_INET (strncpy iface LIFNAMSIZ) LIFNAMSIZ f w)
    as (rc0 & iface' & w1 & evs1 & R1 & T1 & N1 & A1 & Hrc & _ & _).
  destruct (lxi_getif_quiet o AF_INET (strncpy iface LIFNAMSIZ) LIFNAMSIZ f)
    as (Q1 & Q2).
  specialize (Q1 w). specialize (Q2 w). rewrite R1 in Q1, Q2. cbn [snd] in *.
  destruct Q1 as (e1 & Te1 & D1). destruct Q2 as (e2 & Te2 & E1).
  rewrite T1 in Te1, Te2. apply app_inv_head in Te1, Te2. subst e1 e2.
  fold (dhcp_requests evs1) in D1. fold (errs evs1) in E1.
  unfold bind at 1. rewrite R1. cbv beta iota.
  destruct Hrc as [-> | ->].
  - change (negb (0 =? 0)) with false. cbv iota.
    unfold sys_dhcp_request. run_step.
    repeat match goal with
           | |- context [if ?b then _ else _] => destruct b eqn:?
           end; cbn; cbn [clock] in *;
    repeat match goal with
           | H : negb (_ =? 0) = true |- _ =>
               apply negb_true_iff in H; apply Z.eqb_neq in H
           | H : negb (_ =? 0) = false |- _ =>
               apply negb_false_iff in H; apply Z.eqb_eq in H
           end;
    do 3 eexists; (split; [reflexivity|]); cbn [trace]; rewrite T1;
    repeat rewrite <- app_assoc; cbn [app];
    (split; [reflexivity|]);
    rewrite addrobjs_app, dhcp_requests_app, errs_app, A1, D1, E1;
    (split; [reflexivity|]); (split; [cbn; lia|]);
    (split; intros rc f' E Hz; try discriminate E; injection E as <- <-);
    first [ reflexivity
          | congruence
          | exfalso; congruence
          | discriminate Hz
          | split; [reflexivity|split; [reflexivity|]];
            first [ apply (ends_in_warning evs1 [_; _])
                  | apply (ends_in_warning evs1 [_; _; _])] ].
  - change (negb (-1 =? 0)) with true. cbv iota. run_step.
    do 3 eexists. split; [reflexivity|]. cbn [trace]. rewrite T1.
    rewrite <- app_assoc. split; [reflexivity|].
    rewrite addrobjs_app, dhcp_requests_app, A1, D1.
    split; [reflexivity|]. split; [cbn; lia|]. split.
    + intros rc f' E _. injection E as <- <-. split; [reflexivity|].
      rewrite errs_app, E1. split; [reflexivity|]. eauto.
    + intros rc f' E Hz. injection E as <- <-. discriminate Hz.
Qed.

Lemma prefix_spec (n : string) :
  forall h, prefix n h = true <-> exists post, h = (n ++ post)%string.
Proof.
  induction n as [|a n IH]; intros [|b h]; cbn.
  - split; [intros _; now exists ""|reflexivity].
  - split; [intros _; now exists (String b h)|reflexivity].
  - split; [discriminate|intros (post & E); discriminate E].
  - destruct (ascii_dec a b) as [->|Hab].
    + rewrite IH. split; intros (post & E); exists post; congruence.
    + split; [discriminate|intros (post & E); congruence].
Qed.

(** [strstr] finds exactly the occurrences as a substring. *)
Lemma strstr_spec (n h : string) :
  strstr h n = true <-> exists pre post, h = (pre ++ n ++ post)%string.
Proof.
  split.
  - induction h as [|c h IH]; cbn [strstr].
    + destruct (prefix n "") eqn:P; [|discriminate]. intros _.
      apply prefix_spec in P. destruct P as (post & E). now exists "", post.
    + destruct (prefix n (String c h)) eqn:P.
      * intros _. apply prefix_spec in P. destruct P as (post & E).
        now exists "", post.
      * intro H. destruct (IH H) as (pre & post & ->).
        now exists (String c pre), post.
  - intros (pre & post & ->). induction pre as [|c pre IH].
    + assert (P : prefix n ("" ++ n ++ post) = true)
        by (apply prefix_spec; now exists post).
      cbn [append] in *. destruct (n ++ post)%string; cbn [strstr];
        now rewrite P.
    + cbn [append strstr]. rewrite IH. now destruct (prefix n _).
Qed.

Lemma dhcp_calls_app (a b : list event) :
  dhcp_calls (a ++ b) = dhcp_calls a ++ dhcp_calls b.
Proof. unfold dhcp_calls. apply flat_map_app. Qed.

Lemma no_dhcp_calls_no_requests (evs : list event) :
  dhcp_calls evs = [] -> dhcp_requests evs = [].
Proof.
  induction evs as [|e evs IH]; [reflexivity|].
  change (dhcp_calls (e :: evs)) with (dhcp_call_of e ++ dhcp_calls evs).
  change (dhcp_requests (e :: evs))
    with (dhcp_request_of e ++ dhcp_requests evs).
  intro H. apply app_eq_nil in H. destruct H as (He & Hevs).
  rewrite (IH Hevs), app_nil_r.
  destruct e as [[] r| |]; try reflexivity; discriminate He.
Qed.

(** Tokens equal to "dhcp" change nothing in the pass over the tokens. *)
Lemma setup_ipaddrs_skips_dhcp (o : oracle) (iface : string)
    (tokens : list string) :
  forall da f w,
    setup_ipaddrs o iface tokens da f w =
    setup_ipaddrs o iface (filter (fun t => negb (streq t "dhcp")) tokens)
                  da f w.
Proof.
  induction tokens as [|t rest IH]; intros da f w; [reflexivity|].
  cbn [setup_ipaddrs filter].
  destruct (streq t "addrconf") eqn:Ea.
  - apply String.eqb_eq in Ea. subst t. cbn [streq String.eqb negb].
    cbn. apply IH.
  - destruct (streq t "dhcp") eqn:Ed; cbn [negb].
    + apply IH.
    + cbn [setup_ipaddrs]. rewrite Ea, Ed. unfold bind.
      destruct (lxi_iface_ip o iface t f w) as [[[r ficp]| |] w1];
        try reflexivity.
      destruct (when (r <? 0) _ w1) as [[[]| |] w2]; try reflexivity.
      apply IH.
Qed.

(** ** The properties at sample inputs *)

(** C1: for the zone that declares kernel 3.3.9, the value set for
    [send_buf] is not 2*1024*1024. *)
Lemma send_recv_buf_not_2MiB :
  ~ (props_named "send_buf"
       (set_props
          (trace (snd (lxi_normalize_protocols oracle_ok zone_example world0))))
     = map (fun p => (p, fmt_u (2 * 1024 * 1024))) proto_entries).
Proof. vm_compute. discriminate. Qed.

Lemma normalize_send_recv_buf_witness :
  zonecfg_lookup_attr (zone_attrs zone_example) "kernel-version"
    = Some "3.3.9"%string /\
  exists w' evs,
    lxi_normalize_protocols oracle_ok zone_example world0 = (Ret tt, w') /\
    trace w' = trace world0 ++ evs /\
    props_named "send_buf" (set_props evs) =
      map (fun p => (p, fmt_u (2 * NETSTACK_BUFSZ))) proto_entries /\
    props_named "recv_buf" (set_props evs) =
      map (fun p => (p, fmt_u (2 * NETSTACK_BUFSZ))) proto_entries /\
    2 * NETSTACK_BUFSZ = 1 * 1024 * 1024.
Proof.
  split; [reflexivity|].
  apply (normalize_send_recv_buf oracle_ok zone_example "3.3.9" world0).
  reflexivity.
Defined.

Lemma normalize_max_buf_witness :
  zonecfg_lookup_attr (zone_attrs zone_example) "kernel-version"
    = Some "3.3.9"%string /\
  digit_runs_le 9 "3.3.9" 0 = true /\
  sscanf_version "3.3.9" = [3; 3; 9] /\
  exists w' evs,
    lxi_normalize_protocols oracle_ok zone_example world0 = (Ret tt, w') /\
    trace w' = trace world0 ++ evs /\
    (version_lt (3, 3, 9) (3, 4, 0) ->
     props_named "max_buf" (set_props evs) =
       map (fun p => (p, fmt_u (4 * 1024 * 1024))) proto_entries) /\
    (~ version_lt (3, 3, 9) (3, 4, 0) ->
     props_named "max_buf" (set_props evs) =
       map (fun p => (p, fmt_u (6 * 1024 * 1024))) proto_entries).
Proof.
  split; [reflexivity|]. split; [reflexivity|]. split; [reflexivity|].
  apply (normalize_max_buf oracle_ok zone_example "3.3.9" 3 3 9 world0);
    reflexivity.
Defined.

Lemma app_inv_skipn {A} (l1 l2 evs : list A) :
  l2 = l1 ++ evs -> evs = skipn (List.length l1) l2.
Proof. intros ->. induction l1 as [|a l1 IH]; cbn; [reflexivity|exact IH]. Qed.

(** The flag at work: when the first IPv4 address of net0 cannot be
    activated, the flag stays false and the second IPv4 address goes on
    net0 itself as well, with no logical interface. *)
Example ipv4_after_failed_first :
  exists rc1 rc2 f w1 w2,
    lxi_iface_ip oracle_first_addr_fails "net0" "10.0.0.1/24" false world0
      = (Ret (rc1, false), w1) /\ rc1 = -4 /\
    lxi_iface_ip oracle_first_addr_fails "net0" "10.0.0.2/24" false w1
      = (Ret (rc2, f), w2) /\ rc2 = 0 /\ f = true /\
    addifs (trace w2) = [] /\
    addrobjs (trace w2) = ["net0/addr0"; "net0/addr1"]%string.
Proof.
  do 5 eexists. split; [vm_compute; reflexivity|]. split; [reflexivity|].
  split; [vm_compute; reflexivity|]. repeat split.
Qed.


Lemma route_message_records_witness :
  lxi_iface_gateway oracle_ok None (Some "10.1.1.0"%string) 24
    (Some "10.77.77.2"%string) world0 =
  (Ret 0,
   snd (lxi_iface_gateway oracle_ok None (Some "10.1.1.0"%string) 24
          (Some "10.77.77.2"%string) world0)) /\
  exists evs m d g n,
    trace (snd (lxi_iface_gateway oracle_ok None (Some "10.1.1.0"%string) 24
                  (Some "10.77.77.2"%string) world0)) = trace world0 ++ evs /\
    routes_written evs = [m] /\
    rtm_sockaddrs m = [d; g; n] /\
    (exists gw, Some "10.77.77.2"%string = Some gw /\
                inet_pton gw = Some (sin_addr g)) /\
    ((exists a, inet_pton "10.1.1.0" = Some a /\ d = sockaddr_inet a) /\
     0 <= 24 <= 32 /\ n = sockaddr_inet (cidr_mask 24)) /\
    cidr_mask 0 = dotted 0 0 0 0 /\
    cidr_mask 24 = dotted 255 255 255 0 /\
    cidr_mask 32 = dotted 255 255 255 255.
Proof.
  split; [reflexivity|].
  apply (route_message_records oracle_ok None (Some "10.1.1.0"%string) 24
           (Some "10.77.77.2"%string) world0).
  reflexivity.
Defined.

Lemma static_route_example_witness :
  for_each (lxi_net_static_route oracle_ok) [] world0 = (Ret tt, world0) /\
  scan_route "10.77.77.2|10.1.1.0/24|false" route_scan_init =
    {| cu := "false"; gw := Some "10.77.77.2"%string;
       dst := Some "10.1.1.0"%string; pfx := 24 |} /\
  inet_pton "10.77.77.2" = Some (dotted 10 77 77 2) /\
  inet_pton "10.1.1.0" = Some (dotted 10 1 1 0) /\
  lxi_net_static_route oracle_ok "10.77.77.2|10.1.1.0/24|false" world0 =
    (r <- lxi_iface_gateway oracle_ok None (Some "10.1.1.0"%string) 24
            (Some "10.77.77.2"%string) ;;
     if negb (r =? 0) then lxi_err "failed to add route: %s/%d -> %s"
     else ret tt) world0 /\
  exists r w2 evs,
    lxi_net_static_route oracle_ok "10.77.77.2|10.1.1.0/24|false" world0
      = (r, w2) /\
    trace w2 = trace world0 ++ evs /\
    (routes_written evs = [] \/
     routes_written evs =
       [build_rtmsg oracle_ok 0 (sockaddr_inet (dotted 10 1 1 0))
          (set_addr sockaddr_in_zero (dotted 10 77 77 2))
          (sockaddr_inet (dotted 255 255 255 0))]) /\
    (r = Ret tt ->
     routes_written evs =
       [build_rtmsg oracle_ok 0 (sockaddr_inet (dotted 10 1 1 0))
          (set_addr sockaddr_in_zero (dotted 10 77 77 2))
          (sockaddr_inet (dotted 255 255 255 0))]).
Proof.
  split; [reflexivity|].
  apply (static_route_example oracle_ok [] world0 world0). reflexivity.
Defined.

Lemma static_route_flag_only_warns_witness :
  streq (cu (scan_route "10.77.77.2|10.1.1.0/24|true" route_scan_init))
        "false" = false /\
  lxi_net_static_route oracle_ok "10.77.77.2|10.1.1.0/24|true" world0 =
    (Ret tt,
     {| addrnum := 0; ipv6_enable := true; clock := 3;
        trace :=
          [EWarn "invalid static route: %s";
           ECall C_socket_route 3;
           ECall (C_write_route
                    (build_rtmsg oracle_ok 0 (sockaddr_inet (dotted 10 1 1 0))
                       (set_addr sockaddr_in_zero (dotted 10 77 77 2))
                       (sockaddr_inet (dotted 255 255 255 0)))) 124;
           ECall C_close 0] |}) /\
  exists w',
    lxi_net_static_route oracle_ok "10.77.77.2|10.1.1.0/24|true" world0
      = (Ret tt, w') /\
    trace w' =
      trace world0 ++
      [EWarn "invalid static route: %s";
       ECall C_socket_route 3;
       ECall (C_write_route
                (build_rtmsg oracle_ok 0 (sockaddr_inet (dotted 10 1 1 0))
                   (set_addr sockaddr_in_zero (dotted 10 77 77 2))
                   (sockaddr_inet (dotted 255 255 255 0)))) 124;
       ECall C_close 0].
Proof.
  split; [reflexivity|]. split; [reflexivity|].
  refine (proj2 (static_route_flag_only_warns oracle_ok
                   "10.77.77.2|10.1.1.0/24|true" world0
                   "10.77.77.2" "10.1.1.0" (dotted 10 77 77 2)
                   (dotted 10 1 1 0) (sockaddr_inet (dotted 255 255 255 0))
                   _) _ _ _ _ _ _ _);
    try reflexivity; vm_compute; discriminate.
Defined.

Lemma addrobj_names_unique_witness :
  0 <= addrnum world0 /\
  addrnum (snd (lxi_main_net oracle_ok zone_example
                  (Some ["10.77.77.2|10.1.1.0/24|false"%string]) world0))
    <= INT_MAX + 1 /\
  exists ifaces evs,
    trace (snd (lxi_main_net oracle_ok zone_example
                  (Some ["10.77.77.2|10.1.1.0/24|false"%string]) world0))
      = trace world0 ++ evs /\
    addrobjs evs = names_from (addrnum world0) ifaces /\
    addrnum (snd (lxi_main_net oracle_ok zone_example
                    (Some ["10.77.77.2|10.1.1.0/24|false"%string]) world0))
      = addrnum world0 + Z.of_nat (List.length ifaces) /\
    NoDup (addrobjs evs).
Proof.
  split; [vm_compute; discriminate|]. split; [vm_compute; discriminate|].
  apply (addrobj_names_unique oracle_ok zone_example
           (Some ["10.77.77.2|10.1.1.0/24|false"%string]) world0);
    vm_compute; discriminate.
Defined.

(** The names generated in the sample run. *)
Example sample_run_names :
  addrobjs (trace (snd (lxi_main_net oracle_ok zone_example None world0))) =
  ["lo0/addr0"; "net0:24/addr1"; "net0:31/addr2"; "net0:38/addr3";
   "net1/addr4"]%string.
Proof. vm_compute. reflexivity. Qed.

(** * Further properties of the code *)

Ltac bool_hyps :=
  repeat match goal with
         | H : negb _ = true |- _ => apply negb_true_iff in H
         | H : negb _ = false |- _ => apply negb_false_iff in H
         | H : (_ =? _) = true |- _ => apply Z.eqb_eq in H
         | H : (_ =? _) = false |- _ => apply Z.eqb_neq in H
         | H : (_ <? _) = true |- _ => apply Z.ltb_lt in H
         | H : (_ <? _) = false |- _ => apply Z.ltb_ge in H
         end.

Ltac split_ifs :=
  repeat match goal with
         | |- context [if ?b then _ else _] => destruct b eqn:?
         end.

Lemma calls_app (p : call -> bool) (a b : list event) :
  calls p (a ++ b) = calls p a ++ calls p b.
Proof. unfold calls. apply flat_map_app. Qed.

Lemma warnings_app (a b : list event) :
  warnings (a ++ b) = warnings a ++ warnings b.
Proof. unfold warnings. apply flat_map_app. Qed.

Lemma failed_app (a b : list (call * Z)) :
  failed (a ++ b) = failed a ++ failed b.
Proof. unfold failed. apply filter_app. Qed.

(** ** The kernel version comparison *)

(** X1: with a kernel-version attribute in the zone, the comparison logs
    nothing and returns 1, 0 or -1: a positive value exactly when the
    zone's version triple is lexicographically above the one given, a
    negative value exactly when it is below, and 0 exactly when the two
    triples are equal.  The triples are the [int]s that [sscanf] reads
    from the two texts, whose numbers are taken to be written with at
    most nine digits, so that each fits its [int]. *)
Theorem kern_release_cmp_sign (handle : zone_dochandle) (v vers : string)
    (z1 z2 z3 c1 c2 c3 : Z) (w : world) :
  zonecfg_lookup_attr (zone_attrs handle) "kernel-version" = Some v ->
  digit_runs_le 9 v 0 = true ->
  digit_runs_le 9 vers 0 = true ->
  sscanf_version v = [z1; z2; z3] ->
  sscanf_version vers = [c1; c2; c3] ->
  exists r,
    lxi_kern_release_cmp handle vers w = (Ret r, w) /\
    (r = 1 \/ r = 0 \/ r = -1) /\
    (0 < r <-> version_lt (c1, c2, c3) (z1, z2, z3)) /\
    (r < 0 <-> version_lt (z1, z2, z3) (c1, c2, c3)) /\
    (r = 0 <-> (z1, z2, z3) = (c1, c2, c3)).
Proof.
  intros Hattr _ _ Hv Hc. unfold lxi_kern_release_cmp. rewrite Hattr, Hv, Hc.
  exists (vers_cmp [z1; z2; z3] [c1; c2; c3]). split; [reflexivity|].
  unfold version_lt. cbn [vers_cmp].
  destruct (Z.gtb_spec z1 c1), (Z.ltb_spec z1 c1),
           (Z.gtb_spec z2 c2), (Z.ltb_spec z2 c2),
           (Z.gtb_spec z3 c3), (Z.ltb_spec z3 c3);
    (split; [lia|]); (split; [lia|]); (split; [lia|]);
    split; intro E; try lia; try (injection E; lia);
    try (f_equal; [f_equal|]; lia).
Qed.

(** ** The normalizer, call by call *)

Lemma normalize_proto_calls (o : oracle) (val_max val : string) (p : mod_proto)
    (w : world) :
  exists w' evs,
    normalize_proto o val_max val p w = (Ret tt, w') /\
    trace w' = trace w ++ evs /\
    set_props evs = proto_settings val_max val p /\
    errs evs = [] /\
    List.length (warnings evs) = List.length (failed (calls is_set_prop evs)).
Proof.
  unfold normalize_proto. run_step.
  destruct (sys_ret o (clock w) _ =? IPADM_SUCCESS) eqn:E1; cbn;
  destruct (sys_ret o _ (C_ipadm_set_prop "send_buf" val p)
            =? IPADM_SUCCESS) eqn:E2; cbn;
  destruct (sys_ret o _ (C_ipadm_set_prop "recv_buf" val p)
            =? IPADM_SUCCESS) eqn:E3; cbn;
  eexists; eexists; (split; [reflexivity|]); flatten_trace;
  (split; [reflexivity|]); (split; [reflexivity|]);
  (split; [reflexivity|]);
  unfold failed, calls, IPADM_SUCCESS in *; cbn;
  rewrite ?E1, ?E2, ?E3; reflexivity.
Qed.

Lemma normalize_protos_calls (o : oracle) (val_max val : string)
    (l : list mod_proto) :
  forall w, exists w' evs,
    for_each (normalize_proto o val_max val) l w = (Ret tt, w') /\
    trace w' = trace w ++ evs /\
    set_props evs = flat_map (proto_settings val_max val) l /\
    errs evs = [] /\
    List.length (warnings evs) = List.length (failed (calls is_set_prop evs)).
Proof.
  induction l as [|p l IH]; intro w.
  - exists w, []. cbn. rewrite app_nil_r. auto.
  - destruct (normalize_proto_calls o val_max val p w)
      as (w1 & e1 & R1 & T1 & S1 & E1 & W1).
    destruct (IH w1) as (w2 & e2 & R2 & T2 & S2 & E2 & W2).
    exists w2, (e1 ++ e2). cbn [for_each]. unfold bind at 1. rewrite R1.
    split; [exact R2|]. split; [now rewrite T2, T1, app_assoc|].
    split; [rewrite set_props_app, S1, S2; reflexivity|].
    split; [now rewrite errs_app, E1, E2|].
    rewrite warnings_app, calls_app, failed_app, !length_app. lia.
Qed.

(** X2: the normalizer either stops at once, with one error and nothing
    set, when the zone has no kernel-version attribute; or it returns
    after exactly the twelve property settings, protocol by protocol in
    the order TCP, UDP, SCTP, raw IP and for each one [max_buf] before
    [send_buf] before [recv_buf], whatever the calls return: a failed
    call costs one warning each and stops nothing. *)
Theorem normalize_outcome (o : oracle) (handle : zone_dochandle) (w : world) :
  match zonecfg_lookup_attr (zone_attrs handle) "kernel-version" with
  | None =>
      lxi_normalize_protocols o handle w =
      (Exit, log (EErr "%s kernel-version zonecfg_lookup_attr: %s\n") w)
  | Some _ =>
      exists w' evs val_max,
        lxi_normalize_protocols o handle w = (Ret tt, w') /\
        trace w' = trace w ++ evs /\
        set_props evs =
          flat_map (proto_settings val_max (fmt_u (2 * NETSTACK_BUFSZ)))
                   [MOD_PROTO_TCP; MOD_PROTO_UDP; MOD_PROTO_SCTP;
                    MOD_PROTO_RAWIP] /\
        errs evs = [] /\
        List.length (warnings evs)
          = List.length (failed (calls is_set_prop evs))
  end.
Proof.
  destruct (zonecfg_lookup_attr (zone_attrs handle) "kernel-version")
    as [v|] eqn:Hattr.
  - unfold lxi_normalize_protocols, lxi_kern_release_cmp. rewrite Hattr.
    unfold bind at 1. unfold ret at 1.
    destruct (normalize_protos_calls o
                (snprintf 16
                   (fmt_u (if vers_cmp (sscanf_version v)
                                       (sscanf_version "3.4.0") <? 0
                           then 4 * 1024 * 1024 else 6 * 1024 * 1024)))
                (snprintf 16 (fmt_u (NETSTACK_BUFSZ * 2))) proto_entries w)
      as (w' & evs & R & T & S & E & W).
    exists w', evs. eexists. split; [exact R|]. split; [exact T|].
    split; [exact S|]. split; [exact E|exact W].
  - unfold lxi_normalize_protocols, lxi_kern_release_cmp. rewrite Hattr.
    reflexivity.
Qed.

(** ** Attribute lookup *)

Lemma truncate_eq_short (n : nat) :
  forall s t, truncate n s = t -> (String.length t < n)%nat -> s = t.
Proof.
  unfold truncate.
  induction n as [|n IH]; intros [|c s] t E L; cbn in E; subst; cbn in L;
    try reflexivity; try lia.
  f_equal. apply IH; [reflexivity|lia].
Qed.

(** X3: [zone_find_attr] returns the value of the first attribute of
    the list whose name agrees with the name asked for, and nothing
    exactly when no attribute agrees; for a name shorter than
    MAXNAMELEN, agreeing is being equal. *)
Theorem zone_find_attr_first_match (attrs : list (string * string))
    (name : string) :
  match zone_find_attr attrs name with
  | None => Forall (fun a => strneq (fst a) name MAXNAMELEN = false) attrs
  | Some v =>
      exists pre n post,
        attrs = pre ++ (n, v) :: post /\
        strneq n name MAXNAMELEN = true /\
        ((String.length name < MAXNAMELEN)%nat -> n = name) /\
        Forall (fun a => strneq (fst a) name MAXNAMELEN = false) pre
  end.
Proof.
  induction attrs as [|[n v] rest IH]; cbn [zone_find_attr].
  - constructor.
  - destruct (strneq n name MAXNAMELEN) eqn:E.
    + exists [], n, rest. split; [reflexivity|]. split; [exact E|].
      split; [|constructor]. intro L. unfold strneq in E.
      apply String.eqb_eq in E.
      rewrite (truncate_short MAXNAMELEN name) in E by lia.
      now apply (truncate_eq_short MAXNAMELEN).
    + destruct (zone_find_attr rest name) as [v'|].
      * destruct IH as (pre & n' & post & -> & M & L & F).
        exists ((n, v) :: pre), n', post. split; [reflexivity|].
        split; [exact M|]. split; [exact L|]. now constructor.
      * now constructor.
Qed.

(** ** Sockets and logical interfaces *)

Lemma silent_dhcp_request {X} (f : event -> list X) (o : oracle)
    (name : string) (t : Z) :
  (forall r, f (ECall (C_dhcp_ipc_make_request name t) r) = []) ->
  preserves (silent f) (sys_dhcp_request o name t).
Proof. intros E w. eapply silent_one; [reflexivity|apply E]. Qed.

#[local] Hint Extern 1 (preserves (silent _) (sys_dhcp_request _ _ _)) =>
  apply silent_dhcp_request; reflexivity : lxi_silent.

Lemma silent_events {X} (f : event -> list X) (w w' : world)
    (evs : list event) :
  silent f w w' -> trace w' = trace w ++ evs -> flat_map f evs = [].
Proof.
  intros (e & T & S) T'. rewrite T in T'. apply app_inv_head in T'.
  now subst e.
Qed.

(** X4: [lxi_getif] opens one socket and closes it again on every path
    on which it was opened; it returns 0 or -1, reports no error, and
    when it returns -1 the interface name in the caller's buffer is
    what it was; when the socket cannot be opened, no logical interface
    is asked for. *)
Theorem lxi_getif_socket_closed (o : oracle) (af : sa_family) (iface : string)
    (len : nat) (f : bool) (w : world) :
  exists rc iface' w' evs,
    lxi_getif o af iface len f w = (Ret (rc, iface'), w') /\
    trace w' = trace w ++ evs /\
    calls is_socket evs
      = [(C_socket af, sys_ret o (clock w) (C_socket af))] /\
    List.length (calls is_close evs)
      = (if sys_ret o (clock w) (C_socket af) <? 0 then 0%nat else 1%nat) /\
    (rc = 0 \/ rc = -1) /\
    (rc = -1 -> iface' = iface) /\
    (sys_ret o (clock w) (C_socket af) < 0 -> rc = -1 /\ addifs evs = []) /\
    errs evs = [].
Proof.
  unfold lxi_getif, sys_lifaddif. run_step.
  split_ifs; cbn; bool_hyps;
    do 4 eexists; (split; [reflexivity|]); flatten_trace;
    (split; [reflexivity|]); (split; [reflexivity|]);
    (split; [reflexivity|]);
    (split; [first [now left | now right]|]);
    (split; [intro; first [reflexivity | discriminate]|]);
    (split; [intro; first [now split | lia]|]); reflexivity.
Qed.

(** X5: [lxi_iface_ipv6_link_local] goes on to the SIOCGLIFFLAGS call
    even when the socket could not be opened; it returns 0 exactly when
    both ioctls succeed, else -1 after a warning, and it closes the
    socket only on the path that returns 0. *)
Theorem link_local_outcome (o : oracle) (iface : string) (w : world) :
  exists rc w' evs get,
    lxi_iface_ipv6_link_local o iface w = (Ret rc, w') /\
    trace w' = trace w ++ evs /\
    calls is_getflags evs
      = [(C_ioctl_SIOCGLIFFLAGS (strncpy iface LIFNAMSIZ), get)] /\
    (rc = 0 \/ rc = -1) /\
    (rc = 0 <->
     0 <= get /\
     exists set,
       calls is_setflags evs
         = [(C_ioctl_SIOCSLIFFLAGS_up (strncpy iface LIFNAMSIZ), set)] /\
       0 <= set) /\
    List.length (calls is_close evs) = (if rc =? 0 then 1%nat else 0%nat) /\
    (rc = -1 -> warnings evs <> []) /\
    errs evs = [].
Proof.
  unfold lxi_iface_ipv6_link_local.
  generalize (strncpy iface LIFNAMSIZ). intro name. run_step.
  split_ifs; cbn; cbn [clock] in *; bool_hyps;
    do 4 eexists; (split; [reflexivity|]); flatten_trace;
    (split; [reflexivity|]); (split; [reflexivity|]);
    (split; [first [now left | now right]|]).
  all: cbn.
  all: split;
    [split;
     [intro E;
      first [discriminate E | split; [lia|eexists; split; [reflexivity|lia]]]
     |intros (G & s & E & S);
      first [reflexivity | lia | discriminate E | injection E as <-; lia]]|].
  all: split; [reflexivity|].
  all: split; [intro; discriminate|reflexivity].
Qed.

(** ** One address *)

Lemma bind_ext {A B} (m : M A) (k1 k2 : A -> M B) (w : world) :
  (forall a w1, k1 a w1 = k2 a w1) -> bind m k1 w = bind m k2 w.
Proof.
  intro H. unfold bind. destruct (m w) as [[a| |] w1]; [apply H|..];
    reflexivity.
Qed.

Lemma lxi_iface_ip_unfold (o : oracle) (base addr : string) (f : bool)
    (w : world) :
  lxi_iface_ip o base addr f w =
  (let af := if strstr addr ":" then AF_INET6 else AF_INET in
   x <- lxi_getif o af (strncpy base LIFNAMSIZ) LIFNAMSIZ f ;;
   if negb (fst x =? 0) then
     lxi_warn "failed to create new logical interface on %s: %s" ;;
     ret (-1, f)
   else
     n <- next_addrnum ;;
     apply_addrobj o (aobjname (snd x) n) addr af f) w.
Proof.
  unfold lxi_iface_ip. cbv zeta. apply bind_ext.
  intros [rc i] w1. reflexivity.
Qed.

Lemma apply_addrobj_outcome (o : oracle) (name addr : string)
    (af : sa_family) (f : bool) (w : world) :
  exists rc w' evs,
    apply_addrobj o name addr af f w
      = (Ret (rc, if rc =? 0 then (if is_inet af then true else f) else f),
         w') /\
    trace w' = trace w ++ evs /\
    addrnum w' = addrnum w /\
    errs evs = [] /\
    addrobjs evs = [name] /\
    (rc = 0 \/ rc = -2 \/ rc = -3 \/ rc = -4) /\
    (rc < 0 -> warnings evs <> []) /\
    calls is_destroy_addrobj evs
      = (if rc =? -2 then [] else [(C_ipadm_destroy_addrobj name, 0)]) /\
    (rc = 0 <->
     exists n, calls is_create_addr evs = [(C_ipadm_create_addr n, 0)]).
Proof.
  unfold apply_addrobj. run_step. unfold IPADM_SUCCESS.
  destruct (Z.eqb_spec (sys_ret o (clock w) (C_ipadm_create_addrobj name)) 0);
    cbn;
  [destruct (Z.eqb_spec
               (sys_ret o (S (clock w)) (C_ipadm_set_addr name addr)) 0); cbn;
   [destruct (Z.eqb_spec
                (sys_ret o (S (S (clock w))) (C_ipadm_create_addr name)) 0);
    cbn; [exists 0|exists (-4)]|exists (-3)]|exists (-2)];
  do 2 eexists; (split; [reflexivity|]); flatten_trace;
  (split; [reflexivity|]); (split; [reflexivity|]);
  (split; [reflexivity|]); (split; [reflexivity|]);
  (split; [tauto|]);
  (split; [intro; first [lia | discriminate]|]);
  (split; [reflexivity|]);
  (split;
   [intro E; first [discriminate E | exists name; cbn; congruence]
   |intros (n' & E);
    first [reflexivity | discriminate E
          | cbn in E; injection E; intros; contradiction]]).
Qed.

Lemma lxi_getif_silent (o : oracle) af iface len f :
  preserves (silent (call_of is_destroy_addrobj)) (lxi_getif o af iface len f)
  /\ preserves (silent (call_of is_create_addr)) (lxi_getif o af iface len f)
  /\ preserves (silent err_of) (lxi_getif o af iface len f).
Proof. unfold lxi_getif. repeat split; silent_tac. Qed.

(** What a call of [lxi_iface_ip] does, for the proofs about its
    callers. *)
Lemma lxi_iface_ip_cases (o : oracle) (base addr : string) (f : bool)
    (w : world) :
  exists rc f' w' evs,
    lxi_iface_ip o base addr f w = (Ret (rc, f'), w') /\
    trace w' = trace w ++ evs /\
    errs evs = [] /\
    (rc = 0 \/ rc = -1 \/ rc = -2 \/ rc = -3 \/ rc = -4) /\
    (rc < 0 -> f' = f /\ warnings evs <> []) /\
    (rc = 0 -> f' = f || is_ipv4 addr) /\
    (rc = -1 -> addrobjs evs = [] /\ calls is_destroy_addrobj evs = []) /\
    (rc = -2 ->
     exists name, addrobjs evs = [name] /\
                  calls is_destroy_addrobj evs = []) /\
    (rc = 0 \/ rc = -3 \/ rc = -4 ->
     exists name,
       addrobjs evs = [name] /\
       calls is_destroy_addrobj evs = [(C_ipadm_destroy_addrobj name, 0)]) /\
    (rc = 0 <->
     exists name, calls is_create_addr evs = [(C_ipadm_create_addr name, 0)]).
Proof.
  rewrite lxi_iface_ip_unfold. cbv zeta.
  set (af := if strstr addr ":" then AF_INET6 else AF_INET).
  destruct (lxi_getif_run o af (strncpy base LIFNAMSIZ) LIFNAMSIZ f w)
    as (rc0 & iface' & w1 & evs1 & R1 & T1 & N1 & A1 & Hrc & _ & _).
  destruct (lxi_getif_silent o af (strncpy base LIFNAMSIZ) LIFNAMSIZ f)
    as (Q1 & Q2 & Q3).
  specialize (Q1 w). specialize (Q2 w). specialize (Q3 w).
  rewrite R1 in Q1, Q2, Q3. cbn [snd] in Q1, Q2, Q3.
  apply (fun q => silent_events _ _ _ _ q T1) in Q1, Q2, Q3.
  fold (calls is_destroy_addrobj evs1) in Q1.
  fold (calls is_create_addr evs1) in Q2. fold (errs evs1) in Q3.
  unfold bind at 1. rewrite R1. cbn [fst snd].
  destruct Hrc as [-> | ->].
  - change (negb (0 =? 0)) with false. cbv iota.
    unfold bind at 1, next_addrnum.
    match goal with
    | |- context [apply_addrobj o ?n addr af f ?w0] =>
        destruct (apply_addrobj_outcome o n addr af f w0)
          as (rc & w' & evs2 & R2 & T2 & N2 & E2 & A2 & Hrc & W2 & D2 & C2)
    end.
    rewrite R2. cbn [trace] in T2.
    exists rc, (if rc =? 0 then if is_inet af then true else f else f), w',
           (evs1 ++ evs2).
    split; [reflexivity|]. split; [now rewrite T2, T1, app_assoc|].
    rewrite errs_app, warnings_app, addrobjs_app, !calls_app,
      Q1, Q2, Q3, E2, A1, A2, D2. cbn [app].
    split; [reflexivity|]. split; [tauto|].
    assert (F0 : (if is_inet af then true else f) = f || is_ipv4 addr).
    { unfold af, is_ipv4. destruct (strstr addr ":"), f; reflexivity. }
    destruct Hrc as [-> | [-> | [-> | ->]]]; cbn [Z.eqb Pos.eqb];
      (split; [intro; first [lia | split; [reflexivity|]];
               (intro E; apply app_eq_nil in E; destruct E as (_ & E);
                now apply W2; [lia|])|]);
      (split; [intro; first [discriminate | exact F0]|]);
      (split; [intro; discriminate|]);
      (split; [intro; first [discriminate | eexists; now split]|]);
      (split; [intro; first [lia | eexists; split; reflexivity]|]);
      (split; [intro E; first [discriminate E | apply C2; reflexivity]
              |intros X; first [reflexivity | apply C2 in X; discriminate X]]).
  - change (negb (-1 =? 0)) with true. cbv iota. run_step.
    exists (-1), f,
           (log (EWarn "failed to create new logical interface on %s: %s") w1),
           (evs1 ++ [EWarn "failed to create new logical interface on %s: %s"]).
    split; [reflexivity|]. split; [cbn [trace log]; now rewrite T1, app_assoc|].
    rewrite errs_app, warnings_app, addrobjs_app, !calls_app, Q1, Q2, Q3, A1.
    cbn. split; [reflexivity|]. split; [tauto|].
    split; [intros _; split; [reflexivity|]; intro E;
            apply app_eq_nil in E; destruct E as (_ & E); discriminate E|].
    split; [discriminate|]. split; [now split|]. split; [discriminate|].
    split; [intro; lia|].
    split; [discriminate|intros (name & E); discriminate E].
Qed.

(** X6: [lxi_iface_ip] never ends the process: it returns 0, -1, -2, -3
    or -4 and reports no error.  A negative value comes with a warning
    and leaves the flag as it was; 0 sets the flag for an IPv4 address
    and leaves it for an IPv6 address.  The address object is destroyed
    exactly when it was created: never at -1 (nothing was named) and at
    -2 (the creation failed), once under the same name otherwise; and 0
    is returned exactly when the address was activated. *)
Theorem lxi_iface_ip_outcome (o : oracle) (base addr : string) (f : bool)
    (w : world) :
  exists rc f' w' evs,
    lxi_iface_ip o base addr f w = (Ret (rc, f'), w') /\
    trace w' = trace w ++ evs /\
    errs evs = [] /\
    (rc = 0 \/ rc = -1 \/ rc = -2 \/ rc = -3 \/ rc = -4) /\
    (rc < 0 -> f' = f /\ warnings evs <> []) /\
    (rc = 0 -> f' = f || is_ipv4 addr) /\
    (rc = -1 -> addrobjs evs = [] /\ calls is_destroy_addrobj evs = []) /\
    (rc = -2 ->
     exists name, addrobjs evs = [name] /\
                  calls is_destroy_addrobj evs = []) /\
    (rc = 0 \/ rc = -3 \/ rc = -4 ->
     exists name,
       addrobjs evs = [name] /\
       calls is_destroy_addrobj evs = [(C_ipadm_destroy_addrobj name, 0)]) /\
    (rc = 0 <->
     exists name, calls is_create_addr evs = [(C_ipadm_create_addr name, 0)]).
Proof. exact (lxi_iface_ip_cases o base addr f w). Qed.

(** ** DHCP and the pass over the tokens *)

(** X7: [lxi_iface_dhcp] ends the process in one case only, when the
    DHCP agent cannot be started, and then nothing was asked of the
    agent; it never reads a NULL string.  When it returns, no error was
    reported; it returns 0 exactly after the agent start, the request
    allocation and the request itself, and then the flag is set; a
    non-zero return leaves the flag as it was. *)
Theorem lxi_iface_dhcp_outcome (o : oracle) (iface : string) (f : bool)
    (w : world) :
  exists out w' evs,
    lxi_iface_dhcp o iface f w = (out, w') /\
    trace w' = trace w ++ evs /\
    out <> Fault /\
    (out = Exit ->
     errs evs = ["Failed to start dhcpagent\n"%string] /\
     dhcp_calls evs = [C_dhcp_start_agent 5]) /\
    (forall rc f', out = Ret (rc, f') ->
       errs evs = [] /\
       (rc = 0 ->
        f' = true /\
        exists name,
          dhcp_calls evs =
            [C_dhcp_start_agent 5; C_dhcp_ipc_alloc_request name;
             C_dhcp_ipc_make_request name 5]) /\
       (rc <> 0 -> f' = f)).
Proof.
  unfold lxi_iface_dhcp.
  destruct (lxi_getif_run o AF_INET (strncpy iface LIFNAMSIZ) LIFNAMSIZ f w)
    as (rc0 & iface' & w1 & evs1 & R1 & T1 & N1 & A1 & Hrc & _ & _).
  pose proof (lxi_getif_no_dhcp o AF_INET (strncpy iface LIFNAMSIZ)
                LIFNAMSIZ f w) as Q1.
  destruct (lxi_getif_quiet o AF_INET (strncpy iface LIFNAMSIZ) LIFNAMSIZ f)
    as (_ & Q2).
  specialize (Q2 w). rewrite R1 in Q1, Q2. cbn [snd] in Q1, Q2.
  apply (fun q => silent_events _ _ _ _ q T1) in Q1, Q2.
  fold (dhcp_calls evs1) in Q1. fold (errs evs1) in Q2.
  unfold bind at 1. rewrite R1. cbv beta iota.
  destruct Hrc as [-> | ->].
  - change (negb (0 =? 0)) with false. cbv iota.
    unfold sys_dhcp_request. run_step.
    split_ifs; cbn; cbn [clock] in *; bool_hyps;
      do 3 eexists; (split; [reflexivity|]); cbn [trace]; rewrite T1;
      repeat rewrite <- app_assoc; cbn [app];
      (split; [reflexivity|]);
      rewrite errs_app, dhcp_calls_app, Q1, Q2;
      (split; [discriminate|]);
      (split; [intro E; first [discriminate E | now split]|]);
      intros rc f' E; try discriminate E; injection E as <- <-;
      (split; [reflexivity|]);
      (split; [intro Z0; first [exfalso; congruence | discriminate Z0
                                | split; [reflexivity|eexists; reflexivity]]
              |intro Z0; first [reflexivity | exfalso; congruence]]).
  - change (negb (-1 =? 0)) with true. cbv iota. run_step.
    do 3 eexists. split; [reflexivity|]. cbn [trace]. rewrite T1.
    rewrite <- app_assoc. split; [reflexivity|].
    rewrite errs_app, Q2. split; [discriminate|]. split; [discriminate|].
    intros rc f' E. injection E as <- <-. split; [reflexivity|].
    split; [discriminate|reflexivity].
Qed.

(** What the pass over the address tokens does, for the proofs about
    the interface loop. *)
Lemma setup_ipaddrs_cases (o : oracle) (iface : string)
    (tokens : list string) :
  forall (da f : bool) (w : world),
  exists f' w' evs,
    setup_ipaddrs o iface tokens da f w
      = (Ret (da || existsb (fun t => streq t "addrconf") tokens, f'), w') /\
    trace w' = trace w ++ evs /\
    errs evs = [] /\
    (f = true -> f' = true).
Proof.
  induction tokens as [|t rest IH]; intros da f w; cbn [setup_ipaddrs existsb].
  - exists f, w, []. rewrite orb_false_r, app_nil_r. auto.
  - destruct (streq t "addrconf") eqn:Ea.
    + destruct (IH true f w) as (f' & w' & evs & R & T & E & F).
      exists f', w', evs. rewrite R. cbn [orb]. rewrite orb_true_r. auto.
    + cbn [orb]. destruct (streq t "dhcp") eqn:Ed; [apply IH|].
      destruct (lxi_iface_ip_cases o iface t f w)
        as (rc & f1 & w1 & evs1 & R1 & T1 & E1 & _ & Hneg & Hzero & _).
      unfold bind at 1. rewrite R1. cbv beta iota.
      set (w2 := snd (when (rc <? 0)
                        (lxi_warn
                           "Unable to add new IP address (%s) to interface %s")
                        w1)).
      assert (W : exists e2,
                 when (rc <? 0)
                   (lxi_warn
                      "Unable to add new IP address (%s) to interface %s") w1
                 = (Ret tt, w2) /\ trace w2 = trace w1 ++ e2 /\ errs e2 = []).
      { unfold w2. destruct (rc <? 0); cbn.
        - eexists. split; [reflexivity|]. split; reflexivity.
        - exists []. rewrite app_nil_r. auto. }
      destruct W as (e2 & R2 & T2 & E2).
      unfold bind at 1. rewrite R2.
      destruct (IH da f1 w2) as (f' & w' & evs & R & T & E & F).
      exists f', w', (evs1 ++ e2 ++ evs). split; [exact R|].
      split; [now rewrite T, T2, T1, !app_assoc|].
      split; [now rewrite !errs_app, E1, E2, E|].
      intro Hf. apply F.
      destruct (Z.ltb_spec rc 0) as [Hlt|Hge].
      * destruct (Hneg Hlt) as (-> & _). exact Hf.
      * destruct (lxi_iface_ip_run o iface t f w)
          as (rc' & w1' & evs1' & R1' & _).
        rewrite R1 in R1'. injection R1' as -> -> _. subst f.
        reflexivity.
Qed.

(** X8: the pass over the address tokens never ends the process and
    reports no error, whatever fails; it returns [do_addrconf] set when
    it was set before or a token is "addrconf", and a flag
    [first_ipv4_configured] that, once set, stays set. *)
Theorem setup_ipaddrs_outcome (o : oracle) (iface : string)
    (tokens : list string) :
  forall (da f : bool) (w : world),
  exists f' w' evs,
    setup_ipaddrs o iface tokens da f w
      = (Ret (da || existsb (fun t => streq t "addrconf") tokens, f'), w') /\
    trace w' = trace w ++ evs /\
    errs evs = [] /\
    (f = true -> f' = true).
Proof. exact (setup_ipaddrs_cases o iface tokens). Qed.

(** ** Route installation *)

Lemma write_rtmsg_outcome (o : oracle) (m : rt_msg) (w : world) :
  exists rc w' evs,
    write_rtmsg o m w = (Ret rc, w') /\
    trace w' = trace w ++ evs /\
    errs evs = [] /\
    (rc = 0 \/ rc = -1) /\
    calls is_socket evs
      = [(C_socket_route, sys_ret o (clock w) C_socket_route)] /\
    List.length (calls is_close evs)
      = (if sys_ret o (clock w) C_socket_route <? 0 then 0%nat else 1%nat) /\
    (rc = 0 <->
     exists len, calls is_write_route evs = [(C_write_route m, len)] /\
                 0 <= len /\ rtm_msglen m <= len) /\
    (calls is_write_route evs = [] \/
     exists len, calls is_write_route evs = [(C_write_route m, len)]) /\
    (rc = -1 -> warnings evs <> []) /\
    calls is_nametoindex evs = [].
Proof.
  unfold write_rtmsg. run_step.
  split_ifs; cbn; cbn [clock] in *; bool_hyps;
    do 3 eexists; (split; [reflexivity|]); flatten_trace;
    (split; [reflexivity|]); (split; [reflexivity|]);
    (split; [first [now left | now right]|]);
    (split; [reflexivity|]); (split; [reflexivity|]).
  all: cbn.
  all: split;
    [split;
     [intro E; first [discriminate E | eexists; split; [reflexivity|lia]]
     |intros (len & E & L0 & L1);
      first [reflexivity | discriminate E | injection E as <-; lia]]|].
  all: split; [first [now left | right; eexists; reflexivity]|].
  all: split; [intro; discriminate|reflexivity].
Qed.

Lemma routes_written_calls (evs : list event) :
  routes_written evs
  = flat_map (fun cr => match fst cr with C_write_route m => [m] | _ => [] end)
             (calls is_write_route evs).
Proof.
  induction evs as [|e evs IH]; [reflexivity|].
  change (routes_written (e :: evs))
    with (route_written_of e ++ routes_written evs).
  change (calls is_write_route (e :: evs))
    with (call_of is_write_route e ++ calls is_write_route evs).
  rewrite flat_map_app, IH. f_equal.
  destruct e as [c r| |]; try reflexivity. destruct c; reflexivity.
Qed.

Lemma gateway_tail (o : oracle) (m : rt_msg) (w w0 : world)
    (pre : list event) :
  trace w0 = trace w ++ pre ->
  errs pre = [] -> warnings pre = [] ->
  calls is_socket pre = [] -> calls is_close pre = [] ->
  calls is_write_route pre = [] ->
  exists out w' evs,
    write_rtmsg o m w0 = (out, w') /\
    trace w' = trace w ++ evs /\
    errs evs = [] /\
    out <> Exit /\
    (out = Fault -> False) /\
    (forall rc, out = Ret rc ->
       (rc = 0 \/ rc = -1) /\
       (rc = -1 -> warnings evs <> []) /\
       (rc = 0 <->
        exists m' len, calls is_write_route evs = [(C_write_route m', len)] /\
                       0 <= len /\ rtm_msglen m' <= len)) /\
    (routes_written evs = [] \/ routes_written evs = [m]) /\
    List.length (calls is_close evs)
      = List.length (filter (fun cr => 0 <=? snd cr) (calls is_socket evs)) /\
    calls is_socket evs <> [].
Proof.
  intros T E W S C R.
  destruct (write_rtmsg_outcome o m w0)
    as (rc & w' & evs & Run & T' & E' & RC & S' & C' & Z' & R' & W' & _).
  exists (Ret rc), w', (pre ++ evs).
  split; [exact Run|].
  split; [rewrite T', T, app_assoc; reflexivity|].
  split; [rewrite errs_app, E, E'; reflexivity|].
  split; [discriminate|]. split; [discriminate|].
  split.
  { intros rc' Erc. injection Erc as <-.
    split; [exact RC|].
    split.
    - intros H1 H2. rewrite warnings_app, W in H2. exact (W' H1 H2).
    - rewrite calls_app, R. cbn [app]. rewrite Z'. split.
      + intros (len & H). exists m, len. exact H.
      + intros (m' & len & H & L0 & L1). exists len.
        destruct R' as [R'|(len' & R')]; rewrite R' in H;
          [discriminate H|].
        injection H as <- <-. repeat split; [exact R'|exact L0|exact L1]. }
  split.
  { rewrite routes_written_calls, calls_app, R. cbn [app].
    destruct R' as [R'|(len & R')]; rewrite R'; [now left|now right]. }
  split.
  { rewrite !calls_app, C, S, S'. cbn [app]. rewrite C'. cbn.
    destruct (Z.ltb_spec (sys_ret o (clock w0) C_socket_route) 0);
      destruct (Z.leb_spec 0 (sys_ret o (clock w0) C_socket_route));
      first [reflexivity | lia]. }
  rewrite calls_app, S, S'. discriminate.
Qed.

(** What a call of [lxi_iface_gateway] does, for the proofs about its
    callers. *)
Lemma lxi_iface_gateway_cases (o : oracle) (iface dst : option string)
    (dstpfx : Z) (gwaddr : option string) (w : world) :
  exists out w' evs,
    lxi_iface_gateway o iface dst dstpfx gwaddr w = (out, w') /\
    trace w' = trace w ++ evs /\
    errs evs = [] /\
    out <> Exit /\
    (out = Fault -> gwaddr = None /\ evs = []) /\
    (forall rc, out = Ret rc ->
       (rc = 0 \/ rc = -1) /\
       (rc = -1 -> warnings evs <> []) /\
       (rc = 0 <->
        exists m len, calls is_write_route evs = [(C_write_route m, len)] /\
                      0 <= len /\ rtm_msglen m <= len)) /\
    (List.length (routes_written evs) <= 1)%nat /\
    List.length (calls is_close evs)
      = List.length (filter (fun cr => 0 <=? snd cr) (calls is_socket evs)) /\
    (calls is_socket evs <> [] \/ out = Ret 0 ->
     route_request_valid o iface dst dstpfx gwaddr (clock w)).
Proof.
  assert (Warned : forall fmt pre w0,
    trace w0 = trace w ++ pre -> errs pre = [] ->
    calls is_write_route pre = [] -> calls is_close pre = [] ->
    calls is_socket pre = [] -> routes_written pre = [] ->
    exists out w' evs,
      (lxi_warn fmt ;; ret (-1)) w0 = (out, w') /\
      trace w' = trace w ++ evs /\
      errs evs = [] /\
      out <> Exit /\
      (out = Fault -> gwaddr = None /\ evs = []) /\
      (forall rc, out = Ret rc ->
         (rc = 0 \/ rc = -1) /\
         (rc = -1 -> warnings evs <> []) /\
         (rc = 0 <->
          exists m len, calls is_write_route evs = [(C_write_route m, len)] /\
                        0 <= len /\ rtm_msglen m <= len)) /\
      (List.length (routes_written evs) <= 1)%nat /\
      List.length (calls is_close evs)
        = List.length (filter (fun cr => 0 <=? snd cr) (calls is_socket evs)) /\
      (calls is_socket evs <> [] \/ out = Ret 0 ->
       route_request_valid o iface dst dstpfx gwaddr (clock w))).
  { intros fmt pre w0 T E R C S RW.
    exists (Ret (-1)), (log (EWarn fmt) w0), (pre ++ [EWarn fmt]).
    split; [reflexivity|].
    split; [cbn; rewrite T, <- app_assoc; reflexivity|].
    split; [rewrite errs_app, E; reflexivity|].
    split; [discriminate|]. split; [discriminate|].
    split.
    { intros rc Erc. injection Erc as <-. split; [now right|]. split.
      - intros _. rewrite warnings_app. intro H.
        apply app_eq_nil in H. destruct H as [_ H]. discriminate H.
      - rewrite calls_app, R. split; [discriminate|].
        intros (m & len & H & _). discriminate H. }
    split.
    { unfold routes_written in *. rewrite flat_map_app, RW. cbn. lia. }
    split; [rewrite !calls_app, C, S; reflexivity|].
    rewrite calls_app, S. intros [H|H]; [now contradiction H|discriminate H]. }
  assert (Written : forall m pre w0,
    trace w0 = trace w ++ pre -> errs pre = [] -> warnings pre = [] ->
    calls is_socket pre = [] -> calls is_close pre = [] ->
    calls is_write_route pre = [] ->
    route_request_valid o iface dst dstpfx gwaddr (clock w) ->
    exists out w' evs,
      write_rtmsg o m w0 = (out, w') /\
      trace w' = trace w ++ evs /\
      errs evs = [] /\
      out <> Exit /\
      (out = Fault -> gwaddr = None /\ evs = []) /\
      (forall rc, out = Ret rc ->
         (rc = 0 \/ rc = -1) /\
         (rc = -1 -> warnings evs <> []) /\
         (rc = 0 <->
          exists m len, calls is_write_route evs = [(C_write_route m, len)] /\
                        0 <= len /\ rtm_msglen m <= len)) /\
      (List.length (routes_written evs) <= 1)%nat /\
      List.length (calls is_close evs)
        = List.length (filter (fun cr => 0 <=? snd cr) (calls is_socket evs)) /\
      (calls is_socket evs <> [] \/ out = Ret 0 ->
       route_request_valid o iface dst dstpfx gwaddr (clock w))).
  { intros m pre w0 T E W S C R V.
    destruct (gateway_tail o m w w0 pre T E W S C R)
      as (out & w' & evs & Run & T' & E' & NE & NF & RC & RW & CL & _).
    exists out, w', evs.
    split; [exact Run|]. split; [exact T'|]. split; [exact E'|].
    split; [exact NE|].
    split; [intro F; destruct (NF F)|].
    split; [exact RC|].
    split; [destruct RW as [RW|RW]; rewrite RW; cbn; lia|].
    split; [exact CL|]. intros _. exact V. }
  unfold lxi_iface_gateway.
  destruct dst as [d|].
  - destruct (inet_pton d) as [a|] eqn:Ea;
      [|apply (Warned _ [] w); first [reflexivity | symmetry; apply app_nil_r]].
    destruct (plen2mask dstpfx) as [mask|] eqn:Em;
      [|apply (Warned _ [] w); first [reflexivity | symmetry; apply app_nil_r]].
    destruct gwaddr as [g|].
    2:{ exists Fault, w, []. split; [reflexivity|].
        split; [symmetry; apply app_nil_r|]. split; [reflexivity|].
        split; [discriminate|]. split; [now split|].
        split; [discriminate|]. split; [cbn; lia|]. split; [reflexivity|].
        intros [H|H]; [now contradiction H|discriminate H]. }
    destruct (inet_pton g) as [ga|] eqn:Eg;
      [|apply (Warned _ [] w); first [reflexivity | symmetry; apply app_nil_r]].
    destruct iface as [i|].
    + unfold bind at 1, sys at 1. cbv beta iota zeta.
      destruct (Z.eqb_spec (sys_ret o (clock w) (C_if_nametoindex i)) 0)
        as [E0|E0].
      * apply (Warned _ [ECall (C_if_nametoindex i)
                           (sys_ret o (clock w) (C_if_nametoindex i))]);
          reflexivity.
      * apply (Written _ [ECall (C_if_nametoindex i)
                            (sys_ret o (clock w) (C_if_nametoindex i))]);
          try reflexivity.
        split; [exists g, ga; now split|].
        split; [intros d' Ed; injection Ed as <-; exists a, mask; now split|].
        intros i' Ei. injection Ei as <-. exact E0.
    + apply (Written _ [] w);
        try first [reflexivity | symmetry; apply app_nil_r].
      split; [exists g, ga; now split|].
      split; [intros d' Ed; injection Ed as <-; exists a, mask; now split|].
      discriminate.
  - destruct gwaddr as [g|].
    2:{ exists Fault, w, []. split; [reflexivity|].
        split; [symmetry; apply app_nil_r|]. split; [reflexivity|].
        split; [discriminate|]. split; [now split|].
        split; [discriminate|]. split; [cbn; lia|]. split; [reflexivity|].
        intros [H|H]; [now contradiction H|discriminate H]. }
    destruct (inet_pton g) as [ga|] eqn:Eg;
      [|apply (Warned _ [] w); first [reflexivity | symmetry; apply app_nil_r]].
    destruct iface as [i|].
    + unfold bind at 1, sys at 1. cbv beta iota zeta.
      destruct (Z.eqb_spec (sys_ret o (clock w) (C_if_nametoindex i)) 0)
        as [E0|E0].
      * apply (Warned _ [ECall (C_if_nametoindex i)
                           (sys_ret o (clock w) (C_if_nametoindex i))]);
          reflexivity.
      * apply (Written _ [ECall (C_if_nametoindex i)
                            (sys_ret o (clock w) (C_if_nametoindex i))]);
          try reflexivity.
        split; [exists g, ga; now split|].
        split; [discriminate|].
        intros i' Ei. injection Ei as <-. exact E0.
    + apply (Written _ [] w);
        try first [reflexivity | symmetry; apply app_nil_r].
      split; [exists g, ga; now split|].
      split; discriminate.
Qed.

(** X9. [lxi_iface_gateway] never ends the process and reports no fatal
    error; with a gateway it returns 0 or -1, -1 with a warning, and 0
    exactly when one routing message was written and [write] took all of
    it.  Every routing socket that was opened is closed, and one is
    opened only after the gateway, the destination and the interface
    have all been checked. *)
Theorem lxi_iface_gateway_outcome (o : oracle) (iface dst : option string)
    (dstpfx : Z) (gwaddr : option string) (w : world) :
  exists out w' evs,
    lxi_iface_gateway o iface dst dstpfx gwaddr w = (out, w') /\
    trace w' = trace w ++ evs /\
    errs evs = [] /\
    out <> Exit /\
    (out = Fault -> gwaddr = None /\ evs = []) /\
    (forall rc, out = Ret rc ->
       (rc = 0 \/ rc = -1) /\
       (rc = -1 -> warnings evs <> []) /\
       (rc = 0 <->
        exists m len, calls is_write_route evs = [(C_write_route m, len)] /\
                      0 <= len /\ rtm_msglen m <= len)) /\
    (List.length (routes_written evs) <= 1)%nat /\
    List.length (calls is_close evs)
      = List.length (filter (fun cr => 0 <=? snd cr) (calls is_socket evs)) /\
    (calls is_socket evs <> [] ->
     route_request_valid o iface dst dstpfx gwaddr (clock w)).
Proof.
  destruct (lxi_iface_gateway_cases o iface dst dstpfx gwaddr w)
    as (out & w' & evs & R & T & E & NE & F & RC & L & C & V).
  exists out, w', evs.
  split; [exact R|]. split; [exact T|]. split; [exact E|].
  split; [exact NE|]. split; [exact F|]. split; [exact RC|].
  split; [exact L|]. split; [exact C|].
  intro H. apply V. now left.
Qed.

(** ** Static routes *)

Lemma scan_route_gw (g rest acc : string) (d0 : option string) (p0 : Z) :
  occurs "|" g = false ->
  scan_route (g ++ String "|" rest)%string
             {| cu := acc; gw := None; dst := d0; pfx := p0 |}
  = scan_route rest {| cu := ""; gw := Some (acc ++ g)%string; dst := d0;
                       pfx := p0 |}.
Proof.
  revert acc. induction g as [|c g IH]; intros acc H.
  - cbn. now rewrite append_empty_r.
  - cbn in H. apply orb_false_elim in H. destruct H as (Hc & Hg).
    cbn [append scan_route gw]. rewrite Hc. cbn [cu dst pfx].
    rewrite (IH _ Hg). now rewrite append_snoc.
Qed.

Lemma scan_route_dst (d rest acc g : string) (p0 : Z) :
  occurs "/" d = false ->
  scan_route (d ++ String "/" rest)%string
             {| cu := acc; gw := Some g; dst := None; pfx := p0 |}
  = scan_route rest {| cu := ""; gw := Some g; dst := Some (acc ++ d)%string;
                       pfx := p0 |}.
Proof.
  revert acc. induction d as [|c d IH]; intros acc H.
  - cbn. now rewrite append_empty_r.
  - cbn in H. apply orb_false_elim in H. destruct H as (Hc & Hd).
    cbn [append scan_route gw dst]. rewrite Hc. cbn [cu gw dst pfx].
    rewrite (IH _ Hd). now rewrite append_snoc.
Qed.

Lemma scan_route_pfx (p rest acc g d : string) :
  occurs "|" p = false ->
  scan_route (p ++ String "|" rest)%string
             {| cu := acc; gw := Some g; dst := Some d; pfx := -1 |}
  = scan_route rest {| cu := ""; gw := Some g; dst := Some d;
                       pfx := atoi (acc ++ p) |}.
Proof.
  revert acc. induction p as [|c p IH]; intros acc H.
  - cbn. now rewrite append_empty_r.
  - cbn in H. apply orb_false_elim in H. destruct H as (Hc & Hp).
    cbn [append scan_route gw dst pfx Z.eqb Pos.eqb]. rewrite Hc.
    cbn [cu gw dst pfx].
    rewrite (IH _ Hp). now rewrite append_snoc.
Qed.

Lemma scan_route_flag (f acc g d : string) (p0 : Z) :
  p0 <> -1 \/ occurs "|" f = false ->
  scan_route f {| cu := acc; gw := Some g; dst := Some d; pfx := p0 |}
  = {| cu := (acc ++ f)%string; gw := Some g; dst := Some d; pfx := p0 |}.
Proof.
  revert acc. induction f as [|c f IH]; intros acc H.
  - cbn. now rewrite append_empty_r.
  - cbn [scan_route gw dst pfx cu].
    destruct (Z.eqb_spec p0 (-1)) as [E|E].
    + destruct H as [H|H]; [contradiction|].
      cbn in H. apply orb_false_elim in H. destruct H as (Hc & Hf).
      rewrite Hc. rewrite IH by (now right). now rewrite append_snoc.
    + rewrite IH by (now left). now rewrite append_snoc.
Qed.

(** X10. The scan of a well-formed line: when the gateway text has no
    '|', the destination text no '/', and the prefix text no '|', the
    loop of [lxi_net_static_route] splits
    gateway|destination/prefix|flag into exactly these fields, the
    prefix length read by [atoi]; the flag may even hold a '|' unless
    [atoi] gave -1, the value that marks the prefix as not yet read. *)
Theorem scan_route_fields (g d p f : string) :
  occurs "|" g = false ->
  occurs "/" d = false ->
  occurs "|" p = false ->
  digit_runs_le 9 p 0 = true ->
  atoi p <> -1 \/ occurs "|" f = false ->
  scan_route (g ++ "|" ++ d ++ "/" ++ p ++ "|" ++ f)%string route_scan_init
  = {| cu := f; gw := Some g; dst := Some d; pfx := atoi p |}.
Proof.
  intros Hg Hd Hp _ Hf. unfold route_scan_init.
  change ("|" ++ d ++ "/" ++ p ++ "|" ++ f)%string
    with (String "|" (d ++ String "/" (p ++ String "|" f)))%string.
  rewrite (scan_route_gw _ _ _ _ _ Hg).
  rewrite (scan_route_dst _ _ _ _ _ Hd).
  rewrite (scan_route_pfx _ _ _ _ _ Hp).
  rewrite (scan_route_flag _ _ _ _ _ Hf). reflexivity.
Qed.

Lemma scan_route_fields_witness :
  (occurs "|" "192.168.1.1" = false /\
   occurs "/" "10.0.0.0" = false /\
   occurs "|" "8" = false /\
   digit_runs_le 9 "8" 0 = true /\
   (atoi "8" <> -1 \/ occurs "|" "true" = false)) /\
  scan_route ("192.168.1.1" ++ "|" ++ "10.0.0.0" ++ "/" ++ "8" ++ "|" ++ "true")
             route_scan_init
  = {| cu := "true"; gw := Some "192.168.1.1"; dst := Some "10.0.0.0";
       pfx := atoi "8" |}.
Proof.
  split.
  - repeat split; try reflexivity. right; reflexivity.
  - apply (scan_route_fields "192.168.1.1" "10.0.0.0" "8" "true");
      try reflexivity. right; reflexivity.
Defined.

(** What one call of [lxi_net_static_route] does, for the proofs
    about the loop over the lines. *)
Lemma lxi_net_static_route_cases (o : oracle) (line : string)
    (w : world) :
  exists out w' evs,
    lxi_net_static_route o line w = (out, w') /\
    trace w' = trace w ++ evs /\
    (out = Ret tt ->
     errs evs = [] /\
     exists m len,
       routes_written evs = [m] /\
       calls is_write_route evs = [(C_write_route m, len)] /\
       0 <= len /\ rtm_msglen m <= len) /\
    (out = Exit ->
     errs evs = ["failed to add route: %s/%d -> %s"] /\ warnings evs <> [] /\
     (List.length (routes_written evs) <= 1)%nat) /\
    (out = Fault ->
     gw (scan_route line route_scan_init) = None /\ errs evs = [] /\
     routes_written evs = []) /\
    (streq (cu (scan_route line route_scan_init)) "false" = false ->
     In "invalid static route: %s" (warnings evs)).
Proof.
  rewrite lxi_net_static_route_unfold. cbv zeta.
  set (st := scan_route line route_scan_init).
  set (w0 := if streq (cu st) "false" then w
             else log (EWarn "invalid static route: %s") w).
  assert (P : exists pre, trace w0 = trace w ++ pre /\ errs pre = [] /\
                routes_written pre = [] /\ calls is_write_route pre = [] /\
                (streq (cu st) "false" = false ->
                 In "invalid static route: %s" (warnings pre))).
  { subst w0. destruct (streq (cu st) "false").
    - exists []. split; [symmetry; apply app_nil_r|].
      repeat split; discriminate.
    - exists [EWarn "invalid static route: %s"].
      repeat split. intros _. now left. }
  destruct P as (pre & T0 & E0 & R0 & C0 & W0).
  unfold install_static_route.
  destruct (lxi_iface_gateway_cases o None (dst st) (pfx st) (gw st) w0)
    as (out & w1 & evs & Run & T1 & E1 & NE & F1 & RC & L1 & _).
  unfold bind at 1. rewrite Run.
  destruct out as [rc| |]; [|now contradiction NE|].
  - destruct (RC rc eq_refl) as (RC01 & RCw & RC0).
    destruct (Z.eqb_spec rc 0) as [Erc|Erc]; cbn [negb].
    + exists (Ret tt), w1, (pre ++ evs).
      split; [reflexivity|].
      split; [rewrite T1, T0, app_assoc; reflexivity|].
      split.
      { intros _. split; [rewrite errs_app, E0, E1; reflexivity|].
        destruct (proj1 RC0 Erc) as (m & len & Cw & Lz & Lm).
        exists m, len.
        split; [rewrite routes_written_calls, calls_app, C0, Cw; reflexivity|].
        split; [rewrite calls_app, C0, Cw; reflexivity|].
        split; assumption. }
      split; [discriminate|]. split; [discriminate|].
      intro H. rewrite warnings_app. apply in_or_app. left. exact (W0 H).
    + exists Exit, (log (EErr "failed to add route: %s/%d -> %s") w1),
        (pre ++ evs ++ [EErr "failed to add route: %s/%d -> %s"]).
      split; [reflexivity|].
      split; [cbn; rewrite T1, T0, <- !app_assoc; reflexivity|].
      split; [discriminate|].
      split.
      { intros _. split; [rewrite !errs_app, E0, E1; reflexivity|].
        split.
        - rewrite !warnings_app. intro H.
          apply app_eq_nil in H. destruct H as (_ & H).
          apply app_eq_nil in H. destruct H as (H & _).
          destruct RC01 as [Z0|Z1]; [contradiction|]. exact (RCw Z1 H).
        - unfold routes_written in *. rewrite !flat_map_app, R0.
          cbn. rewrite app_nil_r. exact L1. }
      split; [discriminate|].
      intro H. rewrite warnings_app. apply in_or_app. left. exact (W0 H).
  - destruct (F1 eq_refl) as (G & Ev). subst evs.
    exists Fault, w1, pre.
    split; [reflexivity|].
    split; [rewrite T1, T0, app_nil_r; reflexivity|].
    split; [discriminate|]. split; [discriminate|].
    split; [intros _; repeat split; assumption|]. exact W0.
Qed.

(** *** The allocations *)

Lemma scan_route_mem_cases (nomem : alloc_site -> bool) (line : string) :
  forall (i : nat) (st : route_scan),
    (exists fmt,
       scan_route_mem nomem line i st = inl fmt /\
       (fmt = "custr_appendc failure"%string \/ fmt = "strdup failure"%string))
    \/ scan_route_mem nomem line i st = inr (scan_route line st).
Proof.
  induction line as [|c rest IH]; intros i st; [now right|].
  cbn [scan_route_mem scan_route].
  destruct (gw st); [destruct (dst st); [destruct (pfx st =? -1)|]|];
    repeat match goal with
           | |- context [Ascii.eqb c ?x] => destruct (Ascii.eqb c x)
           end;
    try destruct (nomem (at_strdup i));
    try destruct (nomem (at_custr_appendc i));
    try apply IH; left; eexists; split; try reflexivity; auto.
Qed.

Lemma scan_route_mem_ok (nomem : alloc_site -> bool) (line : string) :
  (forall a, nomem a = false) ->
  forall (i : nat) (st : route_scan),
    scan_route_mem nomem line i st = inr (scan_route line st).
Proof.
  intro H. induction line as [|c rest IH]; intros i st; [reflexivity|].
  cbn [scan_route_mem scan_route]. rewrite !H.
  destruct (gw st); [destruct (dst st); [destruct (pfx st =? -1)|]|];
    repeat match goal with
           | |- context [Ascii.eqb c ?x] => destruct (Ascii.eqb c x)
           end; apply IH.
Qed.

(** A call of [lxi_net_static_route] stops at a failed allocation with
    its error and nothing else, or goes as the call in which every
    allocation succeeds. *)
Lemma lxi_net_static_route_mem_run (nomem : alloc_site -> bool) (o : oracle)
    (line : string) (w : world) :
  (exists fmt,
     In fmt alloc_errors /\
     lxi_net_static_route_mem nomem o line w = (Exit, log (EErr fmt) w)) \/
  lxi_net_static_route_mem nomem o line w = lxi_net_static_route o line w.
Proof.
  unfold lxi_net_static_route_mem, alloc_errors.
  destruct (nomem at_custr_alloc).
  - left. eexists. split; [|reflexivity]. now left.
  - destruct (scan_route_mem_cases nomem line 0 route_scan_init)
      as [(fmt & -> & [-> | ->]) | ->].
    + left. eexists. split; [|reflexivity]. right; now left.
    + left. eexists. split; [|reflexivity]. right; right; now left.
    + right. reflexivity.
Qed.

Lemma lxi_net_static_route_mem_ok (nomem : alloc_site -> bool) (o : oracle)
    (line : string) (w : world) :
  (forall a, nomem a = false) ->
  lxi_net_static_route_mem nomem o line w = lxi_net_static_route o line w.
Proof.
  intro H. unfold lxi_net_static_route_mem.
  rewrite H, (scan_route_mem_ok nomem line H). reflexivity.
Qed.

(** What one call of [lxi_net_static_route] with its allocations does,
    for the proofs about the loop over the lines. *)
Lemma lxi_net_static_route_mem_cases (nomem : alloc_site -> bool)
    (o : oracle) (line : string) (w : world) :
  exists out w' evs,
    lxi_net_static_route_mem nomem o line w = (out, w') /\
    trace w' = trace w ++ evs /\
    (out = Ret tt ->
     errs evs = [] /\
     exists m len,
       routes_written evs = [m] /\
       calls is_write_route evs = [(C_write_route m, len)] /\
       0 <= len /\ rtm_msglen m <= len) /\
    (out = Exit ->
     (exists fmt, In fmt alloc_errors /\ evs = [EErr fmt]) \/
     (errs evs = ["failed to add route: %s/%d -> %s"] /\
      warnings evs <> [] /\
      (List.length (routes_written evs) <= 1)%nat)) /\
    (out = Fault ->
     gw (scan_route line route_scan_init) = None /\ errs evs = [] /\
     routes_written evs = []) /\
    ((forall a, nomem a = false) ->
     streq (cu (scan_route line route_scan_init)) "false" = false ->
     In "invalid static route: %s" (warnings evs)).
Proof.
  destruct (lxi_net_static_route_mem_run nomem o line w)
    as [(fmt & Hin & R) | R].
  - exists Exit, (log (EErr fmt) w), [EErr fmt].
    split; [exact R|]. split; [reflexivity|].
    split; [discriminate|].
    split; [intros _; left; exists fmt; now split|].
    split; [discriminate|].
    intros H. exfalso. unfold lxi_net_static_route_mem in R.
    rewrite H, (scan_route_mem_ok nomem line H) in R.
    fold (lxi_net_static_route o line) in R.
    destruct (lxi_net_static_route_cases o line w)
      as (out & w' & evs & R' & T' & _ & EX & _).
    change (lxi_net_static_route o line w = (Exit, log (EErr fmt) w)) in R.
    rewrite R in R'. injection R' as <- <-.
    cbn [trace log] in T'. apply app_inv_head in T'. subst evs.
    destruct (EX eq_refl) as (_ & W & _). now apply W.
  - destruct (lxi_net_static_route_cases o line w)
      as (out & w' & evs & R' & T' & OK & EX & FA & FL).
    exists out, w', evs. split; [now rewrite R|]. split; [exact T'|].
    split; [exact OK|]. split; [intro H; right; exact (EX H)|].
    split; [exact FA|]. intros _. exact FL.
Qed.

(** X11. One line of route information either installs its route or
    ends the process: [lxi_net_static_route] returns only after exactly
    one routing message was written and [write] took all of it, with no
    fatal error reported.  It ends the process either at a failed
    allocation ([custr_alloc], [custr_appendc], [strdup]), with that
    error and nothing else done, or with the fatal error "failed to
    add route", after a warning; and it runs into the NULL gateway of a
    line that has no '|'.  When the allocations succeed, a flag other
    than "false" adds a warning. *)
Theorem static_route_installs_or_dies (nomem : alloc_site -> bool)
    (o : oracle) (line : string) (w : world) :
  exists out w' evs,
    lxi_net_static_route_mem nomem o line w = (out, w') /\
    trace w' = trace w ++ evs /\
    (out = Ret tt ->
     errs evs = [] /\
     exists m len,
       routes_written evs = [m] /\
       calls is_write_route evs = [(C_write_route m, len)] /\
       0 <= len /\ rtm_msglen m <= len) /\
    (out = Exit ->
     (exists fmt, In fmt alloc_errors /\ evs = [EErr fmt]) \/
     (errs evs = ["failed to add route: %s/%d -> %s"] /\
      warnings evs <> [] /\
      (List.length (routes_written evs) <= 1)%nat)) /\
    (out = Fault ->
     gw (scan_route line route_scan_init) = None /\ errs evs = [] /\
     routes_written evs = []) /\
    ((forall a, nomem a = false) ->
     streq (cu (scan_route line route_scan_init)) "false" = false ->
     In "invalid static route: %s" (warnings evs)).
Proof. exact (lxi_net_static_route_mem_cases nomem o line w). Qed.

Lemma static_route_lines_cases (nomem : nat -> alloc_site -> bool)
    (o : oracle) (lines : list string) :
  forall (k : nat) (w : world),
  exists out w' evs,
    static_route_lines nomem o k lines w = (out, w') /\
    trace w' = trace w ++ evs /\
    (out = Ret tt ->
     errs evs = [] /\
     List.length (routes_written evs) = List.length lines) /\
    (out = Exit ->
     (exists fmt,
        errs evs = [fmt] /\
        In fmt ("failed to add route: %s/%d -> %s"%string :: alloc_errors)) /\
     (List.length (routes_written evs) <= List.length lines)%nat) /\
    (out = Fault ->
     errs evs = [] /\
     (List.length (routes_written evs) < List.length lines)%nat).
Proof.
  induction lines as [|line rest IH]; intros k w.
  - exists (Ret tt), w, []. split; [reflexivity|].
    split; [symmetry; apply app_nil_r|].
    split; [now split|]. split; discriminate.
  - cbn [static_route_lines]. unfold bind at 1.
    destruct (lxi_net_static_route_mem_cases (nomem k) o line w)
      as (out1 & w1 & evs1 & R1 & T1 & OK1 & EX1 & FA1 & _).
    rewrite R1. destruct out1 as [[]| |].
    + destruct (OK1 eq_refl) as (E1 & m & len & RW1 & _).
      destruct (IH (S k) w1) as (out & w' & evs & R & T & OK & EX & FA).
      exists out, w', (evs1 ++ evs). split; [exact R|].
      split; [rewrite T, T1, app_assoc; reflexivity|].
      rewrite errs_app, routes_written_app, length_app, E1, RW1.
      cbn [app List.length].
      split; [intro H; destruct (OK H) as (-> & ->); now split|].
      split; [intro H; destruct (EX H) as (F & L); split; [exact F|lia]|].
      intro H; destruct (FA H) as (-> & L); split; [reflexivity|lia].
    + exists Exit, w1, evs1. split; [reflexivity|]. split; [exact T1|].
      split; [discriminate|]. split; [|discriminate]. intros _.
      destruct (EX1 eq_refl) as [(fmt & Hin & ->) | (E1 & _ & L1)].
      * split; [exists fmt; split; [reflexivity|now right]|].
        cbn. lia.
      * split; [eexists; split; [exact E1|now left]|].
        cbn [List.length]. lia.
    + destruct (FA1 eq_refl) as (_ & E1 & RW1).
      exists Fault, w1, evs1. split; [reflexivity|]. split; [exact T1|].
      split; [discriminate|]. split; [discriminate|].
      intros _. split; [exact E1|]. rewrite RW1. cbn [List.length]. lia.
Qed.

Lemma static_route_lines_ok (nomem : nat -> alloc_site -> bool) (o : oracle)
    (lines : list string) :
  (forall k a, nomem k a = false) ->
  forall (k : nat) (w : world),
    static_route_lines nomem o k lines w
    = for_each (lxi_net_static_route o) lines w.
Proof.
  intro H. induction lines as [|line rest IH]; intros k w; [reflexivity|].
  cbn [static_route_lines for_each]. unfold bind.
  rewrite (lxi_net_static_route_mem_ok (nomem k) o line w (H k)).
  destruct (lxi_net_static_route o line w) as [[[]| |] w1];
    [apply IH|reflexivity|reflexivity].
Qed.

(** X12. Without a routeinfo command [lxi_net_static_routes] does
    nothing.  With one it returns only after writing one routing message
    for every line of the output and without a fatal error.  The exit
    status of the command is looked at after the lines, so that the
    fatal error "failed to run" comes with a route written for every
    line; any other fatal error is the one of the line that failed: a
    failed allocation or "failed to add route".  When no allocation
    fails, the function is [lxi_net_static_routes] of the network
    part. *)
Theorem static_routes_outcome (nomem : nat -> alloc_site -> bool)
    (o : oracle) (lines : list string) (w : world) :
  lxi_net_static_routes_mem nomem o None w = (Ret tt, w) /\
  (exists out w' evs,
    lxi_net_static_routes_mem nomem o (Some lines) w = (out, w') /\
    trace w' = trace w ++ evs /\
    (out = Ret tt ->
     errs evs = [] /\
     List.length (routes_written evs) = List.length lines) /\
    (out = Exit ->
     ((exists fmt,
         errs evs = [fmt] /\
         In fmt ("failed to add route: %s/%d -> %s"%string :: alloc_errors)) /\
      (List.length (routes_written evs) <= List.length lines)%nat) \/
     (errs evs = [failed_to_run] /\
      List.length (routes_written evs) = List.length lines)) /\
    (out = Fault ->
     errs evs = [] /\
     (List.length (routes_written evs) < List.length lines)%nat)) /\
  ((forall k a, nomem k a = false) ->
   lxi_net_static_routes_mem nomem o (Some lines) w
   = lxi_net_static_routes o (Some lines) w).
Proof.
  split; [reflexivity|]. split.
  - cbn [lxi_net_static_routes_mem]. unfold bind at 1.
    destruct (static_route_lines_cases nomem o lines 0%nat w)
      as (out1 & w1 & evs1 & R1 & T1 & OK1 & EX1 & FA1).
    rewrite R1. destruct out1 as [[]| |].
    + destruct (OK1 eq_refl) as (E1 & L1). run_step.
      match goal with
      | |- context [if negb (?r =? 0) then _ else _] =>
          destruct (Z.eqb_spec r 0) as [Er|Er]; cbn [negb]
      end.
      * do 3 eexists. split; [reflexivity|]. cbn [trace]. rewrite T1.
        rewrite <- app_assoc. split; [reflexivity|].
        rewrite errs_app, routes_written_app, length_app, E1, L1. cbn.
        split; [intros _; split; [reflexivity|lia]|].
        split; discriminate.
      * do 3 eexists. split; [reflexivity|]. cbn [trace]. rewrite T1.
        rewrite <- !app_assoc. split; [reflexivity|].
        rewrite errs_app, routes_written_app, length_app, E1, L1. cbn.
        split; [discriminate|].
        split; [intros _; right; split; [reflexivity|lia]|].
        discriminate.
    + destruct (EX1 eq_refl) as (E1 & L1).
      exists Exit, w1, evs1. split; [reflexivity|]. split; [exact T1|].
      split; [discriminate|]. split; [intros _; left; now split|].
      discriminate.
    + destruct (FA1 eq_refl) as (E1 & L1).
      exists Fault, w1, evs1. split; [reflexivity|]. split; [exact T1|].
      split; [discriminate|]. split; [discriminate|]. intros _. now split.
  - intro H. cbn [lxi_net_static_routes_mem lxi_net_static_routes].
    unfold bind at 1 3. now rewrite (static_route_lines_ok nomem o lines H).
Qed.

(** ** A line without its later delimiters *)





(** ** Which addresses reach [ipadm_set_addr] *)

Lemma set_addrs_app (a b : list event) :
  set_addrs (a ++ b) = set_addrs a ++ set_addrs b.
Proof. unfold set_addrs. apply flat_map_app. Qed.

Ltac ltb_cases :=
  repeat match goal with
         | |- context [?a <? ?b] => destruct (Z.ltb_spec a b); try lia
         | |- context [?a =? ?b] => destruct (Z.eqb_spec a b); try lia
         end.

Lemma lxi_getif_applies (o : oracle) (af : sa_family) (iface : string)
    (len : nat) (f : bool) (w : world) :
  exists rc iface' w' evs,
    lxi_getif o af iface len f w = (Ret (rc, iface'), w') /\
    trace w' = trace w ++ evs /\
    map fst (calls is_socket evs) = [C_socket af] /\
    set_addrs evs = [] /\
    (rc = 0 \/ rc = -1) /\
    (rc = 0 -> existsb blocks_set_addr evs = false) /\
    (rc = -1 -> existsb blocks_set_addr evs = true).
Proof.
  unfold lxi_getif, sys_lifaddif. run_step.
  split_ifs; cbn; cbn [clock] in *; bool_hyps;
    do 4 eexists; (split; [reflexivity|]); flatten_trace;
    (split; [reflexivity|]); (split; [reflexivity|]);
    (split; [reflexivity|]);
    (split; [first [now left | now right]|]);
    (split; intro E; try discriminate E; cbn; ltb_cases; reflexivity).
Qed.

Lemma apply_addrobj_applies (o : oracle) (name addr : string)
    (af : sa_family) (f : bool) (w : world) :
  exists rc f' w' evs,
    apply_addrobj o name addr af f w = (Ret (rc, f'), w') /\
    trace w' = trace w ++ evs /\
    calls is_socket evs = [] /\
    addrobjs evs = [name] /\
    (set_addrs evs = [] \/ set_addrs evs = [(name, addr)]) /\
    (existsb blocks_set_addr evs = false -> set_addrs evs = [(name, addr)]).
Proof.
  unfold apply_addrobj. run_step. unfold IPADM_SUCCESS.
  split_ifs; cbn; cbn [clock] in *; bool_hyps;
    do 4 eexists; (split; [reflexivity|]); flatten_trace;
    (split; [reflexivity|]); (split; [reflexivity|]);
    (split; [reflexivity|]);
    (split; [first [now left | now right]|]);
    cbn; ltb_cases; first [reflexivity | discriminate].
Qed.

(** One call of [lxi_iface_ip]: it opens its socket for the family of
    the address, and the address is what it hands to [ipadm_set_addr],
    for the address object that it created, unless the socket, the
    logical interface or the address object is refused. *)
Lemma lxi_iface_ip_applies (o : oracle) (base addr : string) (f : bool)
    (w : world) :
  exists rc f' w' evs,
    lxi_iface_ip o base addr f w = (Ret (rc, f'), w') /\
    trace w' = trace w ++ evs /\
    map fst (calls is_socket evs) = [C_socket (family_of addr)] /\
    (set_addrs evs = [] \/
     exists name, set_addrs evs = [(name, addr)] /\ addrobjs evs = [name]) /\
    (existsb blocks_set_addr evs = false ->
     exists name, set_addrs evs = [(name, addr)]).
Proof.
  rewrite lxi_iface_ip_unfold. cbv zeta. fold (family_of addr).
  destruct (lxi_getif_applies o (family_of addr) (strncpy base LIFNAMSIZ)
              LIFNAMSIZ f w)
    as (rc0 & iface' & w1 & evs1 & R1 & T1 & S1 & A1 & Hrc & B0 & B1).
  destruct (lxi_getif_run o (family_of addr) (strncpy base LIFNAMSIZ)
              LIFNAMSIZ f w)
    as (rc0' & i' & w1' & evs1' & R1' & T1' & _ & O1 & _).
  rewrite R1 in R1'. injection R1' as <- <- <-.
  rewrite T1 in T1'. apply app_inv_head in T1'. subst evs1'.
  unfold bind at 1. rewrite R1. cbn [fst snd].
  destruct Hrc as [-> | ->].
  - change (negb (0 =? 0)) with false. cbv iota.
    unfold bind at 1, next_addrnum.
    match goal with
    | |- context [apply_addrobj o ?n addr ?af f ?w0] =>
        destruct (apply_addrobj_applies o n addr af f w0)
          as (rc & f' & w' & evs2 & R2 & T2 & S2 & O2 & A2 & B2);
        set (name := n) in *
    end.
    rewrite R2. cbn [trace] in T2.
    exists rc, f', w', (evs1 ++ evs2).
    split; [reflexivity|]. split; [now rewrite T2, T1, app_assoc|].
    rewrite calls_app, map_app, S1, S2, set_addrs_app, A1, addrobjs_app, O1,
      O2, existsb_app, (B0 eq_refl). cbn [app map orb].
    split; [reflexivity|].
    split; [destruct A2 as [A2|A2]; [now left|right; exists name; now split]|].
    intro B. exists name. now apply B2.
  - change (negb (-1 =? 0)) with true. cbv iota. run_step.
    exists (-1), f,
      (log (EWarn "failed to create new logical interface on %s: %s") w1),
      (evs1 ++ [EWarn "failed to create new logical interface on %s: %s"]).
    split; [reflexivity|].
    split; [cbn; now rewrite T1, <- app_assoc|].
    rewrite calls_app, map_app, S1, set_addrs_app, A1, existsb_app,
      (B1 eq_refl).
    split; [reflexivity|]. split; [now left|]. intro B. discriminate B.
Qed.

(** The pass over the address tokens calls [lxi_iface_ip] once for
    every token that is an address, in their order: one socket is opened
    per such token, for its family, and the texts handed to
    [ipadm_set_addr] are these tokens, unless a socket, a logical
    interface or an address object is refused. *)
Lemma setup_ipaddrs_applies (o : oracle) (iface : string)
    (tokens : list string) :
  forall (da f : bool) (w : world),
  exists out w' evs,
    setup_ipaddrs o iface tokens da f w = (out, w') /\
    trace w' = trace w ++ evs /\
    map fst (calls is_socket evs)
      = map (fun t => C_socket (family_of t)) (literal_tokens tokens) /\
    (existsb blocks_set_addr evs = false ->
     map snd (set_addrs evs) = literal_tokens tokens).
Proof.
  induction tokens as [|t rest IH]; intros da f w;
    cbn [setup_ipaddrs literal_tokens filter].
  - exists (Ret (da, f)), w, []. rewrite app_nil_r. now repeat split.
  - fold (literal_tokens rest).
    destruct (streq t "addrconf") eqn:Ea; cbn [negb andb]; [apply IH|].
    destruct (streq t "dhcp") eqn:Ed; cbn [negb]; [apply IH|].
    destruct (lxi_iface_ip_applies o iface t f w)
      as (rc & f1 & w1 & evs1 & R1 & T1 & S1 & _ & B1).
    unfold bind at 1. rewrite R1. cbv beta iota.
    set (w2 := snd (when (rc <? 0)
                      (lxi_warn
                         "Unable to add new IP address (%s) to interface %s")
                      w1)).
    assert (W : exists e2,
               when (rc <? 0)
                 (lxi_warn
                    "Unable to add new IP address (%s) to interface %s") w1
               = (Ret tt, w2) /\ trace w2 = trace w1 ++ e2 /\
               calls is_socket e2 = [] /\ set_addrs e2 = [] /\
               existsb blocks_set_addr e2 = false).
    { unfold w2. destruct (rc <? 0); cbn.
      - eexists. split; [reflexivity|]. now repeat split.
      - exists []. rewrite app_nil_r. now repeat split. }
    destruct W as (e2 & R2 & T2 & S2 & A2 & B2).
    unfold bind at 1. rewrite R2.
    destruct (IH da f1 w2) as (out & w' & evs & R & T & S & B).
    exists out, w', (evs1 ++ e2 ++ evs). split; [exact R|].
    split; [now rewrite T, T2, T1, !app_assoc|].
    rewrite !calls_app, !map_app, S1, S2, S, !set_addrs_app, A2, !existsb_app,
      B2. cbn [app map orb].
    split; [reflexivity|].
    intro H. apply orb_false_elim in H. destruct H as (H1 & H3).
    destruct (B1 H1) as (name & ->). cbn [map snd app]. f_equal.
    now apply B.
Qed.
(** ** Plumbing, the loopback interface and the default route *)

Lemma status_ok (r : Z) :
  negb (r =? 0) && negb (r =? 10) = false -> r = 0 \/ r = 10.
Proof.
  destruct (Z.eqb_spec r 0), (Z.eqb_spec r 10); cbn; intro;
    first [now left | now right | discriminate].
Qed.

Lemma status_bad (r : Z) :
  negb (r =? 0) && negb (r =? 10) = true -> r <> 0 /\ r <> 10.
Proof.
  destruct (Z.eqb_spec r 0), (Z.eqb_spec r 10); cbn; intro;
    first [discriminate | now split].
Qed.

(** What a call of [lxi_net_plumb] does, for the proofs about its
    callers. *)
Lemma lxi_net_plumb_cases (o : oracle) (iface : string) (w : world) :
  let ifbuf := strncpy iface LIFNAMSIZ in
  let ok := fun cr : call * Z =>
              snd cr = IPADM_SUCCESS \/ snd cr = IPADM_IF_EXISTS in
  exists out w' evs,
    lxi_net_plumb o iface w = (out, w') /\
    trace w' = trace w ++ evs /\
    ipv6_enable w' = ipv6_enable w /\ addrnum w' = addrnum w /\
    warnings evs = [] /\ addifs evs = [] /\ addrobjs evs = [] /\
    calls is_getflags evs = [] /\
    (ipv6_enable w = false -> ipv6_setup evs = []) /\
    (out = Ret tt ->
     errs evs = [] /\
     map fst (calls is_create_if evs)
       = C_ipadm_create_if ifbuf AF_INET
         :: (if ipv6_enable w then [C_ipadm_create_if ifbuf AF_INET6] else []) /\
     Forall ok (calls is_create_if evs) /\
     List.length evs = List.length (calls is_create_if evs)) /\
    (out = Exit ->
     exists pre c r fmt,
       evs = map (fun cr => ECall (fst cr) (snd cr)) pre
             ++ [ECall c r; EErr fmt] /\
       is_create_if c = true /\ Forall ok pre /\
       r <> IPADM_SUCCESS /\ r <> IPADM_IF_EXISTS) /\
    out <> Fault.
Proof.
  cbv zeta. unfold lxi_net_plumb, get_ipv6_enable.
  generalize (strncpy iface LIFNAMSIZ) as ifbuf. intro ifbuf.
  unfold IPADM_SUCCESS, IPADM_IF_EXISTS. run_step.
  destruct (ipv6_enable w) eqn:E6.
  all: split_ifs; try (cbn in *; congruence);
    cbn; cbn [clock] in *; try rewrite E6; cbn;
    do 3 eexists; (split; [reflexivity|]); flatten_trace;
    (split; [reflexivity|]); (split; [try reflexivity|]).
  all: (split; [reflexivity|]); (split; [reflexivity|]).
  all: (split; [reflexivity|]); (split; [reflexivity|]).
  all: (split; [reflexivity|]).
  all: (split; [intro; first [reflexivity | discriminate]|]).
  all: split;
    [intro Q;
     first [discriminate Q
           |split; [reflexivity|]; split; [reflexivity|];
            split; [|reflexivity];
            cbn;
            repeat (apply Forall_cons; [apply status_ok; assumption|]);
            apply Forall_nil]|].
  all: split; [|discriminate].
  all: intro Q;
    first [discriminate Q
          |exists []; do 3 eexists; split; [reflexivity|];
           split; [reflexivity|]; split; [constructor|];
           apply status_bad; assumption
          |eexists [(_, _)]; do 3 eexists; split; [reflexivity|];
           split; [reflexivity|];
           split; [repeat (apply Forall_cons; [apply status_ok; assumption|]);
                   apply Forall_nil|];
           apply status_bad; assumption].
Qed.

(** X13. [lxi_net_plumb] creates the IPv4 interface first and the IPv6
    interface only when IPv6 is enabled, both under the name cut to
    LIFNAMSIZ; the status IPADM_IF_EXISTS counts as success.  It returns
    exactly when every status was one of the two, it warns of nothing,
    and any other status ends the process with one fatal error and no
    further call. *)
Theorem lxi_net_plumb_outcome (o : oracle) (iface : string) (w : world) :
  let ifbuf := strncpy iface LIFNAMSIZ in
  let ok := fun cr : call * Z =>
              snd cr = IPADM_SUCCESS \/ snd cr = IPADM_IF_EXISTS in
  exists out w' evs,
    lxi_net_plumb o iface w = (out, w') /\
    trace w' = trace w ++ evs /\
    ipv6_enable w' = ipv6_enable w /\ addrnum w' = addrnum w /\
    warnings evs = [] /\
    (out = Ret tt ->
     errs evs = [] /\
     map fst (calls is_create_if evs)
       = C_ipadm_create_if ifbuf AF_INET
         :: (if ipv6_enable w then [C_ipadm_create_if ifbuf AF_INET6] else []) /\
     Forall ok (calls is_create_if evs) /\
     List.length evs = List.length (calls is_create_if evs)) /\
    (out = Exit ->
     exists pre c r fmt,
       evs = map (fun cr => ECall (fst cr) (snd cr)) pre
             ++ [ECall c r; EErr fmt] /\
       is_create_if c = true /\ Forall ok pre /\
       r <> IPADM_SUCCESS /\ r <> IPADM_IF_EXISTS) /\
    out <> Fault.
Proof.
  cbv zeta.
  destruct (lxi_net_plumb_cases o iface w)
    as (out & w' & evs & R & T & I6 & A & W & _ & _ & _ & _ & OK & EX & NF).
  exists out, w', evs. repeat split; try assumption.
  - now apply OK.
  - now apply OK.
  - now apply OK.
  - now apply OK.
Qed.

(** *** The global [ipv6_enable] is written by [lxi_init] only *)

Lemma ipv6_kept_refl (w : world) : ipv6_kept w w.
Proof. reflexivity. Qed.

Lemma ipv6_kept_trans (a b c : world) :
  ipv6_kept a b -> ipv6_kept b c -> ipv6_kept a c.
Proof. unfold ipv6_kept. intros H1 H2. now rewrite H2. Qed.

Ltac kept_side := first [exact ipv6_kept_refl | exact ipv6_kept_trans].

Ltac kept_tac :=
  repeat pres_step kept_side; try (intro; reflexivity); auto.

Lemma lxi_getif_kept (o : oracle) af iface len f :
  preserves ipv6_kept (lxi_getif o af iface len f).
Proof. unfold lxi_getif. kept_tac. Qed.

Lemma lxi_iface_ip_kept (o : oracle) (iface addr : string) (f : bool) :
  preserves ipv6_kept (lxi_iface_ip o iface addr f).
Proof.
  unfold lxi_iface_ip. pres_step kept_side.
  - apply lxi_getif_kept.
  - kept_tac.
Qed.

Lemma lxi_iface_ip_quiet (o : oracle) (iface addr : string) (f : bool) :
  preserves (silent (call_of is_getflags)) (lxi_iface_ip o iface addr f).
Proof.
  unfold lxi_iface_ip. pres_step silent_side.
  - unfold lxi_getif. silent_tac.
  - silent_tac.
Qed.

Lemma link_local_run (o : oracle) (iface : string) (w : world) :
  exists rc w' evs,
    lxi_iface_ipv6_link_local o iface w = (Ret rc, w') /\
    trace w' = trace w ++ evs /\
    addifs evs = [] /\ addrobjs evs = [] /\ errs evs = [] /\
    calls is_getflags evs <> [] /\
    map fst (calls is_socket evs) = [C_socket AF_INET6] /\
    set_addrs evs = [] /\
    (rc = 0 \/ rc = -1).
Proof.
  unfold lxi_iface_ipv6_link_local.
  generalize (strncpy iface LIFNAMSIZ). intro name. run_step.
  split_ifs; cbn; do 3 eexists; (split; [reflexivity|]); flatten_trace;
    (split; [reflexivity|]); (split; [reflexivity|]);
    (split; [reflexivity|]); (split; [reflexivity|]);
    (split; [discriminate|]); (split; [reflexivity|]);
    (split; [reflexivity|]); first [now left | now right].
Qed.

Lemma lxi_net_plumb_quiet (o : oracle) (iface : string) :
  preserves (silent (call_of is_socket)) (lxi_net_plumb o iface) /\
  preserves (silent set_addr_of) (lxi_net_plumb o iface).
Proof. unfold lxi_net_plumb. split; silent_tac. Qed.

(** X14. [lxi_net_loopback] puts 127.0.0.1/8 on lo0 itself, never on a
    logical interface: the only address handed to [ipadm_set_addr] is
    127.0.0.1/8, for the address object named after lo0 and the current
    counter, and it is handed over whenever lo0 is plumbed and neither
    a socket nor the address object is refused.  Only plumbing lo0 can
    end the process: once it is plumbed the function opens the IPv4
    socket of the address step and returns whatever that step and the
    link-local step give, and the link-local step is taken exactly when
    IPv6 is enabled. *)
Theorem lxi_net_loopback_outcome (o : oracle) (w : world) :
  exists out w' evs,
    lxi_net_loopback o w = (out, w') /\
    trace w' = trace w ++ evs /\
    out <> Fault /\
    addifs evs = [] /\
    (addrobjs evs = [] \/ addrobjs evs = [aobjname "lo0" (addrnum w)]) /\
    (set_addrs evs = [] \/
     set_addrs evs = [(aobjname "lo0" (addrnum w), "127.0.0.1/8"%string)]) /\
    (out = Ret tt ->
     errs evs = [] /\
     (calls is_getflags evs <> [] <-> ipv6_enable w = true) /\
     map fst (calls is_socket evs)
       = C_socket AF_INET
         :: (if ipv6_enable w then [C_socket AF_INET6] else []) /\
     (existsb blocks_set_addr evs = false ->
      set_addrs evs = [(aobjname "lo0" (addrnum w), "127.0.0.1/8"%string)])) /\
    (out = Exit ->
     addrobjs evs = [] /\ calls is_getflags evs = [] /\ set_addrs evs = [] /\
     exists fmt, errs evs = [fmt]).
Proof.
  unfold lxi_net_loopback. cbv zeta. unfold bind at 1.
  destruct (lxi_net_plumb_cases o "lo0" w)
    as (out1 & w1 & evs1 & R1 & T1 & I1 & N1 & _ & AI1 & AO1 & G1 & _
        & OK1 & EX1 & NF1).
  cbv zeta in R1, OK1, EX1.
  destruct (lxi_net_plumb_quiet o "lo0") as (QS & QA).
  specialize (QS w). specialize (QA w). rewrite R1 in QS, QA.
  cbn [snd] in QS, QA.
  apply (fun q => silent_events _ _ _ _ q T1) in QS, QA.
  fold (calls is_socket evs1) in QS. fold (set_addrs evs1) in QA.
  rewrite R1.
  destruct out1 as [[]| |]; [| |now contradiction NF1].
  2:{ exists Exit, w1, evs1. split; [reflexivity|]. split; [exact T1|].
      split; [discriminate|]. split; [exact AI1|].
      split; [now left|]. split; [now left|]. split; [discriminate|].
      intros _.
      split; [exact AO1|]. split; [exact G1|]. split; [exact QA|].
      destruct (EX1 eq_refl) as (pre & c & r & fmt & -> & _).
      exists fmt. rewrite errs_app. cbn.
      assert (P : errs (map (fun cr : call * Z => ECall (fst cr) (snd cr)) pre)
                  = []).
      { clear. induction pre as [|x pre IH]; [reflexivity|exact IH]. }
      now rewrite P. }
  destruct (OK1 eq_refl) as (E1 & _).
  unfold bind at 1.
  destruct (lxi_iface_ip_run o "lo0" "127.0.0.1/8" false w1)
    as (rc & w2 & evs2 & R2 & T2 & PB & _).
  change (is_ipv4 "127.0.0.1/8" && negb false) with true in PB. cbv iota in PB.
  destruct PB as (AI2 & AO2).
  assert (AO2' : addrobjs evs2 = [] \/
                 addrobjs evs2 = [aobjname "lo0" (addrnum w)]).
  { rewrite <- N1. destruct AO2 as [(_ & AO2)|AO2]; [now left|now right]. }
  clear AO2.
  destruct (lxi_iface_ip_cases o "lo0" "127.0.0.1/8" false w1)
    as (rc' & f' & w2' & evs2' & R2' & T2' & E2 & _).
  rewrite R2 in R2'. injection R2' as _ _ <-.
  rewrite T2 in T2'. apply app_inv_head in T2'. subst evs2'.
  destruct (lxi_iface_ip_applies o "lo0" "127.0.0.1/8" false w1)
    as (rc'' & f'' & w2'' & evs2'' & R2'' & T2'' & S2 & A2 & B2).
  rewrite R2 in R2''. injection R2'' as _ _ <-.
  rewrite T2 in T2''. apply app_inv_head in T2''. subst evs2''.
  change (family_of "127.0.0.1/8") with AF_INET in S2.
  assert (A2' : set_addrs evs2 = [] \/
                set_addrs evs2
                = [(aobjname "lo0" (addrnum w), "127.0.0.1/8"%string)]).
  { destruct A2 as [A2|(name & A2 & O2)]; [now left|right].
    destruct AO2' as [AO|AO]; rewrite AO in O2; [discriminate O2|].
    injection O2 as <-. exact A2. }
  assert (B2' : existsb blocks_set_addr evs2 = false ->
                set_addrs evs2
                = [(aobjname "lo0" (addrnum w), "127.0.0.1/8"%string)]).
  { intro B. destruct (B2 B) as (name & A).
    destruct A2' as [A0|A0]; [rewrite A0 in A; discriminate A|exact A0]. }
  pose proof (lxi_iface_ip_kept o "lo0" "127.0.0.1/8" false w1) as K2.
  pose proof (lxi_iface_ip_quiet o "lo0" "127.0.0.1/8" false w1) as G2.
  rewrite R2 in K2, G2. cbn [snd] in K2, G2. unfold ipv6_kept in K2.
  apply (fun q => silent_events _ _ _ _ q T2) in G2.
  fold (calls is_getflags evs2) in G2.
  rewrite R2. cbv beta iota. unfold bind at 1, get_ipv6_enable.
  cbv beta iota.
  assert (I2 : ipv6_enable w2 = ipv6_enable w) by now rewrite K2.
  destruct (ipv6_enable w2) eqn:E6.
  - destruct (link_local_run o "lo0" w2)
      as (rc3 & w3 & evs3 & R3 & T3 & AI3 & AO3 & E3 & G3 & S3 & A3 & _).
    unfold bind at 1. rewrite R3.
    exists (Ret tt), w3, (evs1 ++ evs2 ++ evs3).
    split; [reflexivity|].
    split; [rewrite T3, T2, T1, !app_assoc; reflexivity|].
    split; [discriminate|].
    rewrite !addifs_app, !addrobjs_app, !errs_app, !calls_app, !map_app,
      !set_addrs_app, !existsb_app.
    rewrite AI1, AI2, AI3, AO1, AO3, E1, E2, E3, G1, G2, QS, QA, S2, S3, A3.
    cbn [app map]. rewrite !app_nil_r.
    split; [reflexivity|]. split; [exact AO2'|]. split; [exact A2'|].
    split; [|discriminate]. intros _. split; [reflexivity|].
    split; [split; [intros _; now symmetry|intros _; exact G3]|].
    split; [now rewrite <- I2|].
    intro B. apply orb_false_elim in B. destruct B as (_ & B).
    apply orb_false_elim in B. destruct B as (B & _). exact (B2' B).
  - exists (Ret tt), w2, (evs1 ++ evs2).
    split; [reflexivity|].
    split; [rewrite T2, T1, !app_assoc; reflexivity|].
    split; [discriminate|].
    rewrite !addifs_app, !addrobjs_app, !errs_app, !calls_app, !map_app,
      !set_addrs_app, !existsb_app.
    rewrite AI1, AI2, AO1, E1, E2, G1, G2, QS, QA, S2. cbn [app map].
    split; [reflexivity|]. split; [exact AO2'|]. split; [exact A2'|].
    split; [|discriminate]. intros _. split; [reflexivity|].
    split; [split; [intro H; now contradiction H|intro H; congruence]|].
    split; [now rewrite <- I2|].
    intro B. apply orb_false_elim in B. destruct B as (_ & B). exact (B2' B).
Qed.

(** X15. The default route of an interface: without a gateway in the
    configuration [setup_gateway] does nothing; with one it returns
    only after the gateway text parsed, the interface had an index, and
    one routing message was written of which [write] took all; a route
    that cannot be installed ends the process with the fatal error
    "default route ... failed", after a warning. *)
Theorem setup_gateway_outcome (o : oracle) (iface : string)
    (lookup : zone_nwiftab) (w : world) :
  match nwif_gateway lookup with
  | None => setup_gateway o iface lookup w = (Ret tt, w)
  | Some g =>
      exists out w' evs,
        setup_gateway o iface lookup w = (out, w') /\
        trace w' = trace w ++ evs /\
        out <> Fault /\
        (out = Ret tt ->
         errs evs = [] /\
         inet_pton g <> None /\
         sys_ret o (clock w) (C_if_nametoindex iface) <> 0 /\
         exists m len,
           calls is_write_route evs = [(C_write_route m, len)] /\
           0 <= len /\ rtm_msglen m <= len) /\
        (out = Exit ->
         errs evs = ["default route on %s -> %s failed"] /\
         warnings evs <> [])
  end.
Proof.
  change (setup_gateway o iface lookup)
    with (match nwif_gateway lookup with
          | Some gw =>
              r <- lxi_iface_gateway o (Some iface) None 0 (Some gw) ;;
              if negb (r =? 0) then lxi_err "default route on %s -> %s failed"
              else ret tt
          | None => ret tt
          end).
  destruct (nwif_gateway lookup) as [g|]; [|reflexivity].
  destruct (lxi_iface_gateway_cases o (Some iface) None 0 (Some g) w)
    as (out & w1 & evs & R & T & E & NE & F & RC & _ & _ & V).
  unfold bind at 1. rewrite R.
  destruct out as [rc| |]; [|now contradiction NE
                            |destruct (F eq_refl) as (F1 & _); discriminate F1].
  destruct (RC rc eq_refl) as (RC01 & RCw & RC0).
  destruct (Z.eqb_spec rc 0) as [Erc|Erc]; cbn [negb].
  - exists (Ret tt), w1, evs. split; [reflexivity|]. split; [exact T|].
    split; [discriminate|]. split; [|discriminate]. intros _.
    split; [exact E|].
    assert (Val : route_request_valid o (Some iface) None 0 (Some g) (clock w))
      by (apply V; right; now rewrite Erc).
    destruct Val as ((g' & ga & Eg & Ega) & _ & Vi).
    injection Eg as <-.
    split; [now rewrite Ega|]. split; [now apply Vi|].
    now apply RC0.
  - exists Exit, (log (EErr "default route on %s -> %s failed") w1),
      (evs ++ [EErr "default route on %s -> %s failed"]).
    split; [reflexivity|].
    split; [cbn; rewrite T, <- app_assoc; reflexivity|].
    split; [discriminate|]. split; [discriminate|]. intros _.
    split; [rewrite errs_app, E; reflexivity|].
    rewrite warnings_app. intro H. apply app_eq_nil in H.
    destruct H as (H & _). destruct RC01 as [Z0|Z1]; [contradiction|].
    exact (RCw Z1 H).
Qed.

(** ** The interface loop and in.ndpd *)

Lemma bind_ret {A B} (m : M A) (k : A -> M B) (w w' : world) (b : B) :
  bind m k w = (Ret b, w') ->
  exists a w1, m w = (Ret a, w1) /\ k a w1 = (Ret b, w').
Proof.
  unfold bind. destruct (m w) as [[a| |] w1]; intro H;
    [exists a, w1; now split|discriminate H|discriminate H].
Qed.




Lemma setup_addresses_ret (o : oracle) (iface ipaddrs : string)
    (da da' f' : bool) (w w' : world) :
  setup_addresses o iface ipaddrs da w = (Ret (da', f'), w') ->
  da' = da || existsb (fun t => streq t "addrconf")
                      (strtok_all "," (strlcpy ipaddrs MAXNAMELEN) "").
Proof.
  unfold setup_addresses. cbv zeta. intro H.
  apply bind_ret in H. destruct H as (ficp & w1 & _ & H).
  destruct (setup_ipaddrs_cases o iface
              (strtok_all "," (strlcpy ipaddrs MAXNAMELEN) "") da ficp w1)
    as (f1 & w2 & evs & R & _).
  rewrite R in H. now injection H as <- _ _.
Qed.

Lemma setup_nwif_ret (o : oracle) (lookup : zone_nwiftab) (da da' : bool)
    (w w' : world) :
  setup_nwif o lookup da w = (Ret da', w') ->
  da' = da || nwif_addrconf lookup.
Proof.
  unfold setup_nwif, nwif_addrconf, nwif_ipaddrs. cbv zeta. intro H.
  apply bind_ret in H. destruct H as (ipv6 & w1 & _ & H).
  apply bind_ret in H. destruct H as ([] & w2 & _ & H).
  apply bind_ret in H. destruct H as (ipaddrs & w3 & HI & H).
  assert (EI : ipaddrs =
               if (0 <? String.length (zone_nwif_allowed_address lookup))%nat
               then Some (zone_nwif_allowed_address lookup)
               else zone_find_attr (zone_nwif_attrp lookup) "ips").
  { destruct (0 <? String.length (zone_nwif_allowed_address lookup))%nat.
    - now injection HI as <- _.
    - destruct (zone_find_attr (zone_nwif_attrp lookup) "ips").
      + now injection HI as <- _.
      + cbn in HI. now injection HI as <- _. }
  rewrite <- EI. clear HI EI.
  apply bind_ret in H. destruct H as (ipv6' & w4 & _ & H).
  apply bind_ret in H. destruct H as ([] & w5 & _ & H).
  destruct ipaddrs as [ipaddrs|].
  - apply bind_ret in H. destruct H as ([da1 f1] & w6 & HA & H).
    apply bind_ret in H. destruct H as ([] & w7 & _ & H).
    injection H as <- _.
    exact (setup_addresses_ret _ _ _ _ _ _ _ _ HA).
  - injection H as <- _. now rewrite orb_false_r.
Qed.



(** ** A zone with IPv6 disabled *)

Lemma stays_off_refl (w : world) : ipv6_stays_off w w.
Proof.
  intro H. split; [exact H|]. exists []. now rewrite app_nil_r.
Qed.

Lemma stays_off_trans (a b c : world) :
  ipv6_stays_off a b -> ipv6_stays_off b c -> ipv6_stays_off a c.
Proof.
  intros H1 H2 H. destruct (H1 H) as (Hb & e1 & T1 & S1).
  destruct (H2 Hb) as (Hc & e2 & T2 & S2).
  split; [exact Hc|]. exists (e1 ++ e2).
  split; [now rewrite T2, T1, app_assoc|].
  unfold ipv6_setup in *. now rewrite flat_map_app, S1, S2.
Qed.

(** A branch on the global [ipv6_enable] takes the side of IPv6 off. *)
Lemma stays_off_get {A} (k : bool -> M A) :
  preserves ipv6_stays_off (k false) ->
  preserves ipv6_stays_off (bind get_ipv6_enable k).
Proof.
  intros Hk w H. unfold bind, get_ipv6_enable. rewrite H. exact (Hk w H).
Qed.

(** A bind whose first part returns only values with [P]. *)
Lemma preserves_bind_post {A B} (R : world -> world -> Prop)
    (P : A -> Prop) (m : M A) (k : A -> M B) :
  (forall a b c, R a b -> R b c -> R a c) ->
  preserves R m ->
  (forall w a w1, m w = (Ret a, w1) -> P a) ->
  (forall a, P a -> preserves R (k a)) ->
  preserves R (bind m k).
Proof.
  intros Rt Hm HP Hk w. unfold bind. specialize (Hm w).
  destruct (m w) as [[a| |] w1] eqn:E; cbn in *; try assumption.
  eapply Rt; [exact Hm|]. apply Hk. exact (HP _ _ _ E).
Qed.

Ltac off_side := first [exact stays_off_refl | exact stays_off_trans].

Ltac off_leaf :=
  intros ? ?; cbn;
  (split; [assumption|]);
  first [exists []; split; [symmetry; apply app_nil_r|reflexivity]
        |eexists [_]; split; reflexivity].

Ltac off_step :=
  first [apply stays_off_get; cbv beta iota | pres_step off_side].

Ltac off_tac := repeat off_step; try off_leaf.

Lemma lxi_net_plumb_off (o : oracle) (iface : string) :
  preserves ipv6_stays_off (lxi_net_plumb o iface).
Proof. unfold lxi_net_plumb. cbv zeta. off_tac. Qed.

Lemma lxi_getif_off (o : oracle) af iface len f :
  preserves ipv6_stays_off (lxi_getif o af iface len f).
Proof. unfold lxi_getif. off_tac. Qed.

Lemma lxi_iface_ip_off (o : oracle) (iface addr : string) (f : bool) :
  preserves ipv6_stays_off (lxi_iface_ip o iface addr f).
Proof.
  unfold lxi_iface_ip. cbv zeta. off_step; [apply lxi_getif_off|].
  off_tac.
Qed.

Lemma lxi_iface_dhcp_off (o : oracle) (iface : string) (f : bool) :
  preserves ipv6_stays_off (lxi_iface_dhcp o iface f).
Proof.
  unfold lxi_iface_dhcp. cbv zeta. off_step; [apply lxi_getif_off|].
  off_tac.
Qed.

Lemma lxi_iface_gateway_off (o : oracle) iface dst pfx gwaddr :
  preserves ipv6_stays_off (lxi_iface_gateway o iface dst pfx gwaddr).
Proof. unfold lxi_iface_gateway, write_rtmsg. cbv zeta. off_tac. Qed.

Lemma lxi_net_loopback_off (o : oracle) :
  preserves ipv6_stays_off (lxi_net_loopback o).
Proof.
  unfold lxi_net_loopback. cbv zeta.
  off_step; [apply lxi_net_plumb_off|].
  off_step; [apply lxi_iface_ip_off|].
  off_tac.
Qed.

Lemma setup_ipaddrs_off (o : oracle) (iface : string) (tokens : list string) :
  forall da f, preserves ipv6_stays_off (setup_ipaddrs o iface tokens da f).
Proof.
  induction tokens as [|t rest IH]; intros da f; cbn [setup_ipaddrs].
  - off_tac.
  - off_step; [apply IH|]. off_step; [apply IH|].
    off_step; [apply lxi_iface_ip_off|].
    off_step. off_step; [off_tac|]. apply IH.
Qed.

Lemma setup_addresses_off (o : oracle) (iface ipaddrs : string) (da : bool) :
  preserves ipv6_stays_off (setup_addresses o iface ipaddrs da).
Proof.
  unfold setup_addresses. cbv zeta.
  off_step; [|apply setup_ipaddrs_off].
  off_step; [|off_tac].
  off_step; [apply lxi_iface_dhcp_off|]. off_tac.
Qed.

Lemma setup_gateway_off (o : oracle) (iface : string) (lookup : zone_nwiftab) :
  preserves ipv6_stays_off (setup_gateway o iface lookup).
Proof.
  unfold setup_gateway. cbv zeta.
  off_step; [|off_tac].
  off_step; [apply lxi_iface_gateway_off|]. off_tac.
Qed.

(** With IPv6 off for the zone, the per-interface choice comes out as
    off or ends the process. *)
Lemma setup_nwif_off (o : oracle) (lookup : zone_nwiftab) (da : bool) :
  preserves ipv6_stays_off (setup_nwif o lookup da).
Proof.
  unfold setup_nwif. cbv zeta.
  apply stays_off_get.
  off_step; [apply lxi_net_plumb_off|].
  off_step; [off_tac|].
  apply (preserves_bind_post ipv6_stays_off (fun b => b = false));
    [exact stays_off_trans|off_tac| |].
  - intros w0 b w1.
    destruct (zone_find_attr (zone_nwif_attrp lookup) "ipv6") as [v|];
      [|intro H; now injection H as <- _].
    destruct (streq v "true"); [intro H; discriminate H|].
    destruct (streq v "false"); intro H;
      [now injection H as <- _|discriminate H].
  - intros b ->. off_step.
    off_step; [|off_tac].
    off_step; [apply setup_addresses_off|]. off_step.
    off_step; [apply setup_gateway_off|]. off_tac.
Qed.

Lemma setup_nwifs_off (o : oracle) (nwifs : list zone_nwiftab) :
  forall da, preserves ipv6_stays_off (setup_nwifs o nwifs da).
Proof.
  induction nwifs as [|n rest IH]; intro da; cbn [setup_nwifs].
  - off_tac.
  - off_step; [apply setup_nwif_off|apply IH].
Qed.

Lemma lxi_net_setup_off (o : oracle) (handle : zone_dochandle) :
  preserves ipv6_stays_off (lxi_net_setup o handle).
Proof.
  unfold lxi_net_setup, lxi_net_ndpd_start, lxi_svc_start.
  off_step; [apply setup_nwifs_off|]. off_tac.
Qed.

Lemma lxi_normalize_protocols_off (o : oracle) (handle : zone_dochandle) :
  preserves ipv6_stays_off (lxi_normalize_protocols o handle).
Proof.
  unfold lxi_normalize_protocols, lxi_kern_release_cmp. cbv zeta.
  off_step; [off_tac|].
  off_step. unfold normalize_proto. off_tac.
Qed.

Lemma lxi_net_static_routes_off (o : oracle) (routeinfo : option (list string)) :
  preserves ipv6_stays_off (lxi_net_static_routes o routeinfo).
Proof.
  unfold lxi_net_static_routes.
  off_step; [|off_tac].
  off_step; [|off_tac].
  off_step. unfold lxi_net_static_route. cbv zeta.
  off_step; [off_tac|].
  off_step; [apply lxi_iface_gateway_off|]. off_tac.
Qed.

Lemma setup_nwif_ipv6_fatal (o : oracle) (lookup : zone_nwiftab)
    (da da' : bool) (w w' : world) :
  ipv6_enable w = false ->
  zone_find_attr (zone_nwif_attrp lookup) "ipv6" = Some "true" ->
  setup_nwif o lookup da w <> (Ret da', w').
Proof.
  intros H6 Hattr H. unfold setup_nwif in H. cbv zeta in H.
  apply bind_ret in H. destruct H as (ipv6 & w1 & HG & H).
  unfold get_ipv6_enable in HG. rewrite H6 in HG. injection HG as <- <-.
  apply bind_ret in H. destruct H as ([] & w2 & _ & H).
  apply bind_ret in H. destruct H as (ipaddrs & w3 & _ & H).
  apply bind_ret in H. destruct H as (ipv6' & w4 & HI & _).
  rewrite Hattr in HI. discriminate HI.
Qed.

Lemma setup_nwifs_ipv6_fatal (o : oracle) (nwifs : list zone_nwiftab) :
  forall (da da' : bool) (w w' : world),
    ipv6_enable w = false ->
    Exists (fun n => zone_find_attr (zone_nwif_attrp n) "ipv6" = Some "true")
           nwifs ->
    setup_nwifs o nwifs da w <> (Ret da', w').
Proof.
  induction nwifs as [|n rest IH]; intros da da' w w' H6 Hex H.
  - inversion Hex.
  - cbn [setup_nwifs] in H.
    apply bind_ret in H. destruct H as (da1 & w1 & H1 & H).
    apply Exists_cons in Hex. destruct Hex as [Hn|Hrest].
    + exact (setup_nwif_ipv6_fatal _ _ _ _ _ _ H6 Hn H1).
    + pose proof (setup_nwif_off o n da w H6) as K. rewrite H1 in K.
      destruct K as (K & _).
      exact (IH _ _ _ _ K Hrest H).
Qed.

(** X17. A zone whose attribute "ipv6" is "false" gets no IPv6 set-up:
    in the whole network part of [main], no interface is plumbed for
    AF_INET6 and the ioctls of the link-local step are never made, and
    the global flag is off at the end; an interface that asks for IPv6
    all the same ends the process. *)
Theorem ipv6_disabled_zone (o : oracle) (handle : zone_dochandle)
    (routeinfo : option (list string)) (w : world) :
  zonecfg_lookup_attr (zone_attrs handle) "ipv6" = Some "false" ->
  exists out w' evs,
    lxi_main_net o handle routeinfo w = (out, w') /\
    trace w' = trace w ++ evs /\
    ipv6_enable w' = false /\
    ipv6_setup evs = [] /\
    (Exists (fun n => zone_find_attr (zone_nwif_attrp n) "ipv6" = Some "true")
            (zone_nwifs handle) -> out <> Ret tt).
Proof.
  intro Hattr.
  set (w1 := log (EWarn "IPv6 is %sabled by zone configuration")
               {| addrnum := addrnum w; ipv6_enable := false;
                  clock := clock w; trace := trace w |}).
  assert (I : lxi_init handle w = (Ret tt, w1))
    by (unfold lxi_init; rewrite Hattr; reflexivity).
  assert (H1 : ipv6_enable w1 = false) by reflexivity.
  assert (P2 : preserves ipv6_stays_off (lxi_net_loopback o))
    by apply lxi_net_loopback_off.
  assert (P3 : preserves ipv6_stays_off
                 (lxi_net_setup o handle ;;
                  lxi_normalize_protocols o handle ;;
                  lxi_net_static_routes o routeinfo)).
  { off_step; [apply lxi_net_setup_off|].
    off_step; [apply lxi_normalize_protocols_off
              |apply lxi_net_static_routes_off]. }
  unfold lxi_main_net. unfold bind at 1. rewrite I. unfold bind at 1.
  specialize (P2 w1 H1).
  destruct (lxi_net_loopback o w1) as [[[]| |] w2] eqn:R2; cbn [snd] in P2;
    destruct P2 as (H2 & evs2 & T2 & S2).
  - specialize (P3 w2 H2).
    match goal with
    | |- context [bind ?m ?k w2] => change (bind m k w2) with
        ((lxi_net_setup o handle ;;
          lxi_normalize_protocols o handle ;;
          lxi_net_static_routes o routeinfo) w2)
    end.
    destruct ((lxi_net_setup o handle ;;
               lxi_normalize_protocols o handle ;;
               lxi_net_static_routes o routeinfo) w2) as [out w3] eqn:R3;
      cbn [snd] in P3.
    destruct P3 as (H3 & evs3 & T3 & S3).
    exists out, w3, (EWarn "IPv6 is %sabled by zone configuration"
                      :: evs2 ++ evs3).
    split; [reflexivity|].
    split; [rewrite T3, T2; cbn; rewrite <- !app_assoc; reflexivity|].
    split; [exact H3|].
    split.
    { change (ipv6_setup (evs2 ++ evs3) = []). unfold ipv6_setup in *.
      now rewrite flat_map_app, S2, S3. }
    intros Hex ->.
    apply bind_ret in R3. destruct R3 as ([] & w4 & R3 & _).
    unfold lxi_net_setup in R3.
    apply bind_ret in R3. destruct R3 as (da & w5 & R3 & _).
    exact (setup_nwifs_ipv6_fatal _ _ _ _ _ _ H2 Hex R3).
  - exists Exit, w2, (EWarn "IPv6 is %sabled by zone configuration" :: evs2).
    split; [reflexivity|].
    split; [rewrite T2; cbn; rewrite <- !app_assoc; reflexivity|].
    split; [exact H2|]. split; [exact S2|]. discriminate.
  - exists Fault, w2, (EWarn "IPv6 is %sabled by zone configuration" :: evs2).
    split; [reflexivity|].
    split; [rewrite T2; cbn; rewrite <- !app_assoc; reflexivity|].
    split; [exact H2|]. split; [exact S2|]. discriminate.
Qed.

(** ** An interface without address configuration *)

Section Unconfigured.

Context {X : Type}.
Variable f : event -> list X.
Hypothesis f_warn : forall fmt, f (EWarn fmt) = [].
Hypothesis f_err : forall fmt, f (EErr fmt) = [].
Hypothesis f_plumb : forall n af r, f (ECall (C_ipadm_create_if n af) r) = [].
Hypothesis f_socket : forall af r, f (ECall (C_socket af) r) = [].
Hypothesis f_get : forall n r, f (ECall (C_ioctl_SIOCGLIFFLAGS n) r) = [].
Hypothesis f_set : forall n r, f (ECall (C_ioctl_SIOCSLIFFLAGS_up n) r) = [].
Hypothesis f_close : forall r, f (ECall C_close r) = [].

Ltac plumbing_leaf :=
  first [apply silent_warn; assumption
        |apply silent_err; assumption
        |apply silent_sys; intro;
         first [apply f_plumb | apply f_socket | apply f_get | apply f_set
               | apply f_close]].

Lemma setup_nwif_unconfigured_silent (o : oracle) (lookup : zone_nwiftab)
    (da : bool) :
  nwif_ipaddrs lookup = None ->
  preserves (silent f) (setup_nwif o lookup da).
Proof.
  unfold nwif_ipaddrs. intro H.
  destruct (0 <? String.length (zone_nwif_allowed_address lookup))%nat eqn:E0;
    [discriminate H|].
  unfold setup_nwif, lxi_net_plumb, lxi_iface_ipv6_link_local. cbv zeta.
  rewrite E0, H.
  pres_step silent_side.
  pres_step silent_side; [repeat pres_step silent_side; plumbing_leaf|].
  apply (preserves_bind_post (silent f) (fun b => b = None));
    [exact (silent_trans f)
    |repeat pres_step silent_side; plumbing_leaf
    |intros w0 b w1 E; now injection E as <- _
    |intros b ->].
  repeat pres_step silent_side; plumbing_leaf.
Qed.

End Unconfigured.

(** X18. An interface for which the zone configuration gives no
    address list (no allowed-address and no attribute "ips") is plumbed
    and, with IPv6 on, given its link-local address, and nothing else:
    no address object, no logical interface, no DHCP call, and no
    default route even when a default router is configured; the choice
    to start in.ndpd is passed on as it was. *)
Theorem unconfigured_interface (o : oracle) (lookup : zone_nwiftab)
    (da : bool) (w : world) :
  nwif_ipaddrs lookup = None ->
  exists out w' evs,
    setup_nwif o lookup da w = (out, w') /\
    trace w' = trace w ++ evs /\
    addrobjs evs = [] /\ addifs evs = [] /\ dhcp_calls evs = [] /\
    calls is_nametoindex evs = [] /\ routes_written evs = [] /\
    (forall da', out = Ret da' -> da' = da).
Proof.
  intro H.
  assert (S : forall X (f : event -> list X),
             (forall fmt, f (EWarn fmt) = []) ->
             (forall fmt, f (EErr fmt) = []) ->
             (forall n af r, f (ECall (C_ipadm_create_if n af) r) = []) ->
             (forall af r, f (ECall (C_socket af) r) = []) ->
             (forall n r, f (ECall (C_ioctl_SIOCGLIFFLAGS n) r) = []) ->
             (forall n r, f (ECall (C_ioctl_SIOCSLIFFLAGS_up n) r) = []) ->
             (forall r, f (ECall C_close r) = []) ->
             silent f w (snd (setup_nwif o lookup da w))).
  { intros X f H1 H2 H3 H4 H5 H6 H7.
    exact (setup_nwif_unconfigured_silent f H1 H2 H3 H4 H5 H6 H7 o lookup da
             H w). }
  pose proof (setup_nwif_ret o lookup da) as RV.
  destruct (setup_nwif o lookup da w) as [out w'] eqn:R. cbn [snd] in S.
  destruct (S _ addrobj_of) as (evs & T & S1); try (intros; reflexivity).
  exists out, w', evs. split; [reflexivity|]. split; [exact T|].
  split; [exact S1|].
  split; [apply (silent_events addif_of w w'); [apply S|exact T];
          intros; reflexivity|].
  split; [apply (silent_events dhcp_call_of w w'); [apply S|exact T];
          intros; reflexivity|].
  split; [apply (silent_events (call_of is_nametoindex) w w');
          [apply S|exact T]; intros; reflexivity|].
  split; [apply (silent_events route_written_of w w'); [apply S|exact T];
          intros; reflexivity|].
  intros da' ->. rewrite (RV da' w w' R).
  unfold nwif_addrconf. rewrite H. apply orb_false_r.
Qed.

(** ** The phases of the network part of [main] *)

Lemma only_refl (p : call -> bool) (w : world) : only p w w.
Proof. exists []. split; [now rewrite app_nil_r|constructor]. Qed.

Lemma only_trans (p : call -> bool) (a b c : world) :
  only p a b -> only p b c -> only p a c.
Proof.
  intros (e1 & T1 & S1) (e2 & T2 & S2). exists (e1 ++ e2). split.
  - now rewrite T2, T1, app_assoc.
  - apply Forall_app. now split.
Qed.

Ltac only_side := first [exact (only_refl _) | exact (only_trans _)].

Ltac only_leaf :=
  intro; cbn;
  first [exists []; split; [symmetry; apply app_nil_r|constructor]
        |eexists [_]; split;
         [reflexivity
         |constructor; [first [reflexivity | exact I]|constructor]]].

Ltac only_tac := repeat pres_step only_side; try only_leaf.

Lemma setup_ipaddrs_iface_phase (o : oracle) (iface : string)
    (tokens : list string) :
  forall da f,
    preserves (only iface_phase_call) (setup_ipaddrs o iface tokens da f).
Proof.
  induction tokens as [|t rest IH]; intros da f; cbn [setup_ipaddrs].
  - only_tac.
  - unfold lxi_iface_ip, lxi_getif. cbv zeta.
    repeat pres_step only_side; try apply IH; only_leaf.
Qed.

Lemma setup_nwifs_iface_phase (o : oracle) (nwifs : list zone_nwiftab) :
  forall da, preserves (only iface_phase_call) (setup_nwifs o nwifs da).
Proof.
  induction nwifs as [|n rest IH]; intro da; cbn [setup_nwifs].
  - only_tac.
  - pres_step only_side; [|apply IH].
    unfold setup_nwif, setup_addresses, setup_gateway, lxi_iface_gateway,
      write_rtmsg, lxi_net_plumb, lxi_iface_ipv6_link_local, lxi_iface_dhcp,
      lxi_getif.
    cbv zeta.
    repeat pres_step only_side; try apply setup_ipaddrs_iface_phase;
      only_leaf.
Qed.

Lemma iface_phase (o : oracle) (handle : zone_dochandle) :
  preserves (only iface_phase_call)
            (lxi_init handle ;; lxi_net_loopback o ;; lxi_net_setup o handle).
Proof.
  pres_step only_side; [unfold lxi_init; only_tac|].
  pres_step only_side.
  - unfold lxi_net_loopback, lxi_net_plumb, lxi_iface_ip, lxi_getif,
      lxi_iface_ipv6_link_local.
    cbv zeta. only_tac.
  - unfold lxi_net_setup, lxi_net_ndpd_start, lxi_svc_start.
    pres_step only_side; [apply setup_nwifs_iface_phase|]. only_tac.
Qed.

Lemma normalize_phase (o : oracle) (handle : zone_dochandle) :
  preserves (only is_set_prop) (lxi_normalize_protocols o handle).
Proof.
  unfold lxi_normalize_protocols, lxi_kern_release_cmp. cbv zeta.
  pres_step only_side; [only_tac|].
  pres_step only_side. unfold normalize_proto. only_tac.
Qed.

Lemma route_phase (o : oracle) (routeinfo : option (list string)) :
  preserves (only route_phase_call) (lxi_net_static_routes o routeinfo).
Proof.
  unfold lxi_net_static_routes.
  pres_step only_side; [|only_tac].
  pres_step only_side; [|only_tac].
  pres_step only_side.
  unfold lxi_net_static_route, lxi_iface_gateway, write_rtmsg. cbv zeta.
  only_tac.
Qed.

(** X19. The network part of [main] runs in three phases, in this
    order: the set-up of the interfaces (with the loopback interface
    and in.ndpd), in which no protocol property is set and the
    routeinfo command is not run; the normalizer, which only sets
    protocol properties; and the static routes, which only use the
    routing socket and the routeinfo command.  So every address is
    assigned before any buffer size is set, and every static route
    comes after both. *)
Theorem main_net_phases (o : oracle) (handle : zone_dochandle)
    (routeinfo : option (list string)) (w : world) :
  exists out w' e1 e2 e3,
    lxi_main_net o handle routeinfo w = (out, w') /\
    trace w' = trace w ++ e1 ++ e2 ++ e3 /\
    calls_in iface_phase_call e1 /\
    calls_in is_set_prop e2 /\
    calls_in route_phase_call e3.
Proof.
  assert (A : lxi_main_net o handle routeinfo w =
              bind (lxi_init handle ;; lxi_net_loopback o ;;
                    lxi_net_setup o handle)
                   (fun _ => bind (lxi_normalize_protocols o handle)
                                  (fun _ => lxi_net_static_routes o routeinfo))
                   w).
  { unfold lxi_main_net, bind.
    destruct (lxi_init handle w) as [[[]| |] w1]; try reflexivity.
    destruct (lxi_net_loopback o w1) as [[[]| |] w2]; reflexivity. }
  rewrite A. clear A.
  destruct (iface_phase o handle w) as (e1 & T1 & P1).
  unfold bind at 1.
  destruct ((lxi_init handle ;; lxi_net_loopback o ;; lxi_net_setup o handle)
              w) as [[[]| |] w1]; cbn [snd] in T1.
  2:{ exists Exit, w1, e1, [], []. rewrite !app_nil_r.
      repeat split; try assumption; constructor. }
  2:{ exists Fault, w1, e1, [], []. rewrite !app_nil_r.
      repeat split; try assumption; constructor. }
  destruct (normalize_phase o handle w1) as (e2 & T2 & P2).
  unfold bind at 1.
  destruct (lxi_normalize_protocols o handle w1) as [[[]| |] w2];
    cbn [snd] in T2.
  2:{ exists Exit, w2, e1, e2, []. rewrite !app_nil_r.
      split; [reflexivity|]. split; [now rewrite T2, T1, app_assoc|].
      repeat split; try assumption; constructor. }
  2:{ exists Fault, w2, e1, e2, []. rewrite !app_nil_r.
      split; [reflexivity|]. split; [now rewrite T2, T1, app_assoc|].
      repeat split; try assumption; constructor. }
  destruct (route_phase o routeinfo w2) as (e3 & T3 & P3).
  destruct (lxi_net_static_routes o routeinfo w2) as [out w3];
    cbn [snd] in T3.
  exists out, w3, e1, e2, e3. split; [reflexivity|].
  split; [now rewrite T3, T2, T1, !app_assoc|].
  repeat split; assumption.
Qed.

(** ** DHCP comes first, on the interface itself *)

Lemma dhcp_phase_calls (base : string) (evs : list event) :
  calls_in (dhcp_phase_call base) evs ->
  addifs evs = [] /\ addrobjs evs = [] /\
  Forall (fun n => n = base) (dhcp_requests evs).
Proof.
  induction 1 as [|e evs He _ (IH1 & IH2 & IH3)];
    [repeat split; constructor|].
  change (addifs (e :: evs)) with (addif_of e ++ addifs evs).
  change (addrobjs (e :: evs)) with (addrobj_of e ++ addrobjs evs).
  change (dhcp_requests (e :: evs))
    with (dhcp_request_of e ++ dhcp_requests evs).
  rewrite IH1, IH2.
  destruct e as [c r|fmt|fmt]; [|repeat split; exact IH3..].
  destruct c; cbn in He; try discriminate He;
    (split; [reflexivity|]); (split; [reflexivity|]); try exact IH3.
  cbn. constructor; [now apply String.eqb_eq|exact IH3].
Qed.

Lemma lxi_iface_dhcp_phase (o : oracle) (iface : string) :
  preserves (only (dhcp_phase_call (strncpy iface LIFNAMSIZ)))
            (lxi_iface_dhcp o iface false).
Proof.
  unfold lxi_iface_dhcp. cbv zeta.
  apply (preserves_bind_post _
           (fun x : Z * string => snd x = strncpy iface LIFNAMSIZ));
    [exact (only_trans _)
    |unfold lxi_getif; cbn [is_inet6 orb]; only_tac
    | |].
  - intros w0 [rc iface'] w1 E.
    destruct (lxi_getif_run o AF_INET (strncpy iface LIFNAMSIZ) LIFNAMSIZ
                false w0)
      as (rc0 & i0 & w2 & evs & R & _ & _ & _ & _ & HB & _).
    rewrite R in E. injection E as _ <- _.
    now destruct (HB eq_refl).
  - intros [rc iface'] E. cbn [snd] in E. subst iface'.
    unfold sys_dhcp_request.
    repeat pres_step only_side;
      try (intro; cbn; eexists [_]; split;
           [reflexivity
           |constructor; [first [apply String.eqb_refl | reflexivity | exact I]
                         |constructor]]).
Qed.

(** X20. In the interface loop DHCP comes before the addresses and on
    the interface itself: the events of the address part of an
    interface split into a first part, in which no logical interface is
    asked for, no address object is created and every request to the
    DHCP agent names the physical interface (cut to LIFNAMSIZ), and a
    second part without any call to the DHCP agent. *)
Theorem dhcp_first_on_physical_interface (o : oracle)
    (iface ipaddrs : string) (da : bool) (w : world) :
  exists out w' e1 e2,
    setup_addresses o iface ipaddrs da w = (out, w') /\
    trace w' = trace w ++ e1 ++ e2 /\
    addifs e1 = [] /\ addrobjs e1 = [] /\
    Forall (fun n => n = strncpy iface LIFNAMSIZ) (dhcp_requests e1) /\
    dhcp_calls e2 = [].
Proof.
  unfold setup_addresses. cbv zeta.
  set (first :=
         if strstr ipaddrs "dhcp"
         then x <- lxi_iface_dhcp o iface false ;;
              (let (r, ficp) := x in
               when (negb (r =? 0)) (lxi_warn "Failed to start DHCP on %s\n") ;;
               ret ficp)
         else ret false).
  assert (P1 : preserves (only (dhcp_phase_call (strncpy iface LIFNAMSIZ)))
                         first).
  { unfold first. pres_step only_side; [|only_tac].
    pres_step only_side; [apply lxi_iface_dhcp_phase|]. only_tac. }
  destruct (P1 w) as (e1 & T1 & C1).
  apply dhcp_phase_calls in C1. destruct C1 as (A1 & B1 & D1).
  unfold bind at 1.
  destruct (first w) as [[ficp| |] w1]; cbn [snd] in T1.
  - pose proof (setup_ipaddrs_no_dhcp o iface
                  (strtok_all "," (strlcpy ipaddrs MAXNAMELEN) "") da ficp w1)
      as (e2 & T2 & S2).
    fold (dhcp_calls e2) in S2.
    destruct (setup_ipaddrs o iface
                (strtok_all "," (strlcpy ipaddrs MAXNAMELEN) "") da ficp w1)
      as [out w2]; cbn [snd] in T2.
    exists out, w2, e1, e2. split; [reflexivity|].
    split; [now rewrite T2, T1, app_assoc|]. now repeat split.
  - exists Exit, w1, e1, []. rewrite app_nil_r. now repeat split.
  - exists Fault, w1, e1, []. rewrite app_nil_r. now repeat split.
Qed.

(** ** The further properties at sample inputs *)

Lemma kern_release_cmp_sign_witness :
  zonecfg_lookup_attr (zone_attrs zone_example) "kernel-version"
    = Some "3.3.9"%string /\
  digit_runs_le 9 "3.3.9" 0 = true /\
  digit_runs_le 9 "3.4.0" 0 = true /\
  sscanf_version "3.3.9" = [3; 3; 9] /\
  sscanf_version "3.4.0" = [3; 4; 0] /\
  exists r,
    lxi_kern_release_cmp zone_example "3.4.0" world0 = (Ret r, world0) /\
    (r = 1 \/ r = 0 \/ r = -1) /\
    (0 < r <-> version_lt (3, 4, 0) (3, 3, 9)) /\
    (r < 0 <-> version_lt (3, 3, 9) (3, 4, 0)) /\
    (r = 0 <-> (3, 3, 9) = (3, 4, 0)).
Proof.
  split; [reflexivity|]. split; [reflexivity|]. split; [reflexivity|].
  split; [reflexivity|]. split; [reflexivity|].
  apply (kern_release_cmp_sign zone_example "3.3.9" "3.4.0" 3 3 9 3 4 0 world0);
    reflexivity.
Defined.

Lemma ipv6_disabled_zone_witness :
  zonecfg_lookup_attr (zone_attrs zone_ipv6_off) "ipv6" = Some "false"%string /\
  exists out w' evs,
    lxi_main_net oracle_ok zone_ipv6_off None world0 = (out, w') /\
    trace w' = trace world0 ++ evs /\
    ipv6_enable w' = false /\
    ipv6_setup evs = [] /\
    (Exists (fun n => zone_find_attr (zone_nwif_attrp n) "ipv6" = Some "true"%string)
            (zone_nwifs zone_ipv6_off) -> out <> Ret tt).
Proof.
  split; [reflexivity|].
  apply (ipv6_disabled_zone oracle_ok zone_ipv6_off None world0). reflexivity.
Defined.

Lemma unconfigured_interface_witness :
  nwif_ipaddrs nwif_unconfigured = None /\
  exists out w' evs,
    setup_nwif oracle_ok nwif_unconfigured false world0 = (out, w') /\
    trace w' = trace world0 ++ evs /\
    addrobjs evs = [] /\ addifs evs = [] /\ dhcp_calls evs = [] /\
    calls is_nametoindex evs = [] /\ routes_written evs = [] /\
    (forall da', out = Ret da' -> da' = false).
Proof.
  split; [reflexivity|].
  apply (unconfigured_interface oracle_ok nwif_unconfigured false world0).
  reflexivity.
Defined.

(** The sample runs: the zone with IPv6 off comes up with its address
    and its default route and without any IPv6 set-up, and the
    interface without an address list is only plumbed and brought up. *)
Example zone_ipv6_off_run :
  exists w',
    lxi_main_net oracle_ok zone_ipv6_off None world0 = (Ret tt, w') /\
    addrobjs (trace w') = ["lo0/addr0"; "net0/addr1"]%string /\
    List.length (routes_written (trace w')) = 1%nat /\
    List.length (set_props (trace w')) = 12%nat /\
    ipv6_setup (trace w') = [].
Proof. eexists. split; [vm_compute; reflexivity|]. vm_compute. auto. Qed.

Example nwif_unconfigured_run :
  exists w',
    setup_nwif oracle_ok nwif_unconfigured false world0 = (Ret false, w') /\
    warnings (trace w')
      = ["Could not find zonecfg(8) network configuration for the %s interface"%string] /\
    List.length (calls is_create_if (trace w')) = 2%nat /\
    List.length (calls is_setflags (trace w')) = 1%nat.
Proof. eexists. split; [vm_compute; reflexivity|]. vm_compute. auto. Qed.

(** ** DHCP for an interface and the addresses after it *)

(** The start of [lxi_iface_dhcp] on an interface without an IPv4
    address yet: its socket call, then the agent, then the request for
    the interface. *)
Lemma lxi_iface_dhcp_attempt (o : oracle) (iface : string) (w : world) :
  let name := strncpy iface LIFNAMSIZ in
  exists out w1 evs1,
    lxi_iface_dhcp o iface false w = (out, w1) /\
    trace w1 = trace w ++ evs1 /\
    (exists rest,
       evs1 = ECall (C_socket AF_INET) (sys_ret o (clock w) (C_socket AF_INET))
              :: rest) /\
    (0 <= sys_ret o (clock w) (C_socket AF_INET) ->
     hd_error (dhcp_calls evs1) = Some (C_dhcp_start_agent 5)) /\
    (0 <= sys_ret o (clock w) (C_socket AF_INET) ->
     sys_ret o (2 + clock w) (C_dhcp_start_agent 5) = 0 ->
     sys_ret o (3 + clock w) (C_dhcp_ipc_alloc_request name) <> 0 ->
     dhcp_requests evs1 = [name]).
Proof.
  cbv zeta. unfold lxi_iface_dhcp, lxi_getif, sys_dhcp_request.
  generalize (strncpy iface LIFNAMSIZ) as name. intro name.
  cbn [plus is_inet6 orb]. run_step.
  split_ifs; cbn; cbn [clock] in *; bool_hyps;
    do 3 eexists; (split; [reflexivity|]); flatten_trace;
    (split; [reflexivity|]);
    (split; [eexists; reflexivity|]);
    (split; [intro; first [reflexivity | lia]|]);
    intros; first [reflexivity | lia | congruence | contradiction].
Qed.

(** C7: when the DHCP request of an interface times out, fails or is
    answered with a non-zero return code (the socket, the agent and the
    request allocation having succeeded), [lxi_iface_dhcp] returns a
    non-zero value after a warning and no error, the flag
    [first_ipv4_configured] stays false, and the setup of the interface
    goes on, after one more warning, with the pass over the address
    tokens, started with the flag false.  That pass returns without an
    error and calls [lxi_iface_ip] for every token that is an address,
    in their order: it opens one socket per such token, for the family
    of the token, and hands these tokens to [ipadm_set_addr] unless a
    socket, a logical interface or an address object is refused. *)
Theorem dhcp_failure_is_warning (o : oracle) (iface ipaddrs : string)
    (da : bool) (w : world) :
  let name := strncpy iface LIFNAMSIZ in
  let tokens := strtok_all "," (strlcpy ipaddrs MAXNAMELEN) "" in
  strstr ipaddrs "dhcp" = true ->
  0 <= sys_ret o (clock w) (C_socket AF_INET) ->
  sys_ret o (2 + clock w) (C_dhcp_start_agent 5) = 0 ->
  sys_ret o (3 + clock w) (C_dhcp_ipc_alloc_request name) <> 0 ->
  (sys_ret o (4 + clock w) (C_dhcp_ipc_make_request name 5) <> 0 \/
   sys_reply_code o (4 + clock w) <> 0) ->
  exists rc w1 evs,
    lxi_iface_dhcp o iface false w = (Ret (rc, false), w1) /\
    rc <> 0 /\
    trace w1 = trace w ++ evs ++ [EWarn "Failed to start DHCP on %s: %s\n"] /\
    errs evs = [] /\
    setup_addresses o iface ipaddrs da w =
      setup_ipaddrs o iface tokens
        da false (log (EWarn "Failed to start DHCP on %s\n") w1) /\
    exists da' f' w2 evs2,
      setup_addresses o iface ipaddrs da w = (Ret (da', f'), w2) /\
      trace w2 = trace w1 ++ EWarn "Failed to start DHCP on %s\n" :: evs2 /\
      errs evs2 = [] /\
      map fst (calls is_socket evs2)
        = map (fun t => C_socket (family_of t)) (literal_tokens tokens) /\
      (existsb blocks_set_addr evs2 = false ->
       map snd (set_addrs evs2) = literal_tokens tokens).
Proof.
  intros name tokens Hstr Hsock Hagent Halloc Hreq.
  assert (R : exists rc w1 evs,
             lxi_iface_dhcp o iface false w = (Ret (rc, false), w1) /\
             rc <> 0 /\
             trace w1 =
               trace w ++ evs ++ [EWarn "Failed to start DHCP on %s: %s\n"] /\
             errs evs = []).
  { unfold lxi_iface_dhcp, lxi_getif, sys_dhcp_request.
    change (strncpy iface LIFNAMSIZ) with name. clearbody name.
    cbn [plus] in *. run_step.
    destruct (Z.ltb_spec (sys_ret o (clock w) (C_socket AF_INET)) 0); [lia|].
    cbn.
    destruct (negb (sys_ret o (S (clock w)) C_close =? 0)); cbn;
      rewrite Hagent; cbn;
      (destruct (Z.eqb_spec
                   (sys_ret o (S (S (S (clock w))))
                      (C_dhcp_ipc_alloc_request name)) 0);
       [contradiction|]); cbn;
      (destruct (Z.eqb_spec
                   (sys_ret o (S (S (S (S (clock w)))))
                      (C_dhcp_ipc_make_request name 5)) 0); cbn;
       [destruct (Z.eqb_spec (sys_reply_code o (S (S (S (S (clock w)))))) 0);
        cbn; [exfalso; tauto|]|]);
      first
        [ eexists _, _, [_; _; _; _; _];
          (split; [reflexivity|]);
          (split; [first [assumption | discriminate]|]);
          flatten_trace; (split; reflexivity)
        | eexists _, _, [_; _; _; _; _; _];
          (split; [reflexivity|]);
          (split; [first [assumption | discriminate]|]);
          flatten_trace; (split; reflexivity) ]. }
  destruct R as (rc & w1 & evs & R & Hrc & T & E).
  exists rc, w1, evs. repeat (split; [assumption|]).
  assert (U : setup_addresses o iface ipaddrs da w =
              setup_ipaddrs o iface tokens da false
                (log (EWarn "Failed to start DHCP on %s\n") w1)).
  { unfold setup_addresses. rewrite Hstr.
    unfold bind at 1. unfold bind at 1. rewrite R. cbv beta iota.
    unfold bind at 1.
    destruct (Z.eqb_spec rc 0); [contradiction|]. reflexivity. }
  split; [exact U|]. rewrite U.
  set (w1' := log (EWarn "Failed to start DHCP on %s\n") w1).
  destruct (setup_ipaddrs_cases o iface tokens da false w1')
    as (f' & w2 & evs2 & R2 & T2 & E2 & _).
  destruct (setup_ipaddrs_applies o iface tokens da false w1')
    as (out & w2' & evs2' & R2' & T2' & S2 & A2).
  rewrite R2 in R2'. injection R2' as <- <-.
  rewrite T2 in T2'. apply app_inv_head in T2'. subst evs2'.
  exists (da || existsb (fun t => streq t "addrconf") tokens), f', w2, evs2.
  split; [exact R2|].
  split; [rewrite T2; unfold w1'; cbn; now rewrite <- app_assoc|].
  split; [exact E2|]. split; [exact S2|exact A2].
Qed.

(** C10: DHCP is tried for an interface exactly when "dhcp" occurs as a
    substring of the unsplit address string.  Without it the setup is
    the pass over the tokens alone and calls nothing of the DHCP agent
    library.  With it the setup starts with one [lxi_iface_dhcp] call:
    its socket call is the first event, the agent is started when the
    socket is there, and the request names the interface when the agent
    and the request allocation are there; the call is made before any
    address object is created, what follows makes no further DHCP call
    (so at most one request per interface), and the tokens equal to
    "dhcp" are skipped by the pass over the tokens. *)
Theorem dhcp_when_substring (o : oracle) (iface ipaddrs : string)
    (da : bool) (w : world) :
  let tokens := strtok_all "," (strlcpy ipaddrs MAXNAMELEN) "" in
  let w' := snd (setup_addresses o iface ipaddrs da w) in
  let name := strncpy iface LIFNAMSIZ in
  (strstr ipaddrs "dhcp" = true <->
   exists pre post, ipaddrs = (pre ++ "dhcp" ++ post)%string) /\
  (strstr ipaddrs "dhcp" = false ->
   setup_addresses o iface ipaddrs da w =
     setup_ipaddrs o iface tokens da false w /\
   exists evs, trace w' = trace w ++ evs /\ dhcp_calls evs = []) /\
  (strstr ipaddrs "dhcp" = true ->
   exists out w1 evs1 evs2,
     lxi_iface_dhcp o iface false w = (out, w1) /\
     trace w1 = trace w ++ evs1 /\
     trace w' = trace w1 ++ evs2 /\
     addrobjs evs1 = [] /\
     dhcp_calls evs2 = [] /\
     (List.length (dhcp_requests (evs1 ++ evs2)) <= 1)%nat /\
     (exists rest,
        evs1 = ECall (C_socket AF_INET) (sys_ret o (clock w) (C_socket AF_INET))
               :: rest) /\
     (0 <= sys_ret o (clock w) (C_socket AF_INET) ->
      hd_error (dhcp_calls evs1) = Some (C_dhcp_start_agent 5)) /\
     (0 <= sys_ret o (clock w) (C_socket AF_INET) ->
      sys_ret o (2 + clock w) (C_dhcp_start_agent 5) = 0 ->
      sys_ret o (3 + clock w) (C_dhcp_ipc_alloc_request name) <> 0 ->
      dhcp_requests evs1 = [name])) /\
  (forall f w0,
     setup_ipaddrs o iface tokens da f w0 =
     setup_ipaddrs o iface (filter (fun t => negb (streq t "dhcp")) tokens)
                   da f w0).
Proof.
  intros tokens w' name. split; [apply strstr_spec|]. split; [|split].
  - intro Hstr. unfold w', setup_addresses. rewrite Hstr.
    split; [reflexivity|].
    exact (setup_ipaddrs_no_dhcp o iface tokens da false w).
  - intro Hstr.
    destruct (lxi_iface_dhcp_run o iface false w)
      as (out & w1 & evs1 & R & T & A & D & _ & _).
    destruct (lxi_iface_dhcp_attempt o iface w)
      as (out' & w1' & evs1' & R' & T' & F1 & F2 & F3).
    cbv zeta in F3. fold name in F3.
    rewrite R in R'. injection R' as <- <-.
    rewrite T in T'. apply app_inv_head in T'. subst evs1'.
    exists out, w1, evs1.
    assert (S2 : silent dhcp_call_of w1 w').
    { unfold w', setup_addresses. rewrite Hstr.
      unfold bind at 1. unfold bind at 1. rewrite R.
      destruct out as [[r ficp]| |]; cbn [snd]; try apply silent_refl.
      cbv beta iota.
      assert (P : preserves (silent dhcp_call_of)
                    (bind (bind (when (negb (r =? 0))
                                   (lxi_warn "Failed to start DHCP on %s\n"))
                                (fun _ => ret ficp))
                          (fun ficp => setup_ipaddrs o iface tokens da ficp))).
      { repeat pres_step silent_side;
          auto using setup_ipaddrs_no_dhcp with lxi_silent. }
      exact (P w1). }
    destruct S2 as (evs2 & T2 & D2). exists evs2.
    fold (dhcp_calls evs2) in D2.
    repeat (split; [assumption|]).
    split.
    { rewrite dhcp_requests_app, (no_dhcp_calls_no_requests _ D2), app_nil_r.
      exact D. }
    split; [exact F1|]. split; [exact F2|exact F3].
  - intros f w0. apply setup_ipaddrs_skips_dhcp.
Qed.

(** ** The revised properties at sample inputs *)


Lemma dhcp_failure_is_warning_witness :
  strstr "dhcp,10.0.0.6/24" "dhcp" = true /\
  0 <= sys_ret oracle_dhcp_timeout (clock world0) (C_socket AF_INET) /\
  sys_ret oracle_dhcp_timeout (2 + clock world0) (C_dhcp_start_agent 5) = 0 /\
  sys_ret oracle_dhcp_timeout (3 + clock world0)
    (C_dhcp_ipc_alloc_request (strncpy "net0" LIFNAMSIZ)) <> 0 /\
  (sys_ret oracle_dhcp_timeout (4 + clock world0)
     (C_dhcp_ipc_make_request (strncpy "net0" LIFNAMSIZ) 5) <> 0 \/
   sys_reply_code oracle_dhcp_timeout (4 + clock world0) <> 0) /\
  exists rc w1 evs,
    lxi_iface_dhcp oracle_dhcp_timeout "net0" false world0
      = (Ret (rc, false), w1) /\
    rc <> 0 /\
    trace w1 =
      trace world0 ++ evs ++ [EWarn "Failed to start DHCP on %s: %s\n"] /\
    errs evs = [] /\
    setup_addresses oracle_dhcp_timeout "net0" "dhcp,10.0.0.6/24" false world0 =
      setup_ipaddrs oracle_dhcp_timeout "net0"
        (strtok_all "," (strlcpy "dhcp,10.0.0.6/24" MAXNAMELEN) "")
        false false (log (EWarn "Failed to start DHCP on %s\n") w1) /\
    exists da' f' w2 evs2,
      setup_addresses oracle_dhcp_timeout "net0" "dhcp,10.0.0.6/24" false world0
        = (Ret (da', f'), w2) /\
      trace w2 = trace w1 ++ EWarn "Failed to start DHCP on %s\n" :: evs2 /\
      errs evs2 = [] /\
      map fst (calls is_socket evs2)
        = map (fun t => C_socket (family_of t))
              (literal_tokens
                 (strtok_all "," (strlcpy "dhcp,10.0.0.6/24" MAXNAMELEN) "")) /\
      (existsb blocks_set_addr evs2 = false ->
       map snd (set_addrs evs2)
       = literal_tokens
           (strtok_all "," (strlcpy "dhcp,10.0.0.6/24" MAXNAMELEN) "")).
Proof.
  split; [reflexivity|]. split; [vm_compute; discriminate|].
  split; [reflexivity|]. split; [vm_compute; discriminate|].
  split; [left; vm_compute; discriminate|].
  apply (dhcp_failure_is_warning oracle_dhcp_timeout "net0"
           "dhcp,10.0.0.6/24" false world0).
  - reflexivity.
  - vm_compute; discriminate.
  - reflexivity.
  - vm_compute; discriminate.
  - left; vm_compute; discriminate.
Defined.

(** The run behind it: after the DHCP timeout the address 10.0.0.6/24
    is handed to [ipadm_set_addr] for net0/addr0, on net0 itself. *)
Example dhcp_timeout_then_address :
  exists da f w2,
    setup_addresses oracle_dhcp_timeout "net0" "dhcp,10.0.0.6/24" false world0
      = (Ret (da, f), w2) /\
    literal_tokens (strtok_all "," (strlcpy "dhcp,10.0.0.6/24" MAXNAMELEN) "")
      = ["10.0.0.6/24"%string] /\
    set_addrs (trace w2) = [("net0/addr0", "10.0.0.6/24")]%string /\
    warnings (trace w2)
      = ["Failed to start DHCP on %s: %s\n"; "Failed to start DHCP on %s\n"]%string
    /\ addifs (trace w2) = [] /\ errs (trace w2) = [].
Proof.
  do 3 eexists. split; [vm_compute; reflexivity|]. vm_compute. auto.
Qed.

(** A line with no '|' at all: the gateway stays NULL. *)
Example static_route_only_gateway :
  fst (lxi_net_static_route oracle_ok "10.77.77.2" world0) = Fault.
Proof. reflexivity. Qed.

(** The error of [lxi_net_static_routes] has the command between
    double quotes; a failed allocation ends a line with its own
    error. *)
Example failed_to_run_quoted :
  nth_error (list_ascii_of_string failed_to_run) 14 = Some "034"%char /\
  nth_error (list_ascii_of_string failed_to_run) 17 = Some "034"%char /\
  String.length failed_to_run = 22%nat.
Proof. repeat split. Qed.

Example static_route_strdup_failure :
  lxi_net_static_route_mem
    (fun a => match a with at_strdup 10 => true | _ => false end)
    oracle_ok "10.77.77.2|10.1.1.0/24|false" world0
  = (Exit, log (EErr "strdup failure") world0).
Proof. reflexivity. Qed.
